(** * OpenSubdiv, Osd layer: the GL transform-feedback evaluator

    A shallow embedding of [opensubdiv/osd/glXFBEvaluator.cpp].  The file is a
    thin binding layer over OpenGL, so the embedding is a small state and
    exception monad over a [World] that holds the sequence of GL commands
    issued so far, the part of the GL context the commands act on (binding
    points, object tables) and the messages handed to [Far::Error]. *)

From Stdlib Require Import ZArith Lia List.
From stdpp Require Import gmap strings pretty.
Import ListNotations.

Local Open Scope Z_scope.

(** ** C++ integers *)

Module CInt.

Definition INT_MIN : Z := - 2 ^ 31.
Definition INT_MAX : Z := 2 ^ 31 - 1.

(** Membership in the range of a 32-bit [int]. *)
Definition in_int (z : Z) : Prop := INT_MIN <= z <= INT_MAX.

(** Conversion of an integer value to [int]: reduction modulo [2^32] into
    the signed range.  It is also what [int] arithmetic yields on the
    two's complement targets the library builds for. *)
Definition to_int (z : Z) : Z := (z + 2 ^ 31) mod 2 ^ 32 - 2 ^ 31.

Definition int_add (a b : Z) : Z := to_int (a + b).
Definition int_sub (a b : Z) : Z := to_int (a - b).
Definition int_mul (a b : Z) : Z := to_int (a * b).

(** [a % b] on [int]: the remainder of the division truncated towards
    zero.  It does not return when [b] is zero or when the quotient is not
    representable ([INT_MIN % -1]). *)
Definition int_rem (a b : Z) : option Z :=
  if b =? 0 then None
  else if (a =? INT_MIN) && (b =? -1) then None
  else Some (Z.rem a b).

(** Conversion to [size_t] (64 bits, unsigned) and to the signed 64-bit
    [GLintptr] / [GLsizeiptr]. *)
Definition to_size_t (z : Z) : Z := z mod 2 ^ 64.
Definition to_ptrdiff (z : Z) : Z := (z + 2 ^ 63) mod 2 ^ 64 - 2 ^ 63.

(** [sizeof(float)], [sizeof(int)] and the element size of every table
    vector uploaded by this file. *)
Definition sizeof_float : Z := 4.
Definition sizeof_int : Z := 4.

(** [v * sizeof(T)] with [v] an [int] and the product taken in [size_t],
    then passed where GL expects a signed pointer-sized integer. *)
Definition bytes_of (v elt : Z) : Z := to_ptrdiff (to_size_t (to_size_t v * elt)).

End CInt.
Export CInt.

Arguments to_int : simpl never.
Arguments int_rem : simpl never.
Arguments to_size_t : simpl never.
Arguments to_ptrdiff : simpl never.
Arguments bytes_of : simpl never.

(** ** Text *)

Module Text.

Definition newline : string := String (Ascii.ascii_of_nat 10) EmptyString.

(** [operator<<(int)] and [printf]'s [%d]: signed decimal. *)
Definition decimal (z : Z) : string := pretty z.

(** What a bounded C buffer of [size] bytes keeps of [s]: at most
    [size - 1] characters (the last byte holds the terminator). *)
Definition truncate (size : Z) (s : string) : string :=
  String.substring 0 (Z.to_nat (size - 1)) s.

(** [snprintf(buf, size, "outVertexBuffer[%d]", i)]. *)
Definition snprintf_outVertexBuffer (size i : Z) : string :=
  truncate size ("outVertexBuffer[" +:+ decimal i +:+ "]").

End Text.
Export Text.

(** ** OpenGL enumerants, commands and context *)

Inductive GLenum :=
| GL_TEXTURE_BUFFER | GL_ARRAY_BUFFER | GL_TRANSFORM_FEEDBACK_BUFFER
| GL_ARRAY_BUFFER_BINDING | GL_TEXTURE_BINDING_BUFFER
| GL_R32UI | GL_R32I | GL_R32F
| GL_STATIC_DRAW | GL_VERTEX_SHADER | GL_INTERLEAVED_ATTRIBS | GL_LINK_STATUS
| GL_RASTERIZER_DISCARD | GL_POINTS | GL_UNSIGNED_INT | GL_FLOAT
| GL_TEXTURE0_plus (unit : Z).

Definition GL_FALSE : Z := 0.
Definition GL_TRUE : Z := 1.

Global Instance GLenum_eq_dec : EqDecision GLenum.
Proof. solve_decision. Defined.

(** The GL entry points the file calls, with the arguments it gives them,
    and the two sync entry points its comments point to.  Object names and
    integers are [Z]; a pointer to client memory is the data it points
    to. *)
Inductive GLCall :=
| GenBuffers (n : Z)
| GenTextures (n : Z)
| GenVertexArrays (n : Z)
| CreateProgram
| CreateShader (type : GLenum)
| NamedBufferDataEXT (buffer size : Z) (data : list Z) (usage : GLenum)
| TextureBufferEXT (texture : Z) (target internalformat : GLenum) (buffer : Z)
| GetIntegerv (pname : GLenum)
| BindBuffer (target : GLenum) (buffer : Z)
| BufferData (target : GLenum) (size : Z) (data : list Z) (usage : GLenum)
| BindTexture (target : GLenum) (texture : Z)
| TexBuffer (target internalformat : GLenum) (buffer : Z)
| DeleteBuffers (buffer : Z)
| DeleteTextures (texture : Z)
| DeleteProgram (program : Z)
| DeleteShader (shader : Z)
| DeleteVertexArrays (array : Z)
| ShaderSource (shader count : Z) (sources : list string)
| CompileShader (shader : Z)
| AttachShader (program shader : Z)
| TransformFeedbackVaryings (program count : Z) (varyings : list string)
                            (bufferMode : GLenum)
| LinkProgram (program : Z)
| GetProgramiv (program : Z) (pname : GLenum)
| GetShaderInfoLog (shader maxLength : Z)
| GetProgramInfoLog (program maxLength : Z)
| GetUniformLocation (program : Z) (name : string)
| Finish
| FenceSync
| ClientWaitSync (sync : Z)
| Uniform1i (location value : Z)
| Uniform4iv (location count : Z) (value : list Z)
| ActiveTexture (texture : GLenum)
| BindVertexArray (array : Z)
| Enable (cap : GLenum)
| Disable (cap : GLenum)
| UseProgram (program : Z)
| BindBufferRange (target : GLenum) (index buffer offset size : Z)
| BeginTransformFeedback (primitiveMode : GLenum)
| DrawArrays (mode : GLenum) (first count : Z)
| EndTransformFeedback
| EnableVertexAttribArray (index : Z)
| DisableVertexAttribArray (index : Z)
| VertexAttribIPointer (index size : Z) (type : GLenum) (stride pointer : Z)
| VertexAttribPointer (index size : Z) (type : GLenum) (normalized : Z)
                      (stride pointer : Z).

(** The data store of a buffer object. *)
Record BufObj := { buf_size : Z; buf_data : list Z }.

(** A buffer texture: its internal format and the buffer attached to it. *)
Record TexObj := { tex_format : GLenum; tex_buffer : Z }.

(** A program object: attached shaders, transform-feedback varyings and the
    result of the last link. *)
Record ProgObj := {
  po_shaders : list Z;
  po_varyings : list string;
  po_linked : bool
}.

(** Binding points of the context. *)
Record Bindings := {
  array_buffer : Z;                 (* GL_ARRAY_BUFFER_BINDING *)
  xfb_buffer : Z;                   (* GL_TRANSFORM_FEEDBACK_BUFFER_BINDING *)
  active_texture : Z;               (* GL_ACTIVE_TEXTURE - GL_TEXTURE0 *)
  texture_binding : gmap Z Z;       (* GL_TEXTURE_BINDING_BUFFER, per unit *)
  current_program : Z;              (* GL_CURRENT_PROGRAM *)
  vertex_array : Z;                 (* GL_VERTEX_ARRAY_BINDING *)
  rasterizer_discard : bool         (* GL_RASTERIZER_DISCARD *)
}.

(** Object tables of the context.  Names are handed out from a counter, so
    a generated name is never zero. *)
Record Objects := {
  next_name : positive;
  buffers : gmap Z BufObj;
  textures : gmap Z TexObj;
  shaders : gmap Z (list string);
  programs : gmap Z ProgObj;
  vaos : gset Z
}.

(** Modelled from the spec: [Far::ErrorType] (far/error.h) is not among
    the sources.  The spec speaks of runtime errors forwarded from the
    driver; this file only ever passes [FAR_RUNTIME_ERROR], the other
    members are the remaining error classes of the library. *)
Inductive ErrorType :=
| FAR_NO_ERROR | FAR_FATAL_ERROR | FAR_INTERNAL_CODING_ERROR
| FAR_CODING_ERROR | FAR_RUNTIME_ERROR.

Record World := {
  gl_trace : list GLCall;               (* commands issued, oldest first *)
  far_errors : list (ErrorType * string); (* messages given to Far::Error *)
  gl_bind : Bindings;
  gl_obj : Objects
}.

(** The buffer texture bound on [unit] (zero when none was ever bound). *)
Definition bound_texture (b : Bindings) (unit : Z) : Z :=
  default 0 (texture_binding b !! unit).

(** ** The driver

    What the GL implementation decides on its own: whether the direct state
    access entry points are available, whether a program links, the info
    logs it writes and where it puts uniforms. *)
Record Driver := {
  drv_direct_state_access : bool;
  drv_link : list (list string) -> list string -> bool;
  drv_shader_log : list string -> string;
  drv_program_log : list (list string) -> list string -> string;
  drv_uniform_location : Z -> string -> Z
}.

(** ** Field updates *)

Definition set_array_buffer (v : Z) (b : Bindings) : Bindings :=
  {| array_buffer := v; xfb_buffer := xfb_buffer b;
     active_texture := active_texture b; texture_binding := texture_binding b;
     current_program := current_program b; vertex_array := vertex_array b;
     rasterizer_discard := rasterizer_discard b |}.

Definition set_xfb_buffer (v : Z) (b : Bindings) : Bindings :=
  {| array_buffer := array_buffer b; xfb_buffer := v;
     active_texture := active_texture b; texture_binding := texture_binding b;
     current_program := current_program b; vertex_array := vertex_array b;
     rasterizer_discard := rasterizer_discard b |}.

Definition set_active_texture (v : Z) (b : Bindings) : Bindings :=
  {| array_buffer := array_buffer b; xfb_buffer := xfb_buffer b;
     active_texture := v; texture_binding := texture_binding b;
     current_program := current_program b; vertex_array := vertex_array b;
     rasterizer_discard := rasterizer_discard b |}.

Definition set_texture_binding (v : gmap Z Z) (b : Bindings) : Bindings :=
  {| array_buffer := array_buffer b; xfb_buffer := xfb_buffer b;
     active_texture := active_texture b; texture_binding := v;
     current_program := current_program b; vertex_array := vertex_array b;
     rasterizer_discard := rasterizer_discard b |}.

Definition set_current_program (v : Z) (b : Bindings) : Bindings :=
  {| array_buffer := array_buffer b; xfb_buffer := xfb_buffer b;
     active_texture := active_texture b; texture_binding := texture_binding b;
     current_program := v; vertex_array := vertex_array b;
     rasterizer_discard := rasterizer_discard b |}.

Definition set_vertex_array (v : Z) (b : Bindings) : Bindings :=
  {| array_buffer := array_buffer b; xfb_buffer := xfb_buffer b;
     active_texture := active_texture b; texture_binding := texture_binding b;
     current_program := current_program b; vertex_array := v;
     rasterizer_discard := rasterizer_discard b |}.

Definition set_rasterizer_discard (v : bool) (b : Bindings) : Bindings :=
  {| array_buffer := array_buffer b; xfb_buffer := xfb_buffer b;
     active_texture := active_texture b; texture_binding := texture_binding b;
     current_program := current_program b; vertex_array := vertex_array b;
     rasterizer_discard := v |}.

Definition set_next_name (v : positive) (o : Objects) : Objects :=
  {| next_name := v; buffers := buffers o; textures := textures o;
     shaders := shaders o; programs := programs o; vaos := vaos o |}.

Definition set_buffers (v : gmap Z BufObj) (o : Objects) : Objects :=
  {| next_name := next_name o; buffers := v; textures := textures o;
     shaders := shaders o; programs := programs o; vaos := vaos o |}.

Definition set_textures (v : gmap Z TexObj) (o : Objects) : Objects :=
  {| next_name := next_name o; buffers := buffers o; textures := v;
     shaders := shaders o; programs := programs o; vaos := vaos o |}.

Definition set_shaders (v : gmap Z (list string)) (o : Objects) : Objects :=
  {| next_name := next_name o; buffers := buffers o; textures := textures o;
     shaders := v; programs := programs o; vaos := vaos o |}.

Definition set_programs (v : gmap Z ProgObj) (o : Objects) : Objects :=
  {| next_name := next_name o; buffers := buffers o; textures := textures o;
     shaders := shaders o; programs := v; vaos := vaos o |}.

Definition set_vaos (v : gset Z) (o : Objects) : Objects :=
  {| next_name := next_name o; buffers := buffers o; textures := textures o;
     shaders := shaders o; programs := programs o; vaos := v |}.

Definition log_call (c : GLCall) (w : World) : World :=
  {| gl_trace := gl_trace w ++ [c]; far_errors := far_errors w;
     gl_bind := gl_bind w; gl_obj := gl_obj w |}.

Definition log_error (e : ErrorType) (msg : string) (w : World) : World :=
  {| gl_trace := gl_trace w; far_errors := far_errors w ++ [(e, msg)];
     gl_bind := gl_bind w; gl_obj := gl_obj w |}.

(** ** What a command does to the context *)

Section GL.

Variable drv : Driver.

Definition fresh (o : Objects) : Objects :=
  set_next_name (Pos.succ (next_name o)) o.

Definition empty_program : ProgObj :=
  {| po_shaders := []; po_varyings := []; po_linked := false |}.

(** The source strings of the shaders attached to a program. *)
Definition attached_sources (o : Objects) (p : ProgObj) : list (list string) :=
  omap (fun s => shaders o !! s) (po_shaders p).

Definition link (o : Objects) (p : ProgObj) : ProgObj :=
  {| po_shaders := po_shaders p; po_varyings := po_varyings p;
     po_linked := drv_link drv (attached_sources o p) (po_varyings p) |}.

Definition attach (s : Z) (p : ProgObj) : ProgObj :=
  {| po_shaders := po_shaders p ++ [s]; po_varyings := po_varyings p;
     po_linked := po_linked p |}.

Definition set_varyings (vs : list string) (p : ProgObj) : ProgObj :=
  {| po_shaders := po_shaders p; po_varyings := vs;
     po_linked := po_linked p |}.

(** A binding point after the object [name] is deleted. *)
Definition unbind (name : Z) (bound : Z) : Z :=
  if decide (bound = name) then 0 else bound.

(** The effect of one command on the binding points.  Commands that only
    read, draw, or set uniforms and vertex attributes leave them alone. *)
Definition bind_effect (c : GLCall) (b : Bindings) : Bindings :=
  match c with
  | BindBuffer GL_ARRAY_BUFFER n => set_array_buffer n b
  | BindBuffer GL_TRANSFORM_FEEDBACK_BUFFER n => set_xfb_buffer n b
  | BindBufferRange GL_TRANSFORM_FEEDBACK_BUFFER _ n _ _ => set_xfb_buffer n b
  | BindTexture GL_TEXTURE_BUFFER t =>
      set_texture_binding (<[active_texture b := t]> (texture_binding b)) b
  | ActiveTexture (GL_TEXTURE0_plus u) => set_active_texture u b
  | DeleteBuffers n =>
      set_array_buffer (unbind n (array_buffer b))
        (set_xfb_buffer (unbind n (xfb_buffer b)) b)
  | DeleteTextures t =>
      set_texture_binding (unbind t <$> texture_binding b) b
  | UseProgram p => set_current_program p b
  | BindVertexArray a => set_vertex_array a b
  | DeleteVertexArrays a => set_vertex_array (unbind a (vertex_array b)) b
  | Enable GL_RASTERIZER_DISCARD => set_rasterizer_discard true b
  | Disable GL_RASTERIZER_DISCARD => set_rasterizer_discard false b
  | _ => b
  end.

(** The effect of one command on the object tables, under the bindings in
    force when it is issued. *)
Definition obj_effect (c : GLCall) (b : Bindings) (o : Objects) : Objects :=
  match c with
  | GenBuffers _ | GenTextures _ | GenVertexArrays _ => fresh o
  | CreateProgram =>
      fresh (set_programs
        (<[Z.pos (next_name o) := empty_program]> (programs o)) o)
  | CreateShader _ =>
      fresh (set_shaders (<[Z.pos (next_name o) := []]> (shaders o)) o)
  | NamedBufferDataEXT n size data _ =>
      set_buffers
        (<[n := {| buf_size := size; buf_data := data |}]> (buffers o)) o
  | BufferData GL_ARRAY_BUFFER size data _ =>
      if decide (array_buffer b = 0) then o
      else set_buffers
        (<[array_buffer b := {| buf_size := size; buf_data := data |}]>
           (buffers o)) o
  | TextureBufferEXT t _ fmt n =>
      set_textures
        (<[t := {| tex_format := fmt; tex_buffer := n |}]> (textures o)) o
  | TexBuffer GL_TEXTURE_BUFFER fmt n =>
      let t := bound_texture b (active_texture b) in
      if decide (t = 0) then o
      else set_textures
        (<[t := {| tex_format := fmt; tex_buffer := n |}]> (textures o)) o
  | DeleteBuffers n =>
      (* the name is released; the data store stays for the buffer
         textures that still refer to it *)
      o
  | DeleteTextures t => set_textures (delete t (textures o)) o
  | DeleteProgram p =>
      (* a program in use is only flagged for deletion *)
      if decide (current_program b = p) then o
      else set_programs (delete p (programs o)) o
  | DeleteShader s => set_shaders (delete s (shaders o)) o
  | ShaderSource s _ srcs => set_shaders (<[s := srcs]> (shaders o)) o
  | AttachShader p s => set_programs (alter (attach s) p (programs o)) o
  | TransformFeedbackVaryings p n vs _ =>
      set_programs
        (alter (set_varyings (take (Z.to_nat n) vs)) p (programs o)) o
  | LinkProgram p => set_programs (alter (link o) p (programs o)) o
  | BindVertexArray a =>
      if decide (a = 0) then o else set_vaos ({[a]} ∪ vaos o) o
  | DeleteVertexArrays a => set_vaos (vaos o ∖ {[a]}) o
  | _ => o
  end.

Definition effect (c : GLCall) (w : World) : World :=
  {| gl_trace := gl_trace w; far_errors := far_errors w;
     gl_bind := bind_effect c (gl_bind w);
     gl_obj := obj_effect c (gl_bind w) (gl_obj w) |}.

End GL.

(** ** The monad: GL context, command log, C++ exceptions and traps *)

Inductive Fault :=
| std_out_of_range        (* thrown by [std::vector::at] *)
| integer_division.       (* [%] with no defined result *)

Inductive Res (A : Type) :=
| Ok (a : A)
| Raised (f : Fault).
Arguments Ok {A} a.
Arguments Raised {A} f.

Definition GLM (A : Type) : Type := World -> Res A * World.

Definition ret {A} (a : A) : GLM A := fun w => (Ok a, w).

Definition bind {A B} (m : GLM A) (k : A -> GLM B) : GLM B :=
  fun w => match m w with
           | (Ok a, w') => k a w'
           | (Raised f, w') => (Raised f, w')
           end.

Definition raise {A} (f : Fault) : GLM A := fun w => (Raised f, w).

Declare Scope glm_scope.
Delimit Scope glm_scope with glm.
Notation "x <- c ;; k" := (bind c (fun x => k))
  (at level 100, c at next level, right associativity) : glm_scope.
Notation "c ;; k" := (bind c (fun _ => k))
  (at level 100, right associativity) : glm_scope.
Local Open Scope glm_scope.

(** [for (int i = lo; i < hi; ++i) body(i)] *)
Definition for_int (lo hi : Z) (body : Z -> GLM unit) : GLM unit :=
  foldr (fun i rest => body i ;; rest) (ret tt) (seqZ lo (hi - lo)).

(** The same loop when the body only updates a local variable. *)
Definition for_int_local {S} (lo hi : Z) (body : Z -> S -> S) (s : S) : S :=
  foldl (fun acc i => body i acc) s (seqZ lo (hi - lo)).

(** [&v.at(i)]: the elements from index [i] on; throws when [i] is not an
    index of [v]. *)
Definition address_at {A} (v : list A) (i : nat) : GLM (list A) :=
  if decide (i < length v)%nat then ret (drop i v) else raise std_out_of_range.

(** [a % b] *)
Definition rem (a b : Z) : GLM Z :=
  match int_rem a b with
  | Some r => ret r
  | None => raise integer_division
  end.

(** Modelled from the spec: [Far::Error] (far/error.h) is not among the
    sources.  Errors are forwarded to the library error callback; a call is
    recorded as the error type and message the callback receives. *)
Definition Far_Error (e : ErrorType) (msg : string) : GLM unit :=
  fun w => (Ok tt, log_error e msg w).

Section Commands.

Variable drv : Driver.

(** Issue a command: it takes effect and is appended to the log. *)
Definition call (c : GLCall) : GLM unit :=
  fun w => (Ok tt, log_call c (effect drv c w)).

(** Commands that hand back a fresh name. *)
Definition gen (c : GLCall) : GLM Z :=
  fun w => (Ok (Z.pos (next_name (gl_obj w))), log_call c (effect drv c w)).

(** Commands that read the context. *)
Definition query {A} (c : GLCall) (read : World -> A) : GLM A :=
  fun w => (Ok (read w), log_call c w).

Definition glGenBuffers : GLM Z := gen (GenBuffers 1).
Definition glGenTextures : GLM Z := gen (GenTextures 1).
Definition glGenVertexArrays : GLM Z := gen (GenVertexArrays 1).
Definition glCreateProgram : GLM Z := gen CreateProgram.
Definition glCreateShader (type : GLenum) : GLM Z := gen (CreateShader type).

Definition glGetIntegerv (pname : GLenum) (params : Z) : GLM Z :=
  query (GetIntegerv pname) (fun w =>
    match pname with
    | GL_ARRAY_BUFFER_BINDING => array_buffer (gl_bind w)
    | GL_TEXTURE_BINDING_BUFFER =>
        bound_texture (gl_bind w) (active_texture (gl_bind w))
    | _ => params
    end).

(** [params] is the value the output variable holds before the call; it
    is left alone when the query is not answered. *)
Definition glGetProgramiv (program : Z) (pname : GLenum) (params : Z) : GLM Z :=
  query (GetProgramiv program pname) (fun w =>
    match pname, programs (gl_obj w) !! program with
    | GL_LINK_STATUS, Some po => if po_linked po then GL_TRUE else GL_FALSE
    | _, _ => params
    end).

Definition glGetShaderInfoLog (shader maxLength : Z) : GLM string :=
  query (GetShaderInfoLog shader maxLength) (fun w =>
    truncate maxLength
      (drv_shader_log drv (default [] (shaders (gl_obj w) !! shader)))).

Definition glGetProgramInfoLog (program maxLength : Z) : GLM string :=
  query (GetProgramInfoLog program maxLength) (fun w =>
    let po := default empty_program (programs (gl_obj w) !! program) in
    truncate maxLength
      (drv_program_log drv (attached_sources (gl_obj w) po) (po_varyings po))).

Definition glGetUniformLocation (program : Z) (name : string) : GLM Z :=
  query (GetUniformLocation program name) (fun _ =>
    drv_uniform_location drv program name).

End Commands.

(** ** Types declared in headers that are not among the sources *)

(** Modelled from the spec: [Osd::VertexBufferDescriptor], the source or
    destination buffer layout, is declared in a header that is not among
    the sources.  Its fields are the three [int]s this file reads, counted
    in floats. *)
Record VertexBufferDescriptor := {
  offset : Z;
  length : Z;
  stride : Z
}.

(** Modelled from the spec: [Far::StencilTable] (far/stencilTable.h) is
    not among the sources; it is an opaque table of (source vertex, weight)
    groups.  It is taken as the constructor below sees it: the results of
    [GetNumStencils], [GetSizes], [GetOffsets], [GetControlIndices] and
    [GetWeights].  All four vectors have four-byte elements; a weight is the
    bit pattern of its [float]. *)
Record StencilTable := {
  GetNumStencils : Z;
  GetSizes : list Z;
  GetOffsets : list Z;
  GetControlIndices : list Z;
  GetWeights : list Z
}.

(** Modelled from the spec: [Osd::PatchArray] is declared in a header that
    is not among the sources; this file only reinterprets an array of them
    as [GLint]s, so a patch array is the list of its [int] fields. *)
Definition PatchArray : Type := list Z.

(** The classes of this file are declared in osd/glXFBEvaluator.h, which is
    not among the sources; their members are the ones the methods use.
    The members of the two kernel structs carry a prefix, [sk_] or [pk_],
    because both have a [program] and two uniforms of the same name. *)
Record GLStencilTableTBO := {
  _sizes : Z;
  _offsets : Z;
  _indices : Z;
  _weights : Z;
  _numStencils : Z
}.

Record StencilKernel := {
  sk_program : Z;
  sk_uniformSrcBufferTexture : Z;
  sk_uniformSrcOffset : Z;
  sk_uniformSizesTexture : Z;
  sk_uniformOffsetsTexture : Z;
  sk_uniformIndicesTexture : Z;
  sk_uniformWeightsTexture : Z;
  sk_uniformStart : Z;
  sk_uniformEnd : Z
}.

Record PatchKernel := {
  pk_program : Z;
  pk_uniformSrcBufferTexture : Z;
  pk_uniformSrcOffset : Z;
  pk_uniformPatchArray : Z;
  pk_uniformPatchParamTexture : Z;
  pk_uniformPatchIndexTexture : Z
}.

Record GLXFBEvaluator := {
  _srcBufferTexture : Z;
  _stencilKernel : StencilKernel;
  _patchKernel : PatchKernel
}.

(** ** The source file *)

Section Evaluator.

Variable drv : Driver.

(** The text of [glslXFBKernel.gen.h], a generated header. *)
Variable shaderSource : string.

Local Abbreviation gl := (call drv).

(** [createGLTextureBuffer<T>], with [sizeof_T = sizeof(T)]. *)
Definition createGLTextureBuffer (sizeof_T : Z) (src : list Z) (type : GLenum)
  : GLM Z :=
  let size := to_int (to_size_t (Z.of_nat (List.length src) * sizeof_T)) in
  ptr <- address_at src 0 ;;
  buffer <- glGenBuffers drv ;;
  devicePtr <- glGenTextures drv ;;
  (if drv_direct_state_access drv then
     gl (NamedBufferDataEXT buffer size ptr GL_STATIC_DRAW) ;;
     gl (TextureBufferEXT devicePtr GL_TEXTURE_BUFFER type buffer)
   else
     prev <- glGetIntegerv GL_ARRAY_BUFFER_BINDING 0 ;;
     gl (BindBuffer GL_ARRAY_BUFFER buffer) ;;
     gl (BufferData GL_ARRAY_BUFFER size ptr GL_STATIC_DRAW) ;;
     gl (BindBuffer GL_ARRAY_BUFFER prev) ;;
     prev <- glGetIntegerv GL_TEXTURE_BINDING_BUFFER prev ;;
     gl (BindTexture GL_TEXTURE_BUFFER devicePtr) ;;
     gl (TexBuffer GL_TEXTURE_BUFFER type buffer) ;;
     gl (BindTexture GL_TEXTURE_BUFFER prev)) ;;
  gl (DeleteBuffers buffer) ;;
  ret devicePtr.

(** [GLStencilTableTBO::GLStencilTableTBO] *)
Definition GLStencilTableTBO_new (stencilTable : StencilTable)
  : GLM GLStencilTableTBO :=
  let numStencils := GetNumStencils stencilTable in
  if 0 <? numStencils then
    sizes <- createGLTextureBuffer sizeof_int (GetSizes stencilTable) GL_R32UI ;;
    offsets <- createGLTextureBuffer sizeof_int
                 (GetOffsets stencilTable) GL_R32I ;;
    indices <- createGLTextureBuffer sizeof_int
                 (GetControlIndices stencilTable) GL_R32I ;;
    weights <- createGLTextureBuffer sizeof_float
                 (GetWeights stencilTable) GL_R32F ;;
    ret {| _sizes := sizes; _offsets := offsets; _indices := indices;
           _weights := weights; _numStencils := numStencils |}
  else
    ret {| _sizes := 0; _offsets := 0; _indices := 0; _weights := 0;
           _numStencils := numStencils |}.

Definition when (c : bool) (m : GLM unit) : GLM unit :=
  if c then m else ret tt.

(** [GLStencilTableTBO::~GLStencilTableTBO] *)
Definition GLStencilTableTBO_delete (this : GLStencilTableTBO) : GLM unit :=
  when (negb (_sizes this =? 0)) (gl (DeleteTextures (_sizes this))) ;;
  when (negb (_offsets this =? 0)) (gl (DeleteTextures (_offsets this))) ;;
  when (negb (_weights this =? 0)) (gl (DeleteTextures (_weights this))) ;;
  when (negb (_indices this =? 0)) (gl (DeleteTextures (_indices this))).

(** [GLXFBEvaluator::GLXFBEvaluator] *)
Definition GLXFBEvaluator_new : GLXFBEvaluator :=
  {| _srcBufferTexture := 0;
     _stencilKernel := Build_StencilKernel 0 0 0 0 0 0 0 0 0;
     _patchKernel := Build_PatchKernel 0 0 0 0 0 0 |}.

(** [GLXFBEvaluator::~GLXFBEvaluator] *)
Definition GLXFBEvaluator_delete (this : GLXFBEvaluator) : GLM unit :=
  when (negb (sk_program (_stencilKernel this) =? 0))
       (gl (DeleteProgram (sk_program (_stencilKernel this)))) ;;
  when (negb (pk_program (_patchKernel this) =? 0))
       (gl (DeleteProgram (pk_program (_patchKernel this)))) ;;
  when (negb (_srcBufferTexture this =? 0))
       (gl (DeleteTextures (_srcBufferTexture this))).

(** The [defines] string stream of [compileKernel]. *)
Definition defineStr (srcDesc : VertexBufferDescriptor) (kernelDefine : string)
  : string :=
  "#define LENGTH " +:+ decimal (length srcDesc) +:+ newline +:+
  "#define SRC_STRIDE " +:+ decimal (stride srcDesc) +:+ newline +:+
  kernelDefine +:+ newline.

Definition shaderSources (srcDesc : VertexBufferDescriptor)
  (kernelDefine : string) : list string :=
  [ "#version 410" +:+ newline; defineStr srcDesc kernelDefine; shaderSource ].

(** The three loops of [compileKernel] that fill [outputs], given
    [primvarOffset]. *)
Definition fill_outputs (primvarOffset : Z) (dstDesc : VertexBufferDescriptor)
  : list string :=
  let outputs := [] in
  let outputs := for_int_local 0 primvarOffset
                   (fun _ out => out ++ ["gl_SkipComponents1"]) outputs in
  let outputs := for_int_local 0 (length dstDesc)
                   (fun i out => out ++ [snprintf_outVertexBuffer 32 i])
                   outputs in
  let outputs := for_int_local (int_add primvarOffset (length dstDesc))
                   (stride dstDesc)
                   (fun _ out => out ++ ["gl_SkipComponents1"]) outputs in
  outputs.

(** [compileKernel] *)
Definition compileKernel (srcDesc dstDesc : VertexBufferDescriptor)
  (kernelDefine : string) : GLM Z :=
  program <- glCreateProgram drv ;;
  shader <- glCreateShader drv GL_VERTEX_SHADER ;;
  gl (ShaderSource shader 3 (shaderSources srcDesc kernelDefine)) ;;
  gl (CompileShader shader) ;;
  gl (AttachShader program shader) ;;
  primvarOffset <- rem (offset dstDesc) (stride dstDesc) ;;
  let outputs := fill_outputs primvarOffset dstDesc in
  let pOutputs := outputs in
  gl (TransformFeedbackVaryings program
        (to_int (Z.of_nat (List.length outputs))) pOutputs
        GL_INTERLEAVED_ATTRIBS) ;;
  let linked := 0 in
  gl (LinkProgram program) ;;
  linked <- glGetProgramiv program GL_LINK_STATUS linked ;;
  program <- (if linked =? GL_FALSE then
                buffer <- glGetShaderInfoLog drv shader 1024 ;;
                Far_Error FAR_RUNTIME_ERROR buffer ;;
                buffer <- glGetProgramInfoLog drv program 1024 ;;
                Far_Error FAR_RUNTIME_ERROR buffer ;;
                gl (DeleteProgram program) ;;
                ret 0
              else ret program) ;;
  gl (DeleteShader shader) ;;
  ret program.

Definition with_program (p : Z) (k : StencilKernel) : StencilKernel :=
  {| sk_program := p;
     sk_uniformSrcBufferTexture := sk_uniformSrcBufferTexture k;
     sk_uniformSrcOffset := sk_uniformSrcOffset k;
     sk_uniformSizesTexture := sk_uniformSizesTexture k;
     sk_uniformOffsetsTexture := sk_uniformOffsetsTexture k;
     sk_uniformIndicesTexture := sk_uniformIndicesTexture k;
     sk_uniformWeightsTexture := sk_uniformWeightsTexture k;
     sk_uniformStart := sk_uniformStart k;
     sk_uniformEnd := sk_uniformEnd k |}.

Definition with_patch_program (p : Z) (k : PatchKernel) : PatchKernel :=
  {| pk_program := p;
     pk_uniformSrcBufferTexture := pk_uniformSrcBufferTexture k;
     pk_uniformSrcOffset := pk_uniformSrcOffset k;
     pk_uniformPatchArray := pk_uniformPatchArray k;
     pk_uniformPatchParamTexture := pk_uniformPatchParamTexture k;
     pk_uniformPatchIndexTexture := pk_uniformPatchIndexTexture k |}.

(** [GLXFBEvaluator::Compile].  The method assigns to members of [this]
    as it goes, so it returns the object next to its result. *)
Definition Compile (this : GLXFBEvaluator)
  (srcDesc dstDesc : VertexBufferDescriptor) : GLM (bool * GLXFBEvaluator) :=
  (* create stencil kernel *)
  when (negb (sk_program (_stencilKernel this) =? 0))
       (gl (DeleteProgram (sk_program (_stencilKernel this)))) ;;
  program <- compileKernel srcDesc dstDesc
               "#define OPENSUBDIV_GLSL_XFB_KERNEL_EVAL_STENCILS" ;;
  let this := {| _srcBufferTexture := _srcBufferTexture this;
                 _stencilKernel := with_program program (_stencilKernel this);
                 _patchKernel := _patchKernel this |} in
  if program =? 0 then ret (false, this) else
  (* cache uniform locations *)
  uSrcBufferTexture <- glGetUniformLocation drv program "vertexBuffer" ;;
  uSrcOffset <- glGetUniformLocation drv program "srcOffset" ;;
  uSizesTexture <- glGetUniformLocation drv program "sizes" ;;
  uOffsetsTexture <- glGetUniformLocation drv program "offsets" ;;
  uIndicesTexture <- glGetUniformLocation drv program "indices" ;;
  uWeightsTexture <- glGetUniformLocation drv program "weights" ;;
  uStart <- glGetUniformLocation drv program "batchStart" ;;
  uEnd <- glGetUniformLocation drv program "batchEnd" ;;
  let stencilKernel :=
    {| sk_program := program;
       sk_uniformSrcBufferTexture := uSrcBufferTexture;
       sk_uniformSrcOffset := uSrcOffset;
       sk_uniformSizesTexture := uSizesTexture;
       sk_uniformOffsetsTexture := uOffsetsTexture;
       sk_uniformIndicesTexture := uIndicesTexture;
       sk_uniformWeightsTexture := uWeightsTexture;
       sk_uniformStart := uStart;
       sk_uniformEnd := uEnd |} in
  (* create patch kernel *)
  when (negb (pk_program (_patchKernel this) =? 0))
       (gl (DeleteProgram (pk_program (_patchKernel this)))) ;;
  program <- compileKernel srcDesc dstDesc
               "#define OPENSUBDIV_GLSL_XFB_KERNEL_EVAL_PATCHES" ;;
  let this := {| _srcBufferTexture := _srcBufferTexture this;
                 _stencilKernel := stencilKernel;
                 _patchKernel := with_patch_program program (_patchKernel this) |} in
  if program =? 0 then ret (false, this) else
  (* cache uniform locations *)
  uSrcBufferTexture <- glGetUniformLocation drv program "vertexBuffer" ;;
  uSrcOffset <- glGetUniformLocation drv program "srcOffset" ;;
  uPatchArray <- glGetUniformLocation drv program "patchArray" ;;
  uPatchParamTexture <- glGetUniformLocation drv program "patchParamBuffer" ;;
  uPatchIndexTexture <- glGetUniformLocation drv program "patchIndexBuffer" ;;
  let patchKernel :=
    {| pk_program := program;
       pk_uniformSrcBufferTexture := uSrcBufferTexture;
       pk_uniformSrcOffset := uSrcOffset;
       pk_uniformPatchArray := uPatchArray;
       pk_uniformPatchParamTexture := uPatchParamTexture;
       pk_uniformPatchIndexTexture := uPatchIndexTexture |} in
  (* create a texture for input buffer *)
  srcBufferTexture <- (if _srcBufferTexture this =? 0
                       then glGenTextures drv
                       else ret (_srcBufferTexture this)) ;;
  ret (true, {| _srcBufferTexture := srcBufferTexture;
                _stencilKernel := stencilKernel;
                _patchKernel := patchKernel |}).

(** [GLXFBEvaluator::Synchronize], a static method; [kernel] is its unnamed
    [void *] argument. *)
Definition Synchronize (kernel : Z) : GLM unit :=
  gl Finish.

(** [bindTexture] *)
Definition bindTexture (sampler texture unit : Z) : GLM Datatypes.unit :=
  if sampler =? -1 then ret tt else
  gl (Uniform1i sampler unit) ;;
  gl (ActiveTexture (GL_TEXTURE0_plus unit)) ;;
  gl (BindTexture GL_TEXTURE_BUFFER texture) ;;
  gl (ActiveTexture (GL_TEXTURE0_plus 0)).

(** [GLXFBEvaluator::EvalStencils] *)
Definition EvalStencils (this : GLXFBEvaluator)
  (srcBuffer : Z) (srcDesc : VertexBufferDescriptor)
  (dstBuffer : Z) (dstDesc : VertexBufferDescriptor)
  (sizesTexture offsetsTexture indicesTexture weightsTexture : Z)
  (start end_ : Z) : GLM bool :=
  let stencilKernel := _stencilKernel this in
  if sk_program stencilKernel =? 0 then ret false else
  let count := int_sub end_ start in
  if count <=? 0 then ret true else
  (* bind vertex array *)
  vao <- glGenVertexArrays drv ;;
  gl (BindVertexArray vao) ;;
  gl (Enable GL_RASTERIZER_DISCARD) ;;
  gl (UseProgram (sk_program stencilKernel)) ;;
  (* set input VBO as a texture buffer *)
  gl (BindTexture GL_TEXTURE_BUFFER (_srcBufferTexture this)) ;;
  gl (TexBuffer GL_TEXTURE_BUFFER GL_R32F srcBuffer) ;;
  gl (BindTexture GL_TEXTURE_BUFFER 0) ;;
  bindTexture (sk_uniformSrcBufferTexture stencilKernel)
              (_srcBufferTexture this) 0 ;;
  (* bind stencil table textures *)
  bindTexture (sk_uniformSizesTexture stencilKernel) sizesTexture 1 ;;
  bindTexture (sk_uniformOffsetsTexture stencilKernel) offsetsTexture 2 ;;
  bindTexture (sk_uniformIndicesTexture stencilKernel) indicesTexture 3 ;;
  bindTexture (sk_uniformWeightsTexture stencilKernel) weightsTexture 4 ;;
  (* set batch range *)
  gl (Uniform1i (sk_uniformStart stencilKernel) start) ;;
  gl (Uniform1i (sk_uniformEnd stencilKernel) end_) ;;
  gl (Uniform1i (sk_uniformSrcOffset stencilKernel) (offset srcDesc)) ;;
  (* the destination buffer is bound at vertex boundary *)
  r <- rem (offset dstDesc) (stride dstDesc) ;;
  let dstBufferBindOffset := int_sub (offset dstDesc) r in
  (* bind destination buffer *)
  gl (BindBufferRange GL_TRANSFORM_FEEDBACK_BUFFER 0 dstBuffer
        (bytes_of dstBufferBindOffset sizeof_float)
        (bytes_of (int_mul count (stride dstDesc)) sizeof_float)) ;;
  gl (BeginTransformFeedback GL_POINTS) ;;
  gl (DrawArrays GL_POINTS 0 count) ;;
  gl EndTransformFeedback ;;
  gl (BindBuffer GL_TRANSFORM_FEEDBACK_BUFFER 0) ;;
  for_int 0 5 (fun i =>
    gl (ActiveTexture (GL_TEXTURE0_plus i)) ;;
    gl (BindTexture GL_TEXTURE_BUFFER 0)) ;;
  gl (Disable GL_RASTERIZER_DISCARD) ;;
  gl (UseProgram 0) ;;
  gl (ActiveTexture (GL_TEXTURE0_plus 0)) ;;
  (* revert vao *)
  gl (BindVertexArray 0) ;;
  gl (DeleteVertexArrays vao) ;;
  ret true.

(** [GLXFBEvaluator::EvalPatches]; the descriptors of the derivative
    buffers are unnamed in the source and unused. *)
Definition EvalPatches (this : GLXFBEvaluator)
  (srcBuffer : Z) (srcDesc : VertexBufferDescriptor)
  (dstBuffer : Z) (dstDesc : VertexBufferDescriptor)
  (duBuffer : Z) (duDesc : VertexBufferDescriptor)
  (dvBuffer : Z) (dvDesc : VertexBufferDescriptor)
  (numPatchCoords : Z) (patchCoordsBuffer : Z)
  (patchArrays : list PatchArray)
  (patchIndexTexture patchParamTexture : Z) : GLM bool :=
  let patchKernel := _patchKernel this in
  if pk_program patchKernel =? 0 then ret false else
  when (negb (duBuffer =? 0) || negb (dvBuffer =? 0))
    (Far_Error FAR_RUNTIME_ERROR
       ("GLXFBEvaluator doesn't support derivative evaluation yet." +:+
        newline)) ;;
  (* bind vertex array *)
  vao <- glGenVertexArrays drv ;;
  gl (BindVertexArray vao) ;;
  gl (Enable GL_RASTERIZER_DISCARD) ;;
  gl (UseProgram (pk_program patchKernel)) ;;
  (* set input VBO as a texture buffer *)
  gl (BindTexture GL_TEXTURE_BUFFER (_srcBufferTexture this)) ;;
  gl (TexBuffer GL_TEXTURE_BUFFER GL_R32F srcBuffer) ;;
  gl (BindTexture GL_TEXTURE_BUFFER 0) ;;
  bindTexture (pk_uniformSrcBufferTexture patchKernel)
              (_srcBufferTexture this) 0 ;;
  (* bind patch index and patch param textures *)
  bindTexture (pk_uniformPatchParamTexture patchKernel) patchParamTexture 1 ;;
  bindTexture (pk_uniformPatchIndexTexture patchKernel) patchIndexTexture 2 ;;
  (* set other uniforms *)
  gl (Uniform4iv (pk_uniformPatchArray patchKernel)
        (to_int (Z.of_nat (List.length patchArrays))) (concat patchArrays)) ;;
  gl (Uniform1i (pk_uniformSrcOffset patchKernel) (offset srcDesc)) ;;
  (* input patchcoords *)
  gl (EnableVertexAttribArray 0) ;;
  gl (EnableVertexAttribArray 1) ;;
  let stride_ := to_int (to_size_t (sizeof_int * 5)) in
  gl (BindBuffer GL_ARRAY_BUFFER patchCoordsBuffer) ;;
  gl (VertexAttribIPointer 0 3 GL_UNSIGNED_INT stride_ 0) ;;
  gl (VertexAttribPointer 1 2 GL_FLOAT GL_FALSE stride_ (sizeof_int * 3)) ;;
  r <- rem (offset dstDesc) (stride dstDesc) ;;
  let dstBufferBindOffset := int_sub (offset dstDesc) r in
  (* bind destination buffer *)
  gl (BindBufferRange GL_TRANSFORM_FEEDBACK_BUFFER 0 dstBuffer
        (bytes_of dstBufferBindOffset sizeof_float)
        (bytes_of (int_mul numPatchCoords (stride dstDesc)) sizeof_float)) ;;
  gl (BeginTransformFeedback GL_POINTS) ;;
  gl (DrawArrays GL_POINTS 0 numPatchCoords) ;;
  gl EndTransformFeedback ;;
  gl (BindBuffer GL_TRANSFORM_FEEDBACK_BUFFER 0) ;;
  (* unbind textures *)
  for_int 0 3 (fun i =>
    gl (ActiveTexture (GL_TEXTURE0_plus i)) ;;
    gl (BindTexture GL_TEXTURE_BUFFER 0)) ;;
  gl (Disable GL_RASTERIZER_DISCARD) ;;
  gl (UseProgram 0) ;;
  gl (ActiveTexture (GL_TEXTURE0_plus 0)) ;;
  gl (DisableVertexAttribArray 0) ;;
  gl (DisableVertexAttribArray 1) ;;
  (* revert vao *)
  gl (BindVertexArray 0) ;;
  gl (DeleteVertexArrays vao) ;;
  ret true.

End Evaluator.

(** ** Observing a run *)

(** The commands a computation issues when started in [w]. *)
Definition issued {A} (m : GLM A) (w : World) : list GLCall :=
  drop (List.length (gl_trace w)) (gl_trace (m w).2).

(** The errors it reports through [Far::Error]. *)
Definition reported {A} (m : GLM A) (w : World) : list (ErrorType * string) :=
  drop (List.length (far_errors w)) (far_errors (m w).2).

(** Its result. *)
Definition result {A} (m : GLM A) (w : World) : Res A := (m w).1.

(** The source strings handed to [glShaderSource], call by call. *)
Definition sources_passed (cs : list GLCall) : list (Z * list string) :=
  omap (fun c => match c with
                 | ShaderSource _ count srcs => Some (count, srcs)
                 | _ => None
                 end) cs.

(** The transform-feedback varyings declared, call by call. *)
Definition varyings_declared (cs : list GLCall)
  : list (Z * list string * GLenum) :=
  omap (fun c => match c with
                 | TransformFeedbackVaryings _ count vs mode =>
                     Some (count, vs, mode)
                 | _ => None
                 end) cs.

(** The draw calls: mode, first vertex, number of vertices. *)
Definition draws (cs : list GLCall) : list (GLenum * Z * Z) :=
  omap (fun c => match c with
                 | DrawArrays mode first count => Some (mode, first, count)
                 | _ => None
                 end) cs.

(** The indexed buffer bindings: target, index, buffer, offset, size. *)
Definition range_bindings (cs : list GLCall) : list (GLenum * Z * Z * Z * Z) :=
  omap (fun c => match c with
                 | BindBufferRange target index buffer off size =>
                     Some (target, index, buffer, off, size)
                 | _ => None
                 end) cs.

(** The textures deleted. *)
Definition textures_deleted (cs : list GLCall) : list Z :=
  omap (fun c => match c with DeleteTextures t => Some t | _ => None end) cs.

(** Uploads into buffer data stores: size in bytes and client data. *)
Definition uploads (cs : list GLCall) : list (Z * list Z) :=
  omap (fun c => match c with
                 | NamedBufferDataEXT _ size data _ => Some (size, data)
                 | BufferData _ size data _ => Some (size, data)
                 | _ => None
                 end) cs.

(** What a sampler of the kernels reads through the buffer texture [t]:
    the internal format of the texture and the data store behind it. *)
Definition texture_contents (o : Objects) (t : Z) : option (GLenum * BufObj) :=
  tex ← textures o !! t ;
  buf ← buffers o !! tex_buffer tex ;
  Some (tex_format tex, buf).

(** ** Straight-line command sequences

    Apart from its guards, an evaluation call is one fixed sequence of
    commands.  The sequences are written out here; the lemmas below show
    that the methods run exactly them. *)

Section Sequences.

Variable drv : Driver.

(** The context after the commands [cs] are issued in order. *)
Definition exec (cs : list GLCall) (w : World) : World :=
  foldl (fun w c => log_call c (effect drv c w)) w cs.

(** The binding points after the commands [cs]. *)
Definition exec_bind (cs : list GLCall) (b : Bindings) : Bindings :=
  foldl (fun b c => bind_effect c b) b cs.

Definition bindTexture_calls (sampler texture unit : Z) : list GLCall :=
  if sampler =? -1 then []
  else [ Uniform1i sampler unit; ActiveTexture (GL_TEXTURE0_plus unit);
         BindTexture GL_TEXTURE_BUFFER texture;
         ActiveTexture (GL_TEXTURE0_plus 0) ].

Definition unbind_calls (units : list Z) : list GLCall :=
  units ≫= fun i => [ ActiveTexture (GL_TEXTURE0_plus i);
                      BindTexture GL_TEXTURE_BUFFER 0 ].

(** [EvalStencils]: the vertex array, the program and the input textures. *)
Definition EvalStencils_inputs (this : GLXFBEvaluator) (srcBuffer : Z)
  (sizesTexture offsetsTexture indicesTexture weightsTexture vao : Z)
  : list GLCall :=
  let k := _stencilKernel this in
  [ GenVertexArrays 1; BindVertexArray vao; Enable GL_RASTERIZER_DISCARD;
    UseProgram (sk_program k);
    BindTexture GL_TEXTURE_BUFFER (_srcBufferTexture this);
    TexBuffer GL_TEXTURE_BUFFER GL_R32F srcBuffer;
    BindTexture GL_TEXTURE_BUFFER 0 ] ++
  bindTexture_calls (sk_uniformSrcBufferTexture k) (_srcBufferTexture this) 0 ++
  bindTexture_calls (sk_uniformSizesTexture k) sizesTexture 1 ++
  bindTexture_calls (sk_uniformOffsetsTexture k) offsetsTexture 2 ++
  bindTexture_calls (sk_uniformIndicesTexture k) indicesTexture 3 ++
  bindTexture_calls (sk_uniformWeightsTexture k) weightsTexture 4.

(** [EvalStencils] up to the point where the destination is bound. *)
Definition EvalStencils_setup (this : GLXFBEvaluator)
  (srcBuffer : Z) (srcDesc : VertexBufferDescriptor)
  (sizesTexture offsetsTexture indicesTexture weightsTexture : Z)
  (start end_ vao : Z) : list GLCall :=
  let k := _stencilKernel this in
  EvalStencils_inputs this srcBuffer sizesTexture offsetsTexture
    indicesTexture weightsTexture vao ++
  [ Uniform1i (sk_uniformStart k) start;
    Uniform1i (sk_uniformEnd k) end_;
    Uniform1i (sk_uniformSrcOffset k) (offset srcDesc) ].

(** The transform-feedback pass over [count] points, with [r] the value of
    [dstDesc.offset % dstDesc.stride]. *)
Definition feedback_pass (dstBuffer : Z) (dstDesc : VertexBufferDescriptor)
  (r count : Z) : list GLCall :=
  [ BindBufferRange GL_TRANSFORM_FEEDBACK_BUFFER 0 dstBuffer
      (bytes_of (int_sub (offset dstDesc) r) sizeof_float)
      (bytes_of (int_mul count (stride dstDesc)) sizeof_float);
    BeginTransformFeedback GL_POINTS;
    DrawArrays GL_POINTS 0 count;
    EndTransformFeedback ].

Definition EvalStencils_teardown (vao : Z) : list GLCall :=
  [ BindBuffer GL_TRANSFORM_FEEDBACK_BUFFER 0 ] ++
  unbind_calls [0; 1; 2; 3; 4] ++
  [ Disable GL_RASTERIZER_DISCARD; UseProgram 0;
    ActiveTexture (GL_TEXTURE0_plus 0);
    BindVertexArray 0; DeleteVertexArrays vao ].

(** [EvalPatches] up to the point where the destination is bound. *)
Definition EvalPatches_setup (this : GLXFBEvaluator)
  (srcBuffer : Z) (srcDesc : VertexBufferDescriptor)
  (patchCoordsBuffer : Z) (patchArrays : list PatchArray)
  (patchIndexTexture patchParamTexture vao : Z) : list GLCall :=
  let k := _patchKernel this in
  [ GenVertexArrays 1; BindVertexArray vao; Enable GL_RASTERIZER_DISCARD;
    UseProgram (pk_program k);
    BindTexture GL_TEXTURE_BUFFER (_srcBufferTexture this);
    TexBuffer GL_TEXTURE_BUFFER GL_R32F srcBuffer;
    BindTexture GL_TEXTURE_BUFFER 0 ] ++
  bindTexture_calls (pk_uniformSrcBufferTexture k) (_srcBufferTexture this) 0 ++
  bindTexture_calls (pk_uniformPatchParamTexture k) patchParamTexture 1 ++
  bindTexture_calls (pk_uniformPatchIndexTexture k) patchIndexTexture 2 ++
  [ Uniform4iv (pk_uniformPatchArray k)
      (to_int (Z.of_nat (List.length patchArrays))) (concat patchArrays);
    Uniform1i (pk_uniformSrcOffset k) (offset srcDesc);
    EnableVertexAttribArray 0; EnableVertexAttribArray 1;
    BindBuffer GL_ARRAY_BUFFER patchCoordsBuffer;
    VertexAttribIPointer 0 3 GL_UNSIGNED_INT
      (to_int (to_size_t (sizeof_int * 5))) 0;
    VertexAttribPointer 1 2 GL_FLOAT GL_FALSE
      (to_int (to_size_t (sizeof_int * 5))) (sizeof_int * 3) ].

Definition EvalPatches_teardown (vao : Z) : list GLCall :=
  [ BindBuffer GL_TRANSFORM_FEEDBACK_BUFFER 0 ] ++
  unbind_calls [0; 1; 2] ++
  [ Disable GL_RASTERIZER_DISCARD; UseProgram 0;
    ActiveTexture (GL_TEXTURE0_plus 0);
    DisableVertexAttribArray 0; DisableVertexAttribArray 1;
    BindVertexArray 0; DeleteVertexArrays vao ].

(** The context after the first statement of [EvalPatches] past its
    guard: the derivative buffers are refused through [Far::Error]. *)
Definition after_derivative_check (duBuffer dvBuffer : Z) (w : World) : World :=
  if negb (duBuffer =? 0) || negb (dvBuffer =? 0)
  then log_error FAR_RUNTIME_ERROR
         ("GLXFBEvaluator doesn't support derivative evaluation yet." +:+
          newline) w
  else w.

(** The name the next [glGen*] or [glCreate*] call returns. *)
Definition next_generated (w : World) : Z := Z.pos (next_name (gl_obj w)).

End Sequences.

(** ** Creating a buffer texture *)

(** The commands of [createGLTextureBuffer]: [buffer] and [devicePtr] are
    the names generated, [prevBuffer] and [prevTexture] the bindings found
    (and put back) when the direct state access entry points are missing. *)
Definition createGLTextureBuffer_calls (direct : bool) (size : Z)
  (src : list Z) (type : GLenum) (buffer devicePtr prevBuffer prevTexture : Z)
  : list GLCall :=
  [ GenBuffers 1; GenTextures 1 ] ++
  (if direct then
     [ NamedBufferDataEXT buffer size src GL_STATIC_DRAW;
       TextureBufferEXT devicePtr GL_TEXTURE_BUFFER type buffer ]
   else
     [ GetIntegerv GL_ARRAY_BUFFER_BINDING;
       BindBuffer GL_ARRAY_BUFFER buffer;
       BufferData GL_ARRAY_BUFFER size src GL_STATIC_DRAW;
       BindBuffer GL_ARRAY_BUFFER prevBuffer;
       GetIntegerv GL_TEXTURE_BINDING_BUFFER;
       BindTexture GL_TEXTURE_BUFFER devicePtr;
       TexBuffer GL_TEXTURE_BUFFER type buffer;
       BindTexture GL_TEXTURE_BUFFER prevTexture ]) ++
  [ DeleteBuffers buffer ].

(** The textures generated. *)
Definition textures_generated (cs : list GLCall) : nat :=
  List.length
    (List.filter (fun c => match c with GenTextures _ => true | _ => false end)
                 cs).

(** The size in bytes of a table vector, and the vectors the constructor
    can upload whole: [at(0)] needs an element, and the size is passed as
    an [int]. *)
Definition table_bytes (v : list Z) : Z := Z.of_nat (List.length v) * 4.

Definition uploadable (v : list Z) : Prop :=
  v <> [] /\ table_bytes v <= INT_MAX.

(** ** Building a kernel *)

Section KernelSequences.

Variable drv : Driver.
Variable shaderSource : string.

(** The commands of [compileKernel] up to the remainder it computes, for
    the program [p] and the shader [s]. *)
Definition compileKernel_prelude (srcDesc : VertexBufferDescriptor)
  (kernelDefine : string) (p s : Z) : list GLCall :=
  [ CreateProgram; CreateShader GL_VERTEX_SHADER;
    ShaderSource s 3 (shaderSources shaderSource srcDesc kernelDefine);
    CompileShader s; AttachShader p s ].

(** The commands from there to the query of the link status, with [r] the
    value of [dstDesc.offset % dstDesc.stride]. *)
Definition compileKernel_link (dstDesc : VertexBufferDescriptor) (r p : Z)
  : list GLCall :=
  [ TransformFeedbackVaryings p
      (to_int (Z.of_nat (List.length (fill_outputs r dstDesc))))
      (fill_outputs r dstDesc) GL_INTERLEAVED_ATTRIBS;
    LinkProgram p; GetProgramiv p GL_LINK_STATUS ].

(** The varyings the program object holds when it is linked. *)
Definition linked_varyings (dstDesc : VertexBufferDescriptor) (r : Z)
  : list string :=
  take (Z.to_nat (to_int (Z.of_nat (List.length (fill_outputs r dstDesc)))))
       (fill_outputs r dstDesc).

(** What the driver answers when the kernel is linked. *)
Definition kernel_links (srcDesc dstDesc : VertexBufferDescriptor)
  (kernelDefine : string) (r : Z) : bool :=
  drv_link drv [shaderSources shaderSource srcDesc kernelDefine]
           (linked_varyings dstDesc r).

(** The info logs the driver keeps for a kernel. *)
Definition kernel_shader_log (srcDesc : VertexBufferDescriptor)
  (kernelDefine : string) : string :=
  drv_shader_log drv (shaderSources shaderSource srcDesc kernelDefine).

Definition kernel_program_log (srcDesc dstDesc : VertexBufferDescriptor)
  (kernelDefine : string) (r : Z) : string :=
  drv_program_log drv [shaderSources shaderSource srcDesc kernelDefine]
                  (linked_varyings dstDesc r).

(** The commands of [compileKernel] after a failed link. *)
Definition link_failure_calls (p s : Z) : list GLCall :=
  [ GetShaderInfoLog s 1024; GetProgramInfoLog p 1024;
    DeleteProgram p; DeleteShader s ].

(** Whether a command hands out a fresh name. *)
Definition generates (c : GLCall) : bool :=
  match c with
  | GenBuffers _ | GenTextures _ | GenVertexArrays _
  | CreateProgram | CreateShader _ => true
  | _ => false
  end.

(** How many names a sequence of commands takes. *)
Definition generated (cs : list GLCall) : nat :=
  List.length (List.filter generates cs).

(** The third and fourth names handed out from [w] on. *)
Definition third_generated (w : World) : Z :=
  Z.pos (Pos.succ (Pos.succ (next_name (gl_obj w)))).

Definition fourth_generated (w : World) : Z :=
  Z.pos (Pos.succ (Pos.succ (Pos.succ (next_name (gl_obj w))))).

(** The second name handed out from [w] on. *)
Definition second_generated (w : World) : Z :=
  Z.pos (Pos.succ (next_name (gl_obj w))).

(** [if (program) glDeleteProgram(program)] *)
Definition delete_program_calls (program : Z) : list GLCall :=
  if program =? 0 then [] else [DeleteProgram program].

Definition stencil_define : string :=
  "#define OPENSUBDIV_GLSL_XFB_KERNEL_EVAL_STENCILS".

Definition patch_define : string :=
  "#define OPENSUBDIV_GLSL_XFB_KERNEL_EVAL_PATCHES".

Definition stencil_uniform_queries (p : Z) : list GLCall :=
  GetUniformLocation p <$>
    [ "vertexBuffer"; "srcOffset"; "sizes"; "offsets"; "indices"; "weights";
      "batchStart"; "batchEnd" ].

Definition patch_uniform_queries (p : Z) : list GLCall :=
  GetUniformLocation p <$>
    [ "vertexBuffer"; "srcOffset"; "patchArray"; "patchParamBuffer";
      "patchIndexBuffer" ].

(** The first half of [Compile], when the stencil kernel links: [p] and
    [s] are the stencil program and its shader. *)
Definition Compile_stencil_calls (this : GLXFBEvaluator)
  (srcDesc dstDesc : VertexBufferDescriptor) (r p s : Z) : list GLCall :=
  delete_program_calls (sk_program (_stencilKernel this)) ++
  compileKernel_prelude srcDesc stencil_define p s ++
  compileKernel_link dstDesc r p ++
  [DeleteShader s] ++
  stencil_uniform_queries p.

(** The second half up to the link of the patch kernel. *)
Definition Compile_patch_calls (this : GLXFBEvaluator)
  (srcDesc dstDesc : VertexBufferDescriptor) (r p s : Z) : list GLCall :=
  delete_program_calls (pk_program (_patchKernel this)) ++
  compileKernel_prelude srcDesc patch_define p s ++
  compileKernel_link dstDesc r p.

(** The end of [Compile] when both kernels link. *)
Definition Compile_final_calls (this : GLXFBEvaluator) (p s : Z) : list GLCall :=
  [DeleteShader s] ++
  patch_uniform_queries p ++
  (if _srcBufferTexture this =? 0 then [GenTextures 1] else []).

End KernelSequences.

(** ** The binding state an evaluation leaves behind

    [restored units w w'] relates the context [w] in which an evaluation
    call starts to the context [w'] it returns in: the bindings the call
    works with are back at zero, and the vertex array it generated (the
    next name in [w]) is gone.  [units] are the texture units the call
    assigns textures to; it also binds on the unit active in [w]. *)
Record restored (units : list Z) (w w' : World) : Prop := {
  restored_xfb_buffer : xfb_buffer (gl_bind w') = 0;
  restored_units :
    forall u, u ∈ units -> bound_texture (gl_bind w') u = 0;
  restored_ambient_unit :
    bound_texture (gl_bind w') (active_texture (gl_bind w)) = 0;
  untouched_units :
    forall u, u ∉ units -> u <> active_texture (gl_bind w) ->
              bound_texture (gl_bind w') u = bound_texture (gl_bind w) u;
  restored_program : current_program (gl_bind w') = 0;
  restored_vertex_array : vertex_array (gl_bind w') = 0;
  restored_active_texture : active_texture (gl_bind w') = 0;
  restored_rasterizer : rasterizer_discard (gl_bind w') = false;
  vertex_array_created : BindVertexArray (next_generated w) ∈ gl_trace w';
  vertex_array_deleted :
    last (gl_trace w') = Some (DeleteVertexArrays (next_generated w)) /\
    next_generated w ∉ vaos (gl_obj w')
}.

(** ** Concrete contexts and drivers, used to run the model *)

Module Sample.

Definition no_bindings : Bindings :=
  {| array_buffer := 0; xfb_buffer := 0; active_texture := 0;
     texture_binding := ∅; current_program := 0; vertex_array := 0;
     rasterizer_discard := false |}.

Definition no_objects : Objects :=
  {| next_name := 1; buffers := ∅; textures := ∅; shaders := ∅;
     programs := ∅; vaos := ∅ |}.

(** A context in which nothing has happened yet. *)
Definition new_context : World :=
  {| gl_trace := []; far_errors := []; gl_bind := no_bindings;
     gl_obj := no_objects |}.

(** A context the application has been using: unit 7 is active, with a
    texture of the application bound on several units. *)
Definition busy_context : World :=
  {| gl_trace := []; far_errors := [];
     gl_bind := {| array_buffer := 11; xfb_buffer := 12; active_texture := 7;
                   texture_binding := <[7 := 21]> (<[1 := 22]> ∅);
                   current_program := 13; vertex_array := 14;
                   rasterizer_discard := false |};
     gl_obj := {| next_name := 100; buffers := ∅; textures := ∅;
                  shaders := ∅; programs := ∅; vaos := {[14]} |} |}.

(** A driver on which every program links; uniforms sit at location 0
    upwards by name length. *)
Definition good_driver (dsa : bool) : Driver :=
  {| drv_direct_state_access := dsa;
     drv_link := fun _ _ => true;
     drv_shader_log := fun _ => "";
     drv_program_log := fun _ _ => "";
     drv_uniform_location := fun _ name => Z.of_nat (String.length name) |}.

(** A driver on which no program links. *)
Definition bad_driver (shader_log program_log : string) : Driver :=
  {| drv_direct_state_access := false;
     drv_link := fun _ _ => false;
     drv_shader_log := fun _ => shader_log;
     drv_program_log := fun _ _ => program_log;
     drv_uniform_location := fun _ _ => -1 |}.

(** A driver on which only the stencil kernel of a source buffer of three
    floats links. *)
Definition stencil_only_driver : Driver :=
  {| drv_direct_state_access := false;
     drv_link := fun srcs _ =>
       match srcs with
       | [[_; defines; _]] =>
           String.eqb defines
             ("#define LENGTH 3" +:+ newline +:+
              "#define SRC_STRIDE 3" +:+ newline +:+
              "#define OPENSUBDIV_GLSL_XFB_KERNEL_EVAL_STENCILS" +:+ newline)
       | _ => false
       end;
     drv_shader_log := fun _ => "";
     drv_program_log := fun _ _ => "error: patchArray is not declared";
     drv_uniform_location := fun _ _ => 0 |}.

(** An info log of 1030 characters. *)
Definition long_log : string :=
  String.string_of_list_ascii (List.repeat (Ascii.ascii_of_nat 120) 1030).

Definition desc (o l s : Z) : VertexBufferDescriptor :=
  {| offset := o; length := l; stride := s |}.

(** An evaluator whose kernels are the programs 1 and 3. *)
Definition compiled : GLXFBEvaluator :=
  {| _srcBufferTexture := 5;
     _stencilKernel := Build_StencilKernel 1 0 1 2 3 4 5 6 7;
     _patchKernel := Build_PatchKernel 3 0 1 2 3 4 |}.

End Sample.

(** ** Further observations and outcomes *)

(** The table vectors the constructor uploads before [at(0)] throws: those
    in front of the first empty one. *)
Fixpoint uploaded_before_throw (vs : list (list Z)) : list (list Z) :=
  match vs with
  | [] => []
  | [] :: _ => []
  | v :: vs => v :: uploaded_before_throw vs
  end.

(** The byte size [createGLTextureBuffer] passes for a vector of four-byte
    elements: the product in [size_t], cast to [int]. *)
Definition upload_size (v : list Z) : Z :=
  to_int (to_size_t (Z.of_nat (List.length v) * 4)).

(** The fifth name handed out from [w] on. *)
Definition fifth_generated (w : World) : Z :=
  Z.pos (Pos.succ (Pos.succ (Pos.succ (Pos.succ (next_name (gl_obj w)))))).

(** The kernel structs as [Compile] fills them for a program [p]: each
    member holds the location the driver gives for the uniform name the
    method asks for. *)
Definition stencil_kernel_of (drv : Driver) (p : Z) : StencilKernel :=
  {| sk_program := p;
     sk_uniformSrcBufferTexture := drv_uniform_location drv p "vertexBuffer";
     sk_uniformSrcOffset := drv_uniform_location drv p "srcOffset";
     sk_uniformSizesTexture := drv_uniform_location drv p "sizes";
     sk_uniformOffsetsTexture := drv_uniform_location drv p "offsets";
     sk_uniformIndicesTexture := drv_uniform_location drv p "indices";
     sk_uniformWeightsTexture := drv_uniform_location drv p "weights";
     sk_uniformStart := drv_uniform_location drv p "batchStart";
     sk_uniformEnd := drv_uniform_location drv p "batchEnd" |}.

Definition patch_kernel_of (drv : Driver) (p : Z) : PatchKernel :=
  {| pk_program := p;
     pk_uniformSrcBufferTexture := drv_uniform_location drv p "vertexBuffer";
     pk_uniformSrcOffset := drv_uniform_location drv p "srcOffset";
     pk_uniformPatchArray := drv_uniform_location drv p "patchArray";
     pk_uniformPatchParamTexture :=
       drv_uniform_location drv p "patchParamBuffer";
     pk_uniformPatchIndexTexture :=
       drv_uniform_location drv p "patchIndexBuffer" |}.

(** The evaluator [Compile] leaves when both kernels link, started in
    [w]: the kernels are the first and the third name handed out, the
    source texture is kept or, if there was none, the fifth name. *)
Definition compiled_evaluator (drv : Driver) (this : GLXFBEvaluator)
  (w : World) : GLXFBEvaluator :=
  {| _srcBufferTexture := if _srcBufferTexture this =? 0
                          then fifth_generated w
                          else _srcBufferTexture this;
     _stencilKernel := stencil_kernel_of drv (next_generated w);
     _patchKernel := patch_kernel_of drv (third_generated w) |}.

(** The commands [Compile] issues when both kernels link, started in [w],
    with [r] the value of [dstDesc.offset % dstDesc.stride]. *)
Definition Compile_calls (shaderSource : string) (this : GLXFBEvaluator)
  (srcDesc dstDesc : VertexBufferDescriptor) (r : Z) (w : World)
  : list GLCall :=
  Compile_stencil_calls shaderSource this srcDesc dstDesc r
    (next_generated w) (second_generated w) ++
  Compile_patch_calls shaderSource this srcDesc dstDesc r
    (third_generated w) (fourth_generated w) ++
  Compile_final_calls this (third_generated w) (fourth_generated w).

(** The programs deleted. *)
Definition programs_deleted (cs : list GLCall) : list Z :=
  omap (fun c => match c with DeleteProgram p => Some p | _ => None end) cs.

(** The program a kernel struct holds, if any. *)
Definition held_program (program : Z) : list Z :=
  if program =? 0 then [] else [program].

(** * Properties *)

(** ** Basic facts about runs *)

Lemma issued_intro {A} (m : GLM A) (w : World) (cs : list GLCall) :
  gl_trace (m w).2 = gl_trace w ++ cs -> issued m w = cs.
Proof. unfold issued. intros ->. apply drop_app_length. Qed.

Lemma reported_intro {A} (m : GLM A) (w : World) es :
  far_errors (m w).2 = far_errors w ++ es -> reported m w = es.
Proof. unfold reported. intros ->. apply drop_app_length. Qed.

Lemma issued_nothing {A} (m : GLM A) (w : World) (r : Res A) :
  m w = (r, w) -> issued m w = [].
Proof.
  intros E. apply issued_intro. rewrite E. simpl. now rewrite app_nil_r.
Qed.

(** A command without effect on the context only grows the log. *)
Lemma effect_Finish drv w : effect drv Finish w = w.
Proof. destruct w; reflexivity. Qed.

(** ** Synchronize *)

(** C7. Every call of [GLXFBEvaluator::Synchronize], whatever its kernel
    argument and whatever the context, issues the single command [glFinish]
    and returns; no fence or sync command is among the commands issued. *)
Theorem Synchronize_blocks_with_glFinish drv (kernel : Z) (w : World) :
  Synchronize drv kernel w = (Ok tt, log_call Finish w) /\
  issued (Synchronize drv kernel) w = [Finish] /\
  (forall c, c ∈ issued (Synchronize drv kernel) w ->
             c <> FenceSync /\ forall s, c <> ClientWaitSync s).
Proof.
  assert (E : Synchronize drv kernel w = (Ok tt, log_call Finish w)).
  { unfold Synchronize, call. now rewrite effect_Finish. }
  assert (I : issued (Synchronize drv kernel) w = [Finish]).
  { apply issued_intro. now rewrite E. }
  split; [exact E | split; [exact I |]].
  intros c Hc. rewrite I in Hc. apply list_elem_of_singleton in Hc as ->.
  split; [discriminate | intros s; discriminate].
Qed.

(** ** The stencil table textures: the empty table *)

Lemma GLStencilTableTBO_delete_issued drv (this : GLStencilTableTBO) (w : World) :
  issued (GLStencilTableTBO_delete drv this) w =
  DeleteTextures <$>
    filter (fun h => h <> 0)
           [_sizes this; _offsets this; _weights this; _indices this].
Proof.
  apply issued_intro. unfold GLStencilTableTBO_delete, when, bind, call, ret.
  destruct this as [s o i wt n]; cbn [_sizes _offsets _indices _weights].
  destruct (Z.eqb_spec s 0), (Z.eqb_spec o 0), (Z.eqb_spec wt 0),
    (Z.eqb_spec i 0); subst; cbn [negb];
    repeat (rewrite filter_cons; case_decide; try lia);
    rewrite filter_nil; cbn; rewrite <- ?app_assoc, ?app_nil_r; reflexivity.
Qed.

(** C9. For a stencil table with [GetNumStencils() == 0] the constructor
    returns an object whose four texture handles are zero and issues no GL
    command (the context is unchanged, so nothing is uploaded).  The
    destructor of any table object deletes exactly its nonzero handles, in
    the order sizes, offsets, weights, indices; on the object built from the
    empty table it therefore issues no command and leaves every context
    unchanged. *)
Theorem empty_table_owns_no_texture drv (stencilTable : StencilTable) (w : World) :
  GetNumStencils stencilTable = 0 ->
  exists tbo,
    GLStencilTableTBO_new drv stencilTable w = (Ok tbo, w) /\
    issued (GLStencilTableTBO_new drv stencilTable) w = [] /\
    (_sizes tbo = 0 /\ _offsets tbo = 0 /\ _indices tbo = 0 /\ _weights tbo = 0) /\
    (forall this w',
        textures_deleted (issued (GLStencilTableTBO_delete drv this) w') =
        filter (fun h => h <> 0)
               [_sizes this; _offsets this; _weights this; _indices this]) /\
    (forall w', GLStencilTableTBO_delete drv tbo w' = (Ok tt, w') /\
                issued (GLStencilTableTBO_delete drv tbo) w' = []).
Proof.
  intros Hn.
  set (tbo := {| _sizes := 0; _offsets := 0; _indices := 0; _weights := 0;
                 _numStencils := 0 |}).
  assert (E0 : GLStencilTableTBO_new drv stencilTable w = (Ok tbo, w)).
  { unfold GLStencilTableTBO_new. rewrite Hn. reflexivity. }
  exists tbo. split; [exact E0 |].
  split; [now apply issued_nothing with (r := Ok tbo) |].
  split; [cbn; auto |]. split.
  - intros this w'. rewrite GLStencilTableTBO_delete_issued.
    induction (filter _ _) as [| h l IH]; [reflexivity | cbn; now f_equal].
  - intros w'.
    assert (E : GLStencilTableTBO_delete drv tbo w' = (Ok tt, w'))
      by reflexivity.
    split; [exact E | now apply issued_nothing with (r := Ok tt)].
Qed.

Lemma empty_table_owns_no_texture_witness :
  GetNumStencils (Build_StencilTable 0 [] [] [] []) = 0 /\
  exists tbo,
    GLStencilTableTBO_new (Sample.good_driver true)
      (Build_StencilTable 0 [] [] [] []) Sample.busy_context
    = (Ok tbo, Sample.busy_context) /\
    _sizes tbo = 0.
Proof.
  split; [reflexivity |].
  destruct (empty_table_owns_no_texture (Sample.good_driver true)
              (Build_StencilTable 0 [] [] [] []) Sample.busy_context eq_refl)
    as (tbo & E & _ & (Hs & _) & _).
  exists tbo. split; [exact E | exact Hs].
Defined.

(** ** Command sequences *)

Section SequenceFacts.

Variable drv : Driver.

Lemma exec_app cs1 cs2 w : exec drv (cs1 ++ cs2) w = exec drv cs2 (exec drv cs1 w).
Proof. apply foldl_app. Qed.

Lemma exec_trace cs w : gl_trace (exec drv cs w) = gl_trace w ++ cs.
Proof.
  revert w. induction cs as [| c cs IH]; intros w; cbn.
  - now rewrite app_nil_r.
  - unfold exec in IH. rewrite IH. cbn. now rewrite <- app_assoc.
Qed.

Lemma exec_errors cs w : far_errors (exec drv cs w) = far_errors w.
Proof.
  revert w. induction cs as [| c cs IH]; intros w; cbn; [reflexivity |].
  unfold exec in IH. now rewrite IH.
Qed.

Lemma exec_gl_bind cs w : gl_bind (exec drv cs w) = exec_bind cs (gl_bind w).
Proof.
  revert w. induction cs as [| c cs IH]; intros w; cbn; [reflexivity |].
  unfold exec in IH. now rewrite IH.
Qed.

Lemma issued_exec {A} (m : GLM A) w r cs :
  m w = (r, exec drv cs w) -> issued m w = cs.
Proof. intros E. apply issued_intro. rewrite E. apply exec_trace. Qed.

(** [EvalStencils] past its guards, when the remainder is defined. *)
Lemma EvalStencils_exec this srcBuffer srcDesc dstBuffer dstDesc
      sizesTexture offsetsTexture indicesTexture weightsTexture start end_ w r :
  sk_program (_stencilKernel this) <> 0 ->
  0 < int_sub end_ start ->
  int_rem (offset dstDesc) (stride dstDesc) = Some r ->
  EvalStencils drv this srcBuffer srcDesc dstBuffer dstDesc
    sizesTexture offsetsTexture indicesTexture weightsTexture start end_ w
  = (Ok true,
     exec drv
       (EvalStencils_setup this srcBuffer srcDesc sizesTexture offsetsTexture
          indicesTexture weightsTexture start end_ (next_generated w) ++
        feedback_pass dstBuffer dstDesc r (int_sub end_ start) ++
        EvalStencils_teardown (next_generated w)) w).
Proof.
  intros Hp Hc Hr. unfold EvalStencils.
  apply Z.eqb_neq in Hp. rewrite Hp.
  apply Z.leb_gt in Hc. rewrite Hc.
  unfold EvalStencils_setup, EvalStencils_inputs, bind, rem, bindTexture,
    bindTexture_calls.
  rewrite Hr.
  destruct (sk_uniformSrcBufferTexture (_stencilKernel this) =? -1),
    (sk_uniformSizesTexture (_stencilKernel this) =? -1),
    (sk_uniformOffsetsTexture (_stencilKernel this) =? -1),
    (sk_uniformIndicesTexture (_stencilKernel this) =? -1),
    (sk_uniformWeightsTexture (_stencilKernel this) =? -1);
    reflexivity.
Qed.

(** [EvalStencils] past its guards, when the remainder is not defined:
    the call stops after the set-up commands. *)
Lemma EvalStencils_trap this srcBuffer srcDesc dstBuffer dstDesc
      sizesTexture offsetsTexture indicesTexture weightsTexture start end_ w :
  sk_program (_stencilKernel this) <> 0 ->
  0 < int_sub end_ start ->
  int_rem (offset dstDesc) (stride dstDesc) = None ->
  EvalStencils drv this srcBuffer srcDesc dstBuffer dstDesc
    sizesTexture offsetsTexture indicesTexture weightsTexture start end_ w
  = (Raised integer_division,
     exec drv
       (EvalStencils_setup this srcBuffer srcDesc sizesTexture offsetsTexture
          indicesTexture weightsTexture start end_ (next_generated w)) w).
Proof.
  intros Hp Hc Hr. unfold EvalStencils.
  apply Z.eqb_neq in Hp. rewrite Hp.
  apply Z.leb_gt in Hc. rewrite Hc.
  unfold EvalStencils_setup, EvalStencils_inputs, bind, rem, bindTexture,
    bindTexture_calls.
  rewrite Hr.
  destruct (sk_uniformSrcBufferTexture (_stencilKernel this) =? -1),
    (sk_uniformSizesTexture (_stencilKernel this) =? -1),
    (sk_uniformOffsetsTexture (_stencilKernel this) =? -1),
    (sk_uniformIndicesTexture (_stencilKernel this) =? -1),
    (sk_uniformWeightsTexture (_stencilKernel this) =? -1);
    reflexivity.
Qed.

Lemma after_derivative_check_gl_bind du dv w :
  gl_bind (after_derivative_check du dv w) = gl_bind w.
Proof. unfold after_derivative_check. now destruct (_ || _). Qed.

(** [EvalPatches] past its guard, when the remainder is defined. *)
Lemma EvalPatches_exec this srcBuffer srcDesc dstBuffer dstDesc
      duBuffer duDesc dvBuffer dvDesc numPatchCoords patchCoordsBuffer
      patchArrays patchIndexTexture patchParamTexture w r :
  pk_program (_patchKernel this) <> 0 ->
  int_rem (offset dstDesc) (stride dstDesc) = Some r ->
  EvalPatches drv this srcBuffer srcDesc dstBuffer dstDesc
    duBuffer duDesc dvBuffer dvDesc numPatchCoords patchCoordsBuffer
    patchArrays patchIndexTexture patchParamTexture w
  = (Ok true,
     exec drv
       (EvalPatches_setup this srcBuffer srcDesc patchCoordsBuffer patchArrays
          patchIndexTexture patchParamTexture (next_generated w) ++
        feedback_pass dstBuffer dstDesc r numPatchCoords ++
        EvalPatches_teardown (next_generated w))
       (after_derivative_check duBuffer dvBuffer w)).
Proof.
  intros Hp Hr. unfold EvalPatches.
  apply Z.eqb_neq in Hp. rewrite Hp.
  unfold EvalPatches_setup, bind, rem, bindTexture, bindTexture_calls, when,
    after_derivative_check, Far_Error.
  rewrite Hr.
  destruct (negb (duBuffer =? 0) || negb (dvBuffer =? 0)),
    (pk_uniformSrcBufferTexture (_patchKernel this) =? -1),
    (pk_uniformPatchParamTexture (_patchKernel this) =? -1),
    (pk_uniformPatchIndexTexture (_patchKernel this) =? -1);
    reflexivity.
Qed.

(** [EvalPatches] past its guard, when the remainder is not defined. *)
Lemma EvalPatches_trap this srcBuffer srcDesc dstBuffer dstDesc
      duBuffer duDesc dvBuffer dvDesc numPatchCoords patchCoordsBuffer
      patchArrays patchIndexTexture patchParamTexture w :
  pk_program (_patchKernel this) <> 0 ->
  int_rem (offset dstDesc) (stride dstDesc) = None ->
  EvalPatches drv this srcBuffer srcDesc dstBuffer dstDesc
    duBuffer duDesc dvBuffer dvDesc numPatchCoords patchCoordsBuffer
    patchArrays patchIndexTexture patchParamTexture w
  = (Raised integer_division,
     exec drv
       (EvalPatches_setup this srcBuffer srcDesc patchCoordsBuffer patchArrays
          patchIndexTexture patchParamTexture (next_generated w))
       (after_derivative_check duBuffer dvBuffer w)).
Proof.
  intros Hp Hr. unfold EvalPatches.
  apply Z.eqb_neq in Hp. rewrite Hp.
  unfold EvalPatches_setup, bind, rem, bindTexture, bindTexture_calls, when,
    after_derivative_check, Far_Error.
  rewrite Hr.
  destruct (negb (duBuffer =? 0) || negb (dvBuffer =? 0)),
    (pk_uniformSrcBufferTexture (_patchKernel this) =? -1),
    (pk_uniformPatchParamTexture (_patchKernel this) =? -1),
    (pk_uniformPatchIndexTexture (_patchKernel this) =? -1);
    reflexivity.
Qed.

End SequenceFacts.

(** ** Integer facts *)

Lemma int_rem_defined a b :
  b <> 0 -> ~ (a = INT_MIN /\ b = -1) -> int_rem a b = Some (Z.rem a b).
Proof.
  intros Hb Hq. unfold int_rem.
  destruct (Z.eqb_spec b 0); [contradiction |].
  destruct (Z.eqb_spec a INT_MIN), (Z.eqb_spec b (-1)); cbn; tauto.
Qed.

Lemma to_int_exact z : in_int z -> to_int z = z.
Proof.
  unfold in_int, INT_MIN, INT_MAX, to_int. intros H.
  rewrite Z.mod_small by lia. lia.
Qed.

Lemma int_sub_exact a b : in_int (a - b) -> int_sub a b = a - b.
Proof. apply to_int_exact. Qed.

Lemma int_add_exact a b : in_int (a + b) -> int_add a b = a + b.
Proof. apply to_int_exact. Qed.

Lemma int_mul_exact a b : in_int (a * b) -> int_mul a b = a * b.
Proof. apply to_int_exact. Qed.

(** Scaling an [int] by an element size of four bytes is exact: the product
    fits the pointer-sized integer types, also for a negative [int]. *)
Lemma bytes_of_exact v : in_int v -> bytes_of v 4 = v * 4.
Proof.
  unfold in_int, INT_MIN, INT_MAX, bytes_of, to_size_t, to_ptrdiff. intros H.
  rewrite Z.mul_mod_idemp_l by lia.
  destruct (Z_lt_le_dec v 0) as [Hneg | Hpos].
  - replace (v * 4) with ((2 ^ 64 + v * 4) + (-1) * 2 ^ 64) by lia.
    rewrite Z.mod_add by lia. rewrite (Z.mod_small (2 ^ 64 + v * 4)) by lia.
    replace (2 ^ 64 + v * 4 + 2 ^ 63) with ((v * 4 + 2 ^ 63) + 1 * 2 ^ 64) by lia.
    rewrite Z.mod_add by lia. rewrite Z.mod_small by lia. lia.
  - rewrite (Z.mod_small (v * 4)) by lia. rewrite Z.mod_small by lia. lia.
Qed.

(** The remainder of an [int] is an [int], and so is the offset rounded
    down to a vertex boundary. *)
Lemma rem_in_int a b : in_int a -> in_int (Z.rem a b) /\ in_int (a - Z.rem a b).
Proof.
  unfold in_int, INT_MIN, INT_MAX. intros H.
  destruct (Z.eq_dec b 0) as [-> | Hb].
  - replace (Z.rem a 0) with a by (now destruct a). lia.
  - assert (Habs : Z.abs (Z.rem a b) <= Z.abs a).
    { rewrite <- Z.rem_abs by exact Hb. apply Z.rem_le; lia. }
    pose proof (Z.rem_nonneg a b Hb). pose proof (Z.rem_nonpos a b Hb).
    lia.
Qed.

(** ** What the command sequences contain *)

Lemma draws_bindTexture_calls s t u : draws (bindTexture_calls s t u) = [].
Proof. unfold bindTexture_calls. now destruct (s =? -1). Qed.

Lemma range_bindings_bindTexture_calls s t u :
  range_bindings (bindTexture_calls s t u) = [].
Proof. unfold bindTexture_calls. now destruct (s =? -1). Qed.

Lemma draws_EvalStencils_setup this sb sd t1 t2 t3 t4 st en vao :
  draws (EvalStencils_setup this sb sd t1 t2 t3 t4 st en vao) = [].
Proof.
  unfold EvalStencils_setup, EvalStencils_inputs, draws. rewrite !omap_app.
  fold draws. now rewrite !draws_bindTexture_calls.
Qed.

Lemma range_bindings_EvalStencils_setup this sb sd t1 t2 t3 t4 st en vao :
  range_bindings (EvalStencils_setup this sb sd t1 t2 t3 t4 st en vao) = [].
Proof.
  unfold EvalStencils_setup, EvalStencils_inputs, range_bindings.
  rewrite !omap_app.
  fold range_bindings. now rewrite !range_bindings_bindTexture_calls.
Qed.

(** ** EvalStencils: guards and the draw *)

(** C8, amended. [EvalStencils] returns false, leaving the context (and the
    command log) exactly as it was, when no stencil kernel program has been
    compiled; otherwise it returns true without issuing any GL command when
    the [int] value of [end - start] is not positive; otherwise it returns
    true provided [dstDesc.offset % dstDesc.stride] is defined, that is,
    [dstDesc.stride] is not zero (and the operands are not [INT_MIN] and
    [-1]). *)
Theorem EvalStencils_guards drv this srcBuffer srcDesc dstBuffer dstDesc
    sizesTexture offsetsTexture indicesTexture weightsTexture start end_ w :
  let run := EvalStencils drv this srcBuffer srcDesc dstBuffer dstDesc
               sizesTexture offsetsTexture indicesTexture weightsTexture
               start end_ in
  (sk_program (_stencilKernel this) = 0 -> run w = (Ok false, w)) /\
  (sk_program (_stencilKernel this) <> 0 -> int_sub end_ start <= 0 ->
   run w = (Ok true, w) /\ issued run w = []) /\
  (sk_program (_stencilKernel this) <> 0 -> 0 < int_sub end_ start ->
   stride dstDesc <> 0 ->
   ~ (offset dstDesc = INT_MIN /\ stride dstDesc = -1) ->
   result run w = Ok true).
Proof.
  intros run. split; [| split].
  - intros Hp. unfold run, EvalStencils. now rewrite Hp.
  - intros Hp Hc.
    assert (E : run w = (Ok true, w)).
    { unfold run, EvalStencils. apply Z.eqb_neq in Hp. rewrite Hp.
      apply Z.leb_le in Hc. now rewrite Hc. }
    split; [exact E | now apply issued_nothing with (r := Ok true)].
  - intros Hp Hc Hs Hq. unfold result, run.
    now rewrite (EvalStencils_exec drv _ _ _ _ _ _ _ _ _ _ _ _ _ Hp Hc
                   (int_rem_defined _ _ Hs Hq)).
Qed.

Lemma EvalStencils_guards_witness :
  let run w := EvalStencils (Sample.good_driver true) w 8 (Sample.desc 0 3 3)
                 9 (Sample.desc 4 3 7) 31 32 33 34 in
  run (GLXFBEvaluator_new) 0 10 Sample.busy_context
    = (Ok false, Sample.busy_context) /\
  run Sample.compiled 10 10 Sample.busy_context = (Ok true, Sample.busy_context) /\
  result (run Sample.compiled 0 10) Sample.busy_context = Ok true.
Proof.
  intros run. split; [| split].
  - apply (EvalStencils_guards (Sample.good_driver true) GLXFBEvaluator_new
             8 (Sample.desc 0 3 3) 9 (Sample.desc 4 3 7) 31 32 33 34 0 10
             Sample.busy_context). reflexivity.
  - apply (EvalStencils_guards (Sample.good_driver true) Sample.compiled
             8 (Sample.desc 0 3 3) 9 (Sample.desc 4 3 7) 31 32 33 34 10 10
             Sample.busy_context); [discriminate | vm_compute; discriminate].
  - apply (EvalStencils_guards (Sample.good_driver true) Sample.compiled
             8 (Sample.desc 0 3 3) 9 (Sample.desc 4 3 7) 31 32 33 34 0 10
             Sample.busy_context);
      [discriminate | reflexivity | discriminate | intros [E _]; discriminate].
Defined.

(** C8 as stated fails: with a compiled kernel and a batch of two stencils,
    a destination descriptor whose stride is zero makes the call stop at
    [dstDesc.offset % dstDesc.stride]; it does not return true. *)
Lemma EvalStencils_zero_stride_does_not_return :
  let run := EvalStencils (Sample.good_driver true) Sample.compiled
               8 (Sample.desc 0 3 3) 9 (Sample.desc 4 3 0) 31 32 33 34 3 5 in
  sk_program (_stencilKernel Sample.compiled) <> 0 /\
  ~ (int_sub 5 3 <= 0) /\
  result run Sample.new_context = Raised integer_division /\
  result run Sample.new_context <> Ok true.
Proof.
  intros run. split; [discriminate |]. split; [vm_compute; tauto |].
  assert (E : result run Sample.new_context = Raised integer_division)
    by (vm_compute; reflexivity).
  split; [exact E | rewrite E; discriminate].
Qed.

(** C6, amended. For a call of [EvalStencils] with a compiled stencil kernel,
    a positive [int] value [count] of [end - start] and a defined
    [dstDesc.offset % dstDesc.stride] (the stride is not zero), the call
    returns true and there is exactly one draw call, over [count] points and
    inside one transform-feedback pass; exactly one indexed buffer binding,
    of the destination buffer to binding point 0 of
    [GL_TRANSFORM_FEEDBACK_BUFFER] at byte offset
    [(dstDesc.offset - dstDesc.offset % dstDesc.stride) * sizeof(float)] for
    [count * dstDesc.stride * sizeof(float)] bytes; and just before it the
    batch range uniforms are set to [start] and [end].  The expressions are
    evaluated as the code does; they are the exact integers when the [int]
    operations do not overflow. *)
Theorem EvalStencils_draws_the_batch drv this srcBuffer srcDesc dstBuffer dstDesc
    sizesTexture offsetsTexture indicesTexture weightsTexture start end_ w :
  sk_program (_stencilKernel this) <> 0 ->
  0 < int_sub end_ start ->
  stride dstDesc <> 0 ->
  ~ (offset dstDesc = INT_MIN /\ stride dstDesc = -1) ->
  let run := EvalStencils drv this srcBuffer srcDesc dstBuffer dstDesc
               sizesTexture offsetsTexture indicesTexture weightsTexture
               start end_ in
  let count := int_sub end_ start in
  let r := Z.rem (offset dstDesc) (stride dstDesc) in
  let bindOffset := bytes_of (int_sub (offset dstDesc) r) sizeof_float in
  let bindSize := bytes_of (int_mul count (stride dstDesc)) sizeof_float in
  result run w = Ok true /\
  draws (issued run w) = [(GL_POINTS, 0, count)] /\
  range_bindings (issued run w) =
    [(GL_TRANSFORM_FEEDBACK_BUFFER, 0, dstBuffer, bindOffset, bindSize)] /\
  (exists before after,
      issued run w =
      before ++
      [ Uniform1i (sk_uniformStart (_stencilKernel this)) start;
        Uniform1i (sk_uniformEnd (_stencilKernel this)) end_;
        Uniform1i (sk_uniformSrcOffset (_stencilKernel this)) (offset srcDesc);
        BindBufferRange GL_TRANSFORM_FEEDBACK_BUFFER 0 dstBuffer
                        bindOffset bindSize;
        BeginTransformFeedback GL_POINTS;
        DrawArrays GL_POINTS 0 count;
        EndTransformFeedback ] ++
      after) /\
  (in_int (offset dstDesc) ->
   bindOffset = (offset dstDesc - r) * sizeof_float) /\
  (in_int (end_ - start) -> in_int ((end_ - start) * stride dstDesc) ->
   count = end_ - start /\
   bindSize = (end_ - start) * stride dstDesc * sizeof_float).
Proof.
  intros Hp Hc Hs Hq run count r bindOffset bindSize.
  pose proof (EvalStencils_exec drv this srcBuffer srcDesc dstBuffer dstDesc
                sizesTexture offsetsTexture indicesTexture weightsTexture
                start end_ w r Hp Hc (int_rem_defined _ _ Hs Hq)) as E.
  fold run count in E.
  pose proof (issued_exec drv _ _ _ _ E) as I.
  split; [unfold result; now rewrite E |]. rewrite I.
  split; [| split; [| split; [| split]]].
  - unfold draws. rewrite !omap_app. fold draws.
    now rewrite draws_EvalStencils_setup.
  - unfold range_bindings. rewrite !omap_app. fold range_bindings.
    now rewrite range_bindings_EvalStencils_setup.
  - exists (EvalStencils_inputs this srcBuffer sizesTexture offsetsTexture
              indicesTexture weightsTexture (next_generated w)),
           (EvalStencils_teardown (next_generated w)).
    unfold EvalStencils_setup. now rewrite <- app_assoc.
  - intros Ho. unfold bindOffset, sizeof_float.
    destruct (rem_in_int (offset dstDesc) (stride dstDesc) Ho) as [_ Hd].
    fold r in Hd. rewrite (int_sub_exact _ _ Hd). now apply bytes_of_exact.
  - intros Hd Hm.
    assert (Ec : count = end_ - start) by now apply int_sub_exact.
    split; [exact Ec |]. unfold bindSize, sizeof_float. rewrite Ec.
    rewrite (int_mul_exact _ _ Hm). now apply bytes_of_exact.
Qed.

Lemma EvalStencils_draws_the_batch_witness :
  let run := EvalStencils (Sample.good_driver true) Sample.compiled
               8 (Sample.desc 0 3 3) 9 (Sample.desc 11 3 7) 31 32 33 34 2 12 in
  draws (issued run Sample.busy_context) = [(GL_POINTS, 0, 10)] /\
  range_bindings (issued run Sample.busy_context) =
    [(GL_TRANSFORM_FEEDBACK_BUFFER, 0, 9, 28, 280)].
Proof.
  intros run.
  destruct (EvalStencils_draws_the_batch (Sample.good_driver true)
              Sample.compiled 8 (Sample.desc 0 3 3) 9 (Sample.desc 11 3 7)
              31 32 33 34 2 12 Sample.busy_context)
    as (_ & D & B & _).
  - discriminate.
  - reflexivity.
  - discriminate.
  - intros [E _]; discriminate.
  - split; [exact D | exact B].
Defined.

(** C6 as stated fails: with a compiled kernel and a batch of ten stencils,
    a default-constructed destination descriptor (all fields zero) makes the
    call stop before it binds the destination or draws anything. *)
Lemma EvalStencils_zero_stride_draws_nothing :
  let run := EvalStencils (Sample.good_driver true) Sample.compiled
               8 (Sample.desc 0 3 3) 9 (Sample.desc 0 0 0) 31 32 33 34 0 10 in
  sk_program (_stencilKernel Sample.compiled) <> 0 /\
  0 < 10 - 0 /\
  result run Sample.new_context = Raised integer_division /\
  draws (issued run Sample.new_context) = [] /\
  range_bindings (issued run Sample.new_context) = [].
Proof.
  intros run. split; [discriminate |]. split; [lia |].
  split; [| split]; vm_compute; reflexivity.
Qed.

(** ** EvalPatches: derivative buffers *)

(** C1, amended. For a call of [EvalPatches] on an evaluator whose patch
    kernel program has been compiled, in which a derivative output buffer is
    requested ([duBuffer != 0] or [dvBuffer != 0]), exactly one error is
    reported: [FAR_RUNTIME_ERROR] with the message that derivative
    evaluation is not supported. *)
Theorem EvalPatches_refuses_derivatives drv this srcBuffer srcDesc dstBuffer
    dstDesc duBuffer duDesc dvBuffer dvDesc numPatchCoords patchCoordsBuffer
    patchArrays patchIndexTexture patchParamTexture w :
  pk_program (_patchKernel this) <> 0 ->
  duBuffer <> 0 \/ dvBuffer <> 0 ->
  reported (EvalPatches drv this srcBuffer srcDesc dstBuffer dstDesc
              duBuffer duDesc dvBuffer dvDesc numPatchCoords patchCoordsBuffer
              patchArrays patchIndexTexture patchParamTexture) w
  = [(FAR_RUNTIME_ERROR,
      "GLXFBEvaluator doesn't support derivative evaluation yet." +:+ newline)].
Proof.
  intros Hp Hd. apply reported_intro.
  assert (Hb : negb (duBuffer =? 0) || negb (dvBuffer =? 0) = true).
  { apply orb_true_iff. rewrite !negb_true_iff, !Z.eqb_neq. exact Hd. }
  destruct (int_rem (offset dstDesc) (stride dstDesc)) as [r |] eqn:Hr.
  - rewrite (EvalPatches_exec drv _ _ _ _ _ _ _ _ _ _ _ _ _ _ _ _ Hp Hr).
    cbn [snd]. rewrite exec_errors. unfold after_derivative_check.
    now rewrite Hb.
  - rewrite (EvalPatches_trap drv _ _ _ _ _ _ _ _ _ _ _ _ _ _ _ Hp Hr).
    cbn [snd]. rewrite exec_errors. unfold after_derivative_check.
    now rewrite Hb.
Qed.

Lemma EvalPatches_refuses_derivatives_witness :
  reported (EvalPatches (Sample.good_driver true) Sample.compiled
              8 (Sample.desc 0 3 3) 9 (Sample.desc 0 3 3)
              0 (Sample.desc 0 0 0) 10 (Sample.desc 0 0 0) 4 20 [[1; 2; 3; 4]]
              41 42) Sample.busy_context
  = [(FAR_RUNTIME_ERROR,
      "GLXFBEvaluator doesn't support derivative evaluation yet." +:+ newline)].
Proof.
  apply (EvalPatches_refuses_derivatives (Sample.good_driver true)
           Sample.compiled); [discriminate | right; discriminate].
Defined.

(** C1 as stated fails: on an evaluator that has not been compiled, a call
    that requests both derivative buffers returns false and reports no
    error. *)
Lemma EvalPatches_uncompiled_reports_nothing :
  let run := EvalPatches (Sample.good_driver true) GLXFBEvaluator_new
               8 (Sample.desc 0 3 3) 9 (Sample.desc 0 3 3)
               10 (Sample.desc 0 3 3) 11 (Sample.desc 0 3 3) 4 20
               [[1; 2; 3; 4]] 41 42 in
  (10 <> 0 \/ 11 <> 0) /\
  run Sample.new_context = (Ok false, Sample.new_context) /\
  reported run Sample.new_context = [].
Proof.
  intros run. split; [left; discriminate |].
  split; vm_compute; reflexivity.
Qed.

(** ** Evaluation calls restore the bindings *)

Lemma exec_snoc drv cs c w :
  exec drv (cs ++ [c]) w = log_call c (effect drv c (exec drv cs w)).
Proof. unfold exec. now rewrite foldl_snoc. Qed.

(** Goals about the texture bound on a unit after a known sequence of
    bindings: split the units listed in the hypotheses, then walk through
    the insertions. *)
Ltac walk_bindings :=
  repeat split;
  try (unfold unbind; case_decide; reflexivity);
  unfold bound_texture; cbn; intros;
  repeat match goal with
         | H : _ ∈ _ :: _ |- _ => apply elem_of_cons in H; destruct H as [-> | H]
         | H : _ ∈ [] |- _ => exfalso; exact (proj1 (elem_of_nil _) H)
         | H : _ ∉ _ :: _ |- _ => apply not_elem_of_cons in H; destruct H as [? H]
         end;
  repeat (rewrite lookup_insert; case_decide; subst; cbn;
          try lia; try reflexivity).

Lemma EvalStencils_bindings this srcBuffer srcDesc dstBuffer dstDesc
      t1 t2 t3 t4 start end_ vao r count b :
  let b' := exec_bind
              (EvalStencils_setup this srcBuffer srcDesc t1 t2 t3 t4 start end_ vao ++
               feedback_pass dstBuffer dstDesc r count ++
               EvalStencils_teardown vao) b in
  xfb_buffer b' = 0 /\ current_program b' = 0 /\ vertex_array b' = 0 /\
  active_texture b' = 0 /\ rasterizer_discard b' = false /\
  (forall u, u ∈ [0; 1; 2; 3; 4] -> bound_texture b' u = 0) /\
  bound_texture b' (active_texture b) = 0 /\
  (forall u, u ∉ [0; 1; 2; 3; 4] -> u <> active_texture b ->
             bound_texture b' u = bound_texture b u).
Proof.
  unfold EvalStencils_setup, EvalStencils_inputs, bindTexture_calls.
  destruct (sk_uniformSrcBufferTexture (_stencilKernel this) =? -1),
      (sk_uniformSizesTexture (_stencilKernel this) =? -1),
      (sk_uniformOffsetsTexture (_stencilKernel this) =? -1),
      (sk_uniformIndicesTexture (_stencilKernel this) =? -1),
      (sk_uniformWeightsTexture (_stencilKernel this) =? -1);
    cbn; walk_bindings.
Qed.

Lemma EvalPatches_bindings this srcBuffer srcDesc dstBuffer dstDesc
      patchCoordsBuffer patchArrays t1 t2 vao r count b :
  let b' := exec_bind
              (EvalPatches_setup this srcBuffer srcDesc patchCoordsBuffer
                 patchArrays t1 t2 vao ++
               feedback_pass dstBuffer dstDesc r count ++
               EvalPatches_teardown vao) b in
  xfb_buffer b' = 0 /\ current_program b' = 0 /\ vertex_array b' = 0 /\
  active_texture b' = 0 /\ rasterizer_discard b' = false /\
  (forall u, u ∈ [0; 1; 2] -> bound_texture b' u = 0) /\
  bound_texture b' (active_texture b) = 0 /\
  (forall u, u ∉ [0; 1; 2] -> u <> active_texture b ->
             bound_texture b' u = bound_texture b u).
Proof.
  unfold EvalPatches_setup, bindTexture_calls.
  destruct (pk_uniformSrcBufferTexture (_patchKernel this) =? -1),
      (pk_uniformPatchParamTexture (_patchKernel this) =? -1),
      (pk_uniformPatchIndexTexture (_patchKernel this) =? -1);
    cbn; walk_bindings.
Qed.

(** A sequence that ends by deleting a vertex array. *)
Lemma exec_ends_with_delete drv cs vao w :
  last (gl_trace (exec drv (cs ++ [DeleteVertexArrays vao]) w))
  = Some (DeleteVertexArrays vao) /\
  vao ∉ vaos (gl_obj (exec drv (cs ++ [DeleteVertexArrays vao]) w)).
Proof.
  split.
  - rewrite exec_trace, app_assoc. apply last_snoc.
  - rewrite exec_snoc. cbn. rewrite elem_of_difference, elem_of_singleton.
    tauto.
Qed.

Lemma EvalStencils_restores drv this srcBuffer srcDesc dstBuffer dstDesc
      t1 t2 t3 t4 start end_ r w :
  restored [0; 1; 2; 3; 4] w
    (exec drv
       (EvalStencils_setup this srcBuffer srcDesc t1 t2 t3 t4 start end_
          (next_generated w) ++
        feedback_pass dstBuffer dstDesc r (int_sub end_ start) ++
        EvalStencils_teardown (next_generated w)) w).
Proof.
  pose proof (EvalStencils_bindings this srcBuffer srcDesc dstBuffer dstDesc
                t1 t2 t3 t4 start end_ (next_generated w) r
                (int_sub end_ start) (gl_bind w)) as B.
  cbv zeta in B. rewrite <- exec_gl_bind with (drv := drv) in B.
  destruct B as (B1 & B2 & B3 & B4 & B5 & B6 & B7 & B8).
  split; try assumption.
  - rewrite exec_trace. unfold EvalStencils_setup, EvalStencils_inputs.
    set_solver.
  - change (EvalStencils_teardown (next_generated w))
      with (([BindBuffer GL_TRANSFORM_FEEDBACK_BUFFER 0] ++
             unbind_calls [0; 1; 2; 3; 4] ++
             [Disable GL_RASTERIZER_DISCARD; UseProgram 0;
              ActiveTexture (GL_TEXTURE0_plus 0); BindVertexArray 0]) ++
            [DeleteVertexArrays (next_generated w)]).
    rewrite 2!app_assoc. apply exec_ends_with_delete.
Qed.

Lemma EvalPatches_restores drv this srcBuffer srcDesc dstBuffer dstDesc
      duBuffer dvBuffer numPatchCoords patchCoordsBuffer patchArrays t1 t2 r w :
  restored [0; 1; 2] w
    (exec drv
       (EvalPatches_setup this srcBuffer srcDesc patchCoordsBuffer patchArrays
          t1 t2 (next_generated w) ++
        feedback_pass dstBuffer dstDesc r numPatchCoords ++
        EvalPatches_teardown (next_generated w))
       (after_derivative_check duBuffer dvBuffer w)).
Proof.
  pose proof (EvalPatches_bindings this srcBuffer srcDesc dstBuffer dstDesc
                patchCoordsBuffer patchArrays t1 t2 (next_generated w) r
                numPatchCoords
                (gl_bind (after_derivative_check duBuffer dvBuffer w))) as B.
  cbv zeta in B. rewrite <- exec_gl_bind with (drv := drv) in B.
  rewrite !after_derivative_check_gl_bind in B.
  destruct B as (B1 & B2 & B3 & B4 & B5 & B6 & B7 & B8).
  split; try assumption.
  - rewrite exec_trace. unfold EvalPatches_setup. set_solver.
  - change (EvalPatches_teardown (next_generated w))
      with (([BindBuffer GL_TRANSFORM_FEEDBACK_BUFFER 0] ++
             unbind_calls [0; 1; 2] ++
             [Disable GL_RASTERIZER_DISCARD; UseProgram 0;
              ActiveTexture (GL_TEXTURE0_plus 0);
              DisableVertexAttribArray 0; DisableVertexAttribArray 1;
              BindVertexArray 0]) ++
            [DeleteVertexArrays (next_generated w)]).
    rewrite 2!app_assoc. apply exec_ends_with_delete.
Qed.

(** C10. Every completed evaluation call leaves the bindings it works with
    reset: when [EvalStencils] with a non-empty batch, or [EvalPatches],
    returns true, then in the context it returns in the transform-feedback
    buffer binding, the current program and the vertex array binding are 0,
    the active texture unit is [GL_TEXTURE0], rasterizer discard is
    disabled, no buffer texture is bound on the units the call used (units
    0 to 4, respectively 0 to 2, and the unit that was active on entry; the
    bindings of all other units are as before), and the vertex array the
    call generated and bound has been deleted by its last command. *)
Theorem completed_evaluation_restores_bindings drv this srcBuffer srcDesc
    dstBuffer dstDesc w w' :
  (forall sizesTexture offsetsTexture indicesTexture weightsTexture start end_,
      0 < int_sub end_ start ->
      EvalStencils drv this srcBuffer srcDesc dstBuffer dstDesc
        sizesTexture offsetsTexture indicesTexture weightsTexture start end_ w
      = (Ok true, w') ->
      restored [0; 1; 2; 3; 4] w w') /\
  (forall duBuffer duDesc dvBuffer dvDesc numPatchCoords patchCoordsBuffer
          patchArrays patchIndexTexture patchParamTexture,
      EvalPatches drv this srcBuffer srcDesc dstBuffer dstDesc
        duBuffer duDesc dvBuffer dvDesc numPatchCoords patchCoordsBuffer
        patchArrays patchIndexTexture patchParamTexture w
      = (Ok true, w') ->
      restored [0; 1; 2] w w').
Proof.
  split.
  - intros t1 t2 t3 t4 start end_ Hc E.
    destruct (Z.eq_dec (sk_program (_stencilKernel this)) 0) as [Hp | Hp].
    { unfold EvalStencils in E. rewrite Hp in E. discriminate E. }
    destruct (int_rem (offset dstDesc) (stride dstDesc)) as [r |] eqn:Hr.
    + rewrite (EvalStencils_exec drv _ _ _ _ _ _ _ _ _ _ _ _ _ Hp Hc Hr) in E.
      injection E as <-. apply EvalStencils_restores.
    + rewrite (EvalStencils_trap drv _ _ _ _ _ _ _ _ _ _ _ _ Hp Hc Hr) in E.
      discriminate E.
  - intros du duDesc dv dvDesc n pcb pa t1 t2 E.
    destruct (Z.eq_dec (pk_program (_patchKernel this)) 0) as [Hp | Hp].
    { unfold EvalPatches in E. rewrite Hp in E. discriminate E. }
    destruct (int_rem (offset dstDesc) (stride dstDesc)) as [r |] eqn:Hr.
    + rewrite (EvalPatches_exec drv _ _ _ _ _ _ _ _ _ _ _ _ _ _ _ _ Hp Hr) in E.
      injection E as <-. apply EvalPatches_restores.
    + rewrite (EvalPatches_trap drv _ _ _ _ _ _ _ _ _ _ _ _ _ _ _ Hp Hr) in E.
      discriminate E.
Qed.

Lemma completed_evaluation_restores_bindings_witness :
  restored [0; 1; 2; 3; 4] Sample.busy_context
    (EvalStencils (Sample.good_driver true) Sample.compiled
       8 (Sample.desc 0 3 3) 9 (Sample.desc 11 3 7) 31 32 33 34 2 12
       Sample.busy_context).2 /\
  restored [0; 1; 2] Sample.busy_context
    (EvalPatches (Sample.good_driver true) Sample.compiled
       8 (Sample.desc 0 3 3) 9 (Sample.desc 11 3 7)
       0 (Sample.desc 0 0 0) 0 (Sample.desc 0 0 0) 4 20 [[1; 2; 3; 4]] 41 42
       Sample.busy_context).2.
Proof.
  split.
  - apply (completed_evaluation_restores_bindings (Sample.good_driver true)
             Sample.compiled 8 (Sample.desc 0 3 3) 9 (Sample.desc 11 3 7)
             Sample.busy_context _)
      with (sizesTexture := 31) (offsetsTexture := 32) (indicesTexture := 33)
           (weightsTexture := 34) (start := 2) (end_ := 12);
      [reflexivity | vm_compute; reflexivity].
  - apply (completed_evaluation_restores_bindings (Sample.good_driver true)
             Sample.compiled 8 (Sample.desc 0 3 3) 9 (Sample.desc 11 3 7)
             Sample.busy_context _)
      with (duBuffer := 0) (duDesc := Sample.desc 0 0 0) (dvBuffer := 0)
           (dvDesc := Sample.desc 0 0 0) (numPatchCoords := 4)
           (patchCoordsBuffer := 20) (patchArrays := [[1; 2; 3; 4]])
           (patchIndexTexture := 41) (patchParamTexture := 42).
    vm_compute; reflexivity.
Defined.

(** A call that does not evaluate leaves the whole context as it found
    it: both methods return false only from their first guard. *)
Lemma refused_evaluation_leaves_context drv this srcBuffer srcDesc dstBuffer
    dstDesc w w' :
  (forall sizesTexture offsetsTexture indicesTexture weightsTexture start end_,
      EvalStencils drv this srcBuffer srcDesc dstBuffer dstDesc
        sizesTexture offsetsTexture indicesTexture weightsTexture start end_ w
      = (Ok false, w') -> w' = w) /\
  (forall duBuffer duDesc dvBuffer dvDesc numPatchCoords patchCoordsBuffer
          patchArrays patchIndexTexture patchParamTexture,
      EvalPatches drv this srcBuffer srcDesc dstBuffer dstDesc
        duBuffer duDesc dvBuffer dvDesc numPatchCoords patchCoordsBuffer
        patchArrays patchIndexTexture patchParamTexture w
      = (Ok false, w') -> w' = w).
Proof.
  split.
  - intros t1 t2 t3 t4 start end_ E.
    destruct (Z.eq_dec (sk_program (_stencilKernel this)) 0) as [Hp | Hp].
    { unfold EvalStencils in E. rewrite Hp in E. now injection E. }
    destruct (Z_lt_le_dec 0 (int_sub end_ start)) as [Hc | Hc].
    + destruct (int_rem (offset dstDesc) (stride dstDesc)) as [r |] eqn:Hr.
      * rewrite (EvalStencils_exec drv _ _ _ _ _ _ _ _ _ _ _ _ _ Hp Hc Hr) in E.
        discriminate E.
      * rewrite (EvalStencils_trap drv _ _ _ _ _ _ _ _ _ _ _ _ Hp Hc Hr) in E.
        discriminate E.
    + unfold EvalStencils in E. apply Z.eqb_neq in Hp. rewrite Hp in E.
      apply Z.leb_le in Hc. rewrite Hc in E. discriminate E.
  - intros du duDesc dv dvDesc n pcb pa t1 t2 E.
    destruct (Z.eq_dec (pk_program (_patchKernel this)) 0) as [Hp | Hp].
    { unfold EvalPatches in E. rewrite Hp in E. now injection E. }
    destruct (int_rem (offset dstDesc) (stride dstDesc)) as [r |] eqn:Hr.
    + rewrite (EvalPatches_exec drv _ _ _ _ _ _ _ _ _ _ _ _ _ _ _ _ Hp Hr) in E.
      discriminate E.
    + rewrite (EvalPatches_trap drv _ _ _ _ _ _ _ _ _ _ _ _ _ _ _ Hp Hr) in E.
      discriminate E.
Qed.

(** ** compileKernel *)

Section KernelFacts.

Variable drv : Driver.
Variable shaderSource : string.

Lemma bind_ok {A B} (m : GLM A) (k : A -> GLM B) w a w1 :
  m w = (Ok a, w1) -> bind m k w = k a w1.
Proof. unfold bind. now intros ->. Qed.

(** One more command after a sequence. *)
Lemma call_after cs c w :
  call drv c (exec drv cs w) = (Ok tt, exec drv (cs ++ [c]) w).
Proof. now rewrite exec_snoc. Qed.

(** Queries leave the context alone. *)
Lemma effect_GetShaderInfoLog s n w : effect drv (GetShaderInfoLog s n) w = w.
Proof. destruct w; reflexivity. Qed.

Lemma effect_GetProgramInfoLog p n w : effect drv (GetProgramInfoLog p n) w = w.
Proof. destruct w; reflexivity. Qed.

Lemma effect_GetUniformLocation p name w :
  effect drv (GetUniformLocation p name) w = w.
Proof. destruct w; reflexivity. Qed.

(** Reporting an error and issuing a command commute. *)
Lemma log_call_log_error c e msg w :
  log_call c (log_error e msg w) = log_error e msg (log_call c w).
Proof. reflexivity. Qed.

Lemma effect_log_error c e msg w :
  effect drv c (log_error e msg w) = log_error e msg (effect drv c w).
Proof. reflexivity. Qed.

Lemma glCreateProgram_run w :
  glCreateProgram drv w = (Ok (next_generated w), exec drv [CreateProgram] w).
Proof. reflexivity. Qed.

Lemma glCreateShader_after_program type w :
  glCreateShader drv type (exec drv [CreateProgram] w)
  = (Ok (second_generated w), exec drv [CreateProgram; CreateShader type] w).
Proof. reflexivity. Qed.

(** The state of the link, as the driver left it in the program object. *)
Lemma compileKernel_link_status srcDesc dstDesc kernelDefine r w :
  let w' := exec drv
              (compileKernel_prelude shaderSource srcDesc kernelDefine
                 (next_generated w) (second_generated w) ++
               [ TransformFeedbackVaryings (next_generated w)
                   (to_int (Z.of_nat (List.length (fill_outputs r dstDesc))))
                   (fill_outputs r dstDesc) GL_INTERLEAVED_ATTRIBS;
                 LinkProgram (next_generated w) ]) w in
  programs (gl_obj w') !! next_generated w
  = Some {| po_shaders := [second_generated w];
            po_varyings := linked_varyings dstDesc r;
            po_linked := kernel_links drv shaderSource srcDesc dstDesc
                           kernelDefine r |} /\
  shaders (gl_obj w') !! second_generated w
  = Some (shaderSources shaderSource srcDesc kernelDefine).
Proof.
  unfold next_generated, second_generated. cbn.
  rewrite !lookup_alter_eq. repeat rewrite lookup_insert_eq. cbn.
  unfold link, attached_sources. cbn. repeat rewrite lookup_insert_eq. cbn.
  split; reflexivity.
Qed.

(** [glGetProgramiv] right after the link. *)
Lemma glGetProgramiv_after_link srcDesc dstDesc kernelDefine r w :
  glGetProgramiv (next_generated w) GL_LINK_STATUS 0
    (exec drv
       (compileKernel_prelude shaderSource srcDesc kernelDefine
          (next_generated w) (second_generated w) ++
        [ TransformFeedbackVaryings (next_generated w)
            (to_int (Z.of_nat (List.length (fill_outputs r dstDesc))))
            (fill_outputs r dstDesc) GL_INTERLEAVED_ATTRIBS;
          LinkProgram (next_generated w) ]) w)
  = (Ok (if kernel_links drv shaderSource srcDesc dstDesc kernelDefine r
         then GL_TRUE else GL_FALSE),
     exec drv
       (compileKernel_prelude shaderSource srcDesc kernelDefine
          (next_generated w) (second_generated w) ++
        compileKernel_link dstDesc r (next_generated w)) w).
Proof.
  destruct (compileKernel_link_status srcDesc dstDesc kernelDefine r w)
    as [HP _].
  unfold glGetProgramiv, query. rewrite HP. cbn [po_linked]. reflexivity.
Qed.

(** The remainder is not defined: the call stops before any varying is
    declared. *)
Lemma compileKernel_trap srcDesc dstDesc kernelDefine w :
  int_rem (offset dstDesc) (stride dstDesc) = None ->
  compileKernel drv shaderSource srcDesc dstDesc kernelDefine w
  = (Raised integer_division,
     exec drv (compileKernel_prelude shaderSource srcDesc kernelDefine
                 (next_generated w) (second_generated w)) w).
Proof.
  intros Hr. unfold compileKernel, bind, rem. rewrite Hr. reflexivity.
Qed.

(** The same facts once the status has been queried. *)
Lemma compileKernel_objects_at_status srcDesc dstDesc kernelDefine r w :
  let w' := exec drv
              (compileKernel_prelude shaderSource srcDesc kernelDefine
                 (next_generated w) (second_generated w) ++
               compileKernel_link dstDesc r (next_generated w)) w in
  programs (gl_obj w') !! next_generated w
  = Some {| po_shaders := [second_generated w];
            po_varyings := linked_varyings dstDesc r;
            po_linked := kernel_links drv shaderSource srcDesc dstDesc
                           kernelDefine r |} /\
  shaders (gl_obj w') !! second_generated w
  = Some (shaderSources shaderSource srcDesc kernelDefine).
Proof.
  unfold next_generated, second_generated. cbn.
  rewrite !lookup_alter_eq. repeat rewrite lookup_insert_eq. cbn.
  unfold link, attached_sources. cbn. repeat rewrite lookup_insert_eq. cbn.
  split; reflexivity.
Qed.

Lemma rem_ok a b r w :
  int_rem a b = Some r -> rem a b w = (Ok r, w).
Proof. unfold rem. now intros ->. Qed.

(** Stepping through the binds of a method: [step L] runs the first
    computation with the lemma [L], [step_call] issues the next command. *)
Tactic Notation "step" open_constr(L) :=
  rewrite (bind_ok _ _ _ _ _ L); cbv beta.
Ltac step_call :=
  rewrite (bind_ok _ _ _ _ _ (call_after _ _ _)); cbv beta; cbn [app].

(** The program links. *)
Lemma compileKernel_linked srcDesc dstDesc kernelDefine r w :
  int_rem (offset dstDesc) (stride dstDesc) = Some r ->
  kernel_links drv shaderSource srcDesc dstDesc kernelDefine r = true ->
  compileKernel drv shaderSource srcDesc dstDesc kernelDefine w
  = (Ok (next_generated w),
     exec drv (compileKernel_prelude shaderSource srcDesc kernelDefine
                 (next_generated w) (second_generated w) ++
               compileKernel_link dstDesc r (next_generated w) ++
               [DeleteShader (second_generated w)]) w).
Proof.
  intros Hr Hl. unfold compileKernel.
  step (glCreateProgram_run w).
  step (glCreateShader_after_program GL_VERTEX_SHADER w).
  do 3 step_call. step (rem_ok _ _ _ _ Hr). do 2 step_call.
  step (glGetProgramiv_after_link srcDesc dstDesc kernelDefine r w).
  rewrite Hl. cbn [Z.eqb GL_TRUE GL_FALSE].
  step (eq_refl : ret _ _ = (Ok _, _)).
  step_call. reflexivity.
Qed.

(** The program does not link. *)
Lemma compileKernel_failed srcDesc dstDesc kernelDefine r w :
  int_rem (offset dstDesc) (stride dstDesc) = Some r ->
  kernel_links drv shaderSource srcDesc dstDesc kernelDefine r = false ->
  compileKernel drv shaderSource srcDesc dstDesc kernelDefine w
  = (Ok 0,
     log_error FAR_RUNTIME_ERROR
       (truncate 1024
          (kernel_program_log drv shaderSource srcDesc dstDesc kernelDefine r))
       (log_error FAR_RUNTIME_ERROR
          (truncate 1024 (kernel_shader_log drv shaderSource srcDesc kernelDefine))
          (exec drv
             (compileKernel_prelude shaderSource srcDesc kernelDefine
                (next_generated w) (second_generated w) ++
              compileKernel_link dstDesc r (next_generated w) ++
              link_failure_calls (next_generated w) (second_generated w)) w))).
Proof.
  intros Hr Hl. unfold compileKernel.
  step (glCreateProgram_run w).
  step (glCreateShader_after_program GL_VERTEX_SHADER w).
  do 3 step_call. step (rem_ok _ _ _ _ Hr). do 2 step_call.
  step (glGetProgramiv_after_link srcDesc dstDesc kernelDefine r w).
  rewrite Hl. cbn [Z.eqb GL_TRUE GL_FALSE].
  destruct (compileKernel_objects_at_status srcDesc dstDesc kernelDefine r w)
    as [HP HS].
  cbv zeta in HP, HS. revert HP HS.
  rewrite (app_assoc
             (compileKernel_prelude shaderSource srcDesc kernelDefine
                (next_generated w) (second_generated w))
             (compileKernel_link dstDesc r (next_generated w))
             (link_failure_calls (next_generated w) (second_generated w))).
  rewrite (exec_app drv
             (compileKernel_prelude shaderSource srcDesc kernelDefine
                (next_generated w) (second_generated w) ++
              compileKernel_link dstDesc r (next_generated w))).
  generalize (exec drv
                (compileKernel_prelude shaderSource srcDesc kernelDefine
                   (next_generated w) (second_generated w) ++
                 compileKernel_link dstDesc r (next_generated w)) w).
  intros W HP HS.
  unfold bind, glGetShaderInfoLog, glGetProgramInfoLog, query, Far_Error, call,
    ret.
  cbn [gl_obj log_error log_call effect].
  rewrite HP, HS. unfold attached_sources.
  cbn [default from_option id po_varyings po_shaders omap list_omap].
  rewrite HS.
  unfold kernel_program_log, kernel_shader_log, link_failure_calls.
  cbn [exec foldl].
  rewrite effect_GetShaderInfoLog, effect_GetProgramInfoLog.
  now rewrite !log_call_log_error, !effect_log_error, !log_call_log_error.
Qed.

End KernelFacts.

(** Stepping through the binds of a method: [run L] runs the first
    computation with the lemma [L], [run_call] issues the next command. *)
Tactic Notation "run" open_constr(L) :=
  rewrite (bind_ok _ _ _ _ _ L); cbv beta.
Ltac run_call :=
  rewrite (bind_ok _ _ _ _ _ (call_after _ _ _ _)); cbv beta; cbn [app].

Lemma issued_of_run {A} (m : GLM A) w r w' cs :
  m w = (r, w') -> gl_trace w' = gl_trace w ++ cs -> issued m w = cs.
Proof. intros E T. apply issued_intro. now rewrite E. Qed.

Lemma reported_of_run {A} (m : GLM A) w r w' es :
  m w = (r, w') -> far_errors w' = far_errors w ++ es -> reported m w = es.
Proof. intros E T. apply reported_intro. now rewrite E. Qed.

Lemma gl_trace_log_error e msg w : gl_trace (log_error e msg w) = gl_trace w.
Proof. reflexivity. Qed.

Lemma far_errors_log_error e msg w :
  far_errors (log_error e msg w) = far_errors w ++ [(e, msg)].
Proof. reflexivity. Qed.

(** The commands [compileKernel] issues, in each of its three outcomes. *)
Lemma compileKernel_issued drv shaderSource srcDesc dstDesc kernelDefine w :
  let p := next_generated w in
  let s := second_generated w in
  issued (compileKernel drv shaderSource srcDesc dstDesc kernelDefine) w =
  compileKernel_prelude shaderSource srcDesc kernelDefine p s ++
  match int_rem (offset dstDesc) (stride dstDesc) with
  | None => []
  | Some r =>
      compileKernel_link dstDesc r p ++
      if kernel_links drv shaderSource srcDesc dstDesc kernelDefine r
      then [DeleteShader s] else link_failure_calls p s
  end.
Proof.
  intros p s. subst p s.
  destruct (int_rem (offset dstDesc) (stride dstDesc)) as [r |] eqn:Hr.
  - destruct (kernel_links drv shaderSource srcDesc dstDesc kernelDefine r)
      eqn:Hl.
    + exact (issued_exec drv _ _ _ _
               (compileKernel_linked drv shaderSource _ _ _ _ w Hr Hl)).
    + apply (issued_of_run _ _ _ _ _
                (compileKernel_failed drv shaderSource _ _ _ _ w Hr Hl)).
      rewrite !gl_trace_log_error. apply exec_trace.
  - rewrite app_nil_r.
    exact (issued_exec drv _ _ _ _
             (compileKernel_trap drv shaderSource _ _ _ w Hr)).
Qed.

(** ** The shader source *)

(** C4. Whatever the descriptors and the kernel define, [compileKernel]
    passes source to the shader compiler exactly once, as three strings in
    this order: the line [#version 410]; the defines, made of
    [#define LENGTH ] followed by [srcDesc.length], [#define SRC_STRIDE ]
    followed by [srcDesc.stride], and the kernel-selecting define, one per
    line; and the embedded XFB kernel source. *)
Theorem compileKernel_shader_source drv shaderSource srcDesc dstDesc
    kernelDefine w :
  sources_passed
    (issued (compileKernel drv shaderSource srcDesc dstDesc kernelDefine) w)
  = [ (3, [ "#version 410" +:+ newline;
            "#define LENGTH " +:+ decimal (length srcDesc) +:+ newline +:+
            "#define SRC_STRIDE " +:+ decimal (stride srcDesc) +:+ newline +:+
            kernelDefine +:+ newline;
            shaderSource ]) ].
Proof.
  rewrite compileKernel_issued. cbv zeta. unfold sources_passed.
  rewrite omap_app.
  destruct (int_rem (offset dstDesc) (stride dstDesc)) as [r |];
    [destruct (kernel_links _ _ _ _ _ _) |];
    cbn [omap list_omap compileKernel_prelude compileKernel_link
           link_failure_calls app];
    reflexivity.
Qed.

(** ** Text facts *)

Lemma string_length_app (s1 s2 : string) :
  String.length (s1 +:+ s2) = (String.length s1 + String.length s2)%nat.
Proof.
  induction s1 as [| c s1 IH]; [reflexivity |].
  change (S (String.length (s1 +:+ s2)) = S (String.length s1 + String.length s2)).
  now rewrite IH.
Qed.

Lemma substring_all (n : nat) (s : string) :
  (String.length s <= n)%nat -> String.substring 0 n s = s.
Proof.
  revert n. induction s as [| c s IH]; intros [| n] H; cbn in *;
    try reflexivity; try lia.
  f_equal. apply IH. lia.
Qed.

(** A bounded buffer keeps a string that fits. *)
Lemma truncate_fits size s :
  Z.of_nat (String.length s) < size -> truncate size s = s.
Proof. intros H. unfold truncate. apply substring_all. lia. Qed.

(** A bounded buffer never holds more than [size - 1] characters. *)
Lemma truncate_length size s :
  (String.length (truncate size s) <= Z.to_nat (size - 1))%nat.
Proof.
  unfold truncate. generalize (Z.to_nat (size - 1)) as n.
  induction s as [| c s IH]; intros [| n]; cbn; try lia.
  specialize (IH n). lia.
Qed.

Lemma pretty_N_go_length (n : nat) (x : N) (s : string) :
  (x < 10 ^ N.of_nat n)%N ->
  (String.length (pretty_N_go x s) <= n + String.length s)%nat.
Proof.
  revert x s. induction n as [| n IH]; intros x s Hx.
  - assert (x = 0%N) as -> by (cbn in Hx; lia).
    rewrite pretty_N_go_0. lia.
  - destruct (N.eq_dec x 0%N) as [-> | Hnz].
    + rewrite pretty_N_go_0. lia.
    + rewrite pretty_N_go_step by lia.
      etransitivity; [apply IH |].
      * apply N.Div0.div_lt_upper_bound.
        rewrite Nat2N.inj_succ, N.pow_succ_r' in Hx. exact Hx.
      * cbn. lia.
Qed.

(** [%d] of a non-negative [int] takes at most ten characters. *)
Lemma decimal_length i :
  0 <= i <= INT_MAX -> (String.length (decimal i) <= 10)%nat.
Proof.
  intros [H0 H1]. unfold decimal, INT_MAX in *.
  destruct i as [| p | p]; [cbn; lia | | lia].
  unfold pretty, pretty_Z, pretty, pretty_positive, pretty, pretty_N.
  case_decide; [cbn; lia |].
  pose proof (pretty_N_go_length 10 (N.pos p) "") as L.
  cbn [String.length] in L. rewrite Nat.add_0_r in L. apply L.
  change (10 ^ N.of_nat 10)%N with 10000000000%N. lia.
Qed.

(** The attribute names fit their 32-byte buffer. *)
Lemma snprintf_outVertexBuffer_exact i :
  0 <= i <= INT_MAX ->
  snprintf_outVertexBuffer 32 i = "outVertexBuffer[" +:+ decimal i +:+ "]".
Proof.
  intros H. unfold snprintf_outVertexBuffer. apply truncate_fits.
  pose proof (decimal_length i H) as L.
  rewrite string_length_app, string_length_app. cbn [String.length]. lia.
Qed.

(** ** The loops of compileKernel *)

Lemma foldl_push {A B} (f : A -> B) (l : list A) (s : list B) :
  foldl (fun acc i => acc ++ [f i]) s l = s ++ (f <$> l).
Proof.
  revert s. induction l as [| x l IH]; intros s; cbn.
  - now rewrite app_nil_r.
  - rewrite IH. now rewrite <- app_assoc.
Qed.

Lemma for_int_local_push {B} lo hi (f : Z -> B) (s : list B) :
  for_int_local lo hi (fun i out => out ++ [f i]) s
  = s ++ (f <$> seqZ lo (hi - lo)).
Proof. unfold for_int_local. apply foldl_push. Qed.

Lemma fmap_const_seqZ {B} (y : B) lo n :
  (fun _ => y) <$> seqZ lo n = replicate (Z.to_nat n) y.
Proof.
  rewrite <- (length_seqZ lo n). apply const_fmap. reflexivity.
Qed.

(** What the three loops leave in [outputs], for any [int] values. *)
Lemma fill_outputs_unfold r dstDesc :
  fill_outputs r dstDesc =
  replicate (Z.to_nat r) "gl_SkipComponents1" ++
  (snprintf_outVertexBuffer 32 <$> seqZ 0 (length dstDesc)) ++
  replicate (Z.to_nat (stride dstDesc - int_add r (length dstDesc)))
            "gl_SkipComponents1".
Proof.
  unfold fill_outputs. rewrite !for_int_local_push, !fmap_const_seqZ.
  rewrite !Z.sub_0_r. cbn [app]. now rewrite <- app_assoc.
Qed.

Lemma fmap_seqZ_ext {B} (f g : Z -> B) lo n :
  (forall i, lo <= i < lo + n -> f i = g i) -> f <$> seqZ lo n = g <$> seqZ lo n.
Proof.
  intros H. apply list_fmap_ext. intros k i Hi.
  apply lookup_seqZ in Hi as [-> Hk]. apply H. lia.
Qed.

(** The layout of [outputs] for a non-negative offset and length that fit
    the stride. *)
Lemma fill_outputs_layout r dstDesc :
  0 <= r -> 0 <= length dstDesc -> r + length dstDesc <= stride dstDesc ->
  stride dstDesc <= INT_MAX ->
  fill_outputs r dstDesc =
  replicate (Z.to_nat r) "gl_SkipComponents1" ++
  ((fun i => "outVertexBuffer[" +:+ decimal i +:+ "]")
     <$> seqZ 0 (length dstDesc)) ++
  replicate (Z.to_nat (stride dstDesc - r - length dstDesc))
            "gl_SkipComponents1" /\
  Z.of_nat (List.length (fill_outputs r dstDesc)) = stride dstDesc.
Proof.
  intros Hr Hl Hs Hm. rewrite fill_outputs_unfold.
  rewrite int_add_exact by (unfold in_int, INT_MIN, INT_MAX in *; lia).
  rewrite (fmap_seqZ_ext (snprintf_outVertexBuffer 32)
             (fun i => "outVertexBuffer[" +:+ decimal i +:+ "]")).
  2: { intros i Hi. apply snprintf_outVertexBuffer_exact. lia. }
  replace (stride dstDesc - (r + length dstDesc))
    with (stride dstDesc - r - length dstDesc) by lia.
  split; [reflexivity |].
  rewrite !length_app, !length_replicate, length_fmap, length_seqZ. lia.
Qed.

(** ** The transform-feedback varyings *)

Lemma varyings_declared_compileKernel drv shaderSource srcDesc dstDesc
      kernelDefine w r :
  int_rem (offset dstDesc) (stride dstDesc) = Some r ->
  varyings_declared
    (issued (compileKernel drv shaderSource srcDesc dstDesc kernelDefine) w)
  = [ (to_int (Z.of_nat (List.length (fill_outputs r dstDesc))),
       fill_outputs r dstDesc, GL_INTERLEAVED_ATTRIBS) ].
Proof.
  intros Hr. rewrite compileKernel_issued. cbv zeta. rewrite Hr.
  unfold varyings_declared. rewrite !omap_app.
  destruct (kernel_links _ _ _ _ _ _);
    cbn [omap list_omap compileKernel_prelude compileKernel_link
           link_failure_calls app];
    reflexivity.
Qed.

(** C2, amended. For every destination descriptor with a positive stride, a
    non-negative offset and a non-negative length such that
    [(offset % stride) + length <= stride], [compileKernel] declares the
    transform-feedback varyings exactly once, in interleaved mode, and they
    are [stride] names: first [offset % stride] times [gl_SkipComponents1],
    then [outVertexBuffer[0]] to [outVertexBuffer[length-1]] in index order,
    then [gl_SkipComponents1] up to [stride] entries. *)
Theorem compileKernel_varyings drv shaderSource srcDesc dstDesc kernelDefine w :
  in_int (stride dstDesc) ->
  0 < stride dstDesc ->
  0 <= offset dstDesc ->
  0 <= length dstDesc ->
  Z.rem (offset dstDesc) (stride dstDesc) + length dstDesc <= stride dstDesc ->
  let primvarOffset := Z.rem (offset dstDesc) (stride dstDesc) in
  let names :=
    replicate (Z.to_nat primvarOffset) "gl_SkipComponents1" ++
    ((fun i => "outVertexBuffer[" +:+ decimal i +:+ "]")
       <$> seqZ 0 (length dstDesc)) ++
    replicate (Z.to_nat (stride dstDesc - primvarOffset - length dstDesc))
              "gl_SkipComponents1" in
  varyings_declared
    (issued (compileKernel drv shaderSource srcDesc dstDesc kernelDefine) w)
  = [ (stride dstDesc, names, GL_INTERLEAVED_ATTRIBS) ] /\
  Z.of_nat (List.length names) = stride dstDesc.
Proof.
  intros Hi Hs Ho Hl Hfit primvarOffset names.
  assert (Hr : int_rem (offset dstDesc) (stride dstDesc) = Some primvarOffset).
  { apply int_rem_defined; lia. }
  assert (H0 : 0 <= primvarOffset) by (apply Z.rem_nonneg; lia).
  destruct (fill_outputs_layout primvarOffset dstDesc H0 Hl Hfit (proj2 Hi))
    as [Hlay Hlen].
  fold names in Hlay.
  rewrite (varyings_declared_compileKernel _ _ _ _ _ _ _ Hr).
  rewrite Hlen, (to_int_exact _ Hi), Hlay. split; [reflexivity |].
  now rewrite <- Hlay.
Qed.

Lemma compileKernel_varyings_witness :
  varyings_declared
    (issued (compileKernel (Sample.good_driver true) "KERNEL"
               (Sample.desc 0 3 3) (Sample.desc 8 3 6) "#define K")
            Sample.new_context)
  = [ (6, [ "gl_SkipComponents1"; "gl_SkipComponents1";
            "outVertexBuffer[0]"; "outVertexBuffer[1]"; "outVertexBuffer[2]";
            "gl_SkipComponents1" ], GL_INTERLEAVED_ATTRIBS) ].
Proof.
  destruct (compileKernel_varyings (Sample.good_driver true) "KERNEL"
              (Sample.desc 0 3 3) (Sample.desc 8 3 6) "#define K"
              Sample.new_context) as [H _].
  - unfold in_int, INT_MIN, INT_MAX. cbn. lia.
  - cbn. lia.
  - cbn. lia.
  - cbn. lia.
  - change (Z.rem 8 6 + 3 <= 6). change (Z.rem 8 6) with 2. lia.
  - exact H.
Defined.

(** C2 as stated fails: a descriptor with stride 4, offset 0 and length -1
    meets the stated conditions, yet five varyings are declared, not four. *)
Lemma compileKernel_negative_length_declares_five :
  let dstDesc := Sample.desc 0 (-1) 4 in
  0 < stride dstDesc /\
  Z.rem (offset dstDesc) (stride dstDesc) + length dstDesc <= stride dstDesc /\
  varyings_declared
    (issued (compileKernel (Sample.good_driver true) "KERNEL"
               (Sample.desc 0 3 3) dstDesc "#define K") Sample.new_context)
  = [ (5, replicate 5 "gl_SkipComponents1", GL_INTERLEAVED_ATTRIBS) ].
Proof.
  cbv zeta. split; [cbn; lia |]. split; [vm_compute; discriminate |].
  vm_compute. reflexivity.
Qed.

(** The same happens for a negative offset: with offset -1, length 3 and
    stride 4 the remainder is -1, no leading entry is skipped and two
    trailing ones are. *)
Lemma compileKernel_negative_offset_declares_five :
  let dstDesc := Sample.desc (-1) 3 4 in
  0 < stride dstDesc /\
  Z.rem (offset dstDesc) (stride dstDesc) + length dstDesc <= stride dstDesc /\
  varyings_declared
    (issued (compileKernel (Sample.good_driver true) "KERNEL"
               (Sample.desc 0 3 3) dstDesc "#define K") Sample.new_context)
  = [ (5, [ "outVertexBuffer[0]"; "outVertexBuffer[1]"; "outVertexBuffer[2]";
            "gl_SkipComponents1"; "gl_SkipComponents1" ],
       GL_INTERLEAVED_ATTRIBS) ].
Proof.
  cbv zeta. split; [cbn; lia |]. split; [vm_compute; discriminate |].
  vm_compute. reflexivity.
Qed.

(** ** Compile *)

Section CompileFacts.

Variable drv : Driver.
Variable shaderSource : string.

Lemma delete_program_run p w :
  when (negb (p =? 0)) (call drv (DeleteProgram p)) w
  = (Ok tt, exec drv (delete_program_calls p) w).
Proof. unfold when, delete_program_calls. now destruct (p =? 0). Qed.

Lemma next_generated_delete_program p w :
  next_generated (exec drv (delete_program_calls p) w) = next_generated w /\
  second_generated (exec drv (delete_program_calls p) w) = second_generated w.
Proof.
  unfold delete_program_calls.
  destruct (p =? 0); [split; reflexivity |].
  unfold next_generated, second_generated. cbn.
  destruct (decide _); split; reflexivity.
Qed.

Lemma glGetUniformLocation_run p name w :
  glGetUniformLocation drv p name w
  = (Ok (drv_uniform_location drv p name),
     exec drv [GetUniformLocation p name] w).
Proof.
  unfold glGetUniformLocation, query. cbn [exec foldl].
  now rewrite effect_GetUniformLocation.
Qed.

Lemma ret_run {A} (a : A) w : ret a w = (Ok a, w).
Proof. reflexivity. Qed.

(** The stencil kernel does not link. *)
Lemma Compile_stencil_fails this srcDesc dstDesc r w :
  int_rem (offset dstDesc) (stride dstDesc) = Some r ->
  kernel_links drv shaderSource srcDesc dstDesc stencil_define r = false ->
  exists this' w',
    Compile drv shaderSource this srcDesc dstDesc w = (Ok (false, this'), w') /\
    sk_program (_stencilKernel this') = 0 /\
    gl_trace w' =
      gl_trace w ++
      delete_program_calls (sk_program (_stencilKernel this)) ++
      compileKernel_prelude shaderSource srcDesc stencil_define
        (next_generated w) (second_generated w) ++
      compileKernel_link dstDesc r (next_generated w) ++
      link_failure_calls (next_generated w) (second_generated w) /\
    far_errors w' =
      far_errors w ++
      [ (FAR_RUNTIME_ERROR,
         truncate 1024 (kernel_shader_log drv shaderSource srcDesc stencil_define));
        (FAR_RUNTIME_ERROR,
         truncate 1024
           (kernel_program_log drv shaderSource srcDesc dstDesc stencil_define r)) ].
Proof.
  intros Hr Hl.
  destruct (next_generated_delete_program (sk_program (_stencilKernel this)) w)
    as [N1 N2].
  eexists _, _. split; [| split; [| split]].
  - unfold Compile.
    run (delete_program_run _ w).
    run (compileKernel_failed drv shaderSource srcDesc dstDesc stencil_define
           r _ Hr Hl).
    cbn [Z.eqb]. apply ret_run.
  - reflexivity.
  - rewrite !gl_trace_log_error, !exec_trace, N1, N2.
    now rewrite <- !app_assoc.
  - rewrite !far_errors_log_error, !exec_errors. now rewrite <- !app_assoc.
Qed.


(** Names are handed out in order: each generating command takes one. *)
Lemma next_name_effect c w :
  next_name (gl_obj (effect drv c w))
  = Nat.iter (generated [c]) Pos.succ (next_name (gl_obj w)).
Proof.
  destruct c; cbn; try reflexivity;
    repeat match goal with
           | |- context [match ?x with _ => _ end] => destruct x
           end; reflexivity.
Qed.

Lemma generated_cons c cs :
  generated (c :: cs) = (generated cs + generated [c])%nat.
Proof. unfold generated. cbn. destruct (generates c); cbn; lia. Qed.

Lemma next_name_exec cs w :
  next_name (gl_obj (exec drv cs w))
  = Nat.iter (generated cs) Pos.succ (next_name (gl_obj w)).
Proof.
  revert w. induction cs as [| c cs IH]; intros w; [reflexivity |].
  change (exec drv (c :: cs) w) with (exec drv cs (log_call c (effect drv c w))).
  rewrite IH. change (gl_obj (log_call c (effect drv c w)))
    with (gl_obj (effect drv c w)).
  now rewrite next_name_effect, (generated_cons c cs), Nat.iter_add.
Qed.

Lemma generated_app cs1 cs2 :
  generated (cs1 ++ cs2) = (generated cs1 + generated cs2)%nat.
Proof. unfold generated. now rewrite List.filter_app, List.length_app. Qed.

Lemma generated_delete_program p : generated (delete_program_calls p) = 0%nat.
Proof. unfold delete_program_calls. now destruct (p =? 0). Qed.

(** The names in use once the stencil kernel is built and its uniforms
    are located. *)
Lemma names_after_stencil this srcDesc dstDesc r w :
  let w1 := exec drv
              (Compile_stencil_calls shaderSource this srcDesc dstDesc r
                 (next_generated w) (second_generated w) ++
               delete_program_calls (pk_program (_patchKernel this))) w in
  next_generated w1 = third_generated w /\
  second_generated w1 = fourth_generated w.
Proof.
  cbv zeta. unfold next_generated, second_generated, third_generated,
    fourth_generated.
  rewrite next_name_exec. unfold Compile_stencil_calls.
  rewrite !generated_app, !generated_delete_program.
  split; reflexivity.
Qed.

Lemma Compile_stencil_calls_eq this srcDesc dstDesc r p s tail :
  ((((((((((delete_program_calls (sk_program (_stencilKernel this)) ++
            compileKernel_prelude shaderSource srcDesc stencil_define p s ++
            compileKernel_link dstDesc r p ++
            [DeleteShader s]) ++
           [GetUniformLocation p "vertexBuffer"]) ++
          [GetUniformLocation p "srcOffset"]) ++
         [GetUniformLocation p "sizes"]) ++
        [GetUniformLocation p "offsets"]) ++
       [GetUniformLocation p "indices"]) ++
      [GetUniformLocation p "weights"]) ++
     [GetUniformLocation p "batchStart"]) ++
    [GetUniformLocation p "batchEnd"]) ++ tail)
  = Compile_stencil_calls shaderSource this srcDesc dstDesc r p s ++ tail.
Proof.
  unfold Compile_stencil_calls, stencil_uniform_queries.
  rewrite <- !app_assoc. reflexivity.
Qed.

(** [Compile] up to the second call of [compileKernel], when the stencil
    kernel links. *)
Ltac Compile_first_half this srcDesc dstDesc r w Hr Hl :=
  let K := fresh "K" in
  let N1 := fresh "N" in
  let N2 := fresh "N" in
  destruct (next_generated_delete_program
              (sk_program (_stencilKernel this)) w) as [N1 N2];
  pose proof (compileKernel_linked drv shaderSource srcDesc dstDesc
                stencil_define r
                (exec drv (delete_program_calls
                             (sk_program (_stencilKernel this))) w) Hr Hl) as K;
  rewrite N1, N2, <- exec_app in K;
  unfold Compile;
  run (delete_program_run _ w);
  run K;
  change (next_generated w =? 0) with false; cbv iota;
  do 8 (run (glGetUniformLocation_run _ _ _); rewrite <- exec_app);
  run (delete_program_run _ _); rewrite <- exec_app;
  rewrite Compile_stencil_calls_eq;
  cbn [_srcBufferTexture _patchKernel _stencilKernel];
  clear K N1 N2.

(** The stencil kernel links, the patch kernel does not. *)
Lemma Compile_patch_fails this srcDesc dstDesc r w :
  int_rem (offset dstDesc) (stride dstDesc) = Some r ->
  kernel_links drv shaderSource srcDesc dstDesc stencil_define r = true ->
  kernel_links drv shaderSource srcDesc dstDesc patch_define r = false ->
  exists this' w',
    Compile drv shaderSource this srcDesc dstDesc w = (Ok (false, this'), w') /\
    sk_program (_stencilKernel this') = next_generated w /\
    pk_program (_patchKernel this') = 0 /\
    gl_trace w' =
      gl_trace w ++
      Compile_stencil_calls shaderSource this srcDesc dstDesc r
        (next_generated w) (second_generated w) ++
      Compile_patch_calls shaderSource this srcDesc dstDesc r
        (third_generated w) (fourth_generated w) ++
      link_failure_calls (third_generated w) (fourth_generated w) /\
    far_errors w' =
      far_errors w ++
      [ (FAR_RUNTIME_ERROR,
         truncate 1024 (kernel_shader_log drv shaderSource srcDesc patch_define));
        (FAR_RUNTIME_ERROR,
         truncate 1024
           (kernel_program_log drv shaderSource srcDesc dstDesc patch_define r)) ].
Proof.
  intros Hr Hl1 Hl2.
  eexists _, _. split; [| split; [| split; [| split]]].
  - Compile_first_half this srcDesc dstDesc r w Hr Hl1.
    destruct (names_after_stencil this srcDesc dstDesc r w) as [N3 N4].
    cbv zeta in N3, N4.
    match goal with
    | |- _ ?st = _ =>
        pose proof (compileKernel_failed drv shaderSource srcDesc dstDesc
                      patch_define r st Hr Hl2) as K
    end.
    rewrite N3, N4 in K. run K. cbn [Z.eqb]. apply ret_run.
  - reflexivity.
  - reflexivity.
  - rewrite !gl_trace_log_error, !exec_trace. unfold Compile_patch_calls.
    now rewrite <- !app_assoc.
  - rewrite !far_errors_log_error, !exec_errors. now rewrite <- !app_assoc.
Qed.

(** Both kernels link. *)
Lemma Compile_succeeds this srcDesc dstDesc r w :
  int_rem (offset dstDesc) (stride dstDesc) = Some r ->
  kernel_links drv shaderSource srcDesc dstDesc stencil_define r = true ->
  kernel_links drv shaderSource srcDesc dstDesc patch_define r = true ->
  exists this' w',
    Compile drv shaderSource this srcDesc dstDesc w = (Ok (true, this'), w') /\
    sk_program (_stencilKernel this') = next_generated w /\
    pk_program (_patchKernel this') = third_generated w /\
    _srcBufferTexture this' <> 0 /\
    gl_trace w' =
      gl_trace w ++
      Compile_stencil_calls shaderSource this srcDesc dstDesc r
        (next_generated w) (second_generated w) ++
      Compile_patch_calls shaderSource this srcDesc dstDesc r
        (third_generated w) (fourth_generated w) ++
      Compile_final_calls this (third_generated w) (fourth_generated w) /\
    far_errors w' = far_errors w.
Proof.
  intros Hr Hl1 Hl2.
  destruct (Z.eqb_spec (_srcBufferTexture this) 0) as [Hs | Hs].
  - eexists _, _. split; [| split; [| split; [| split; [| split]]]].
    + Compile_first_half this srcDesc dstDesc r w Hr Hl1.
      destruct (names_after_stencil this srcDesc dstDesc r w) as [N3 N4].
      cbv zeta in N3, N4.
      match goal with
      | |- _ ?st = _ =>
          pose proof (compileKernel_linked drv shaderSource srcDesc dstDesc
                        patch_define r st Hr Hl2) as K
      end.
      rewrite N3, N4 in K. run K.
      change (third_generated w =? 0) with false. cbv iota.
      do 5 (run (glGetUniformLocation_run _ _ _)).
      rewrite Hs. cbn [Z.eqb].
      run (eq_refl : glGenTextures drv _ = (Ok _, exec drv [GenTextures 1] _)).
      apply ret_run.
    + reflexivity.
    + reflexivity.
    + cbn [_srcBufferTexture]. discriminate.
    + rewrite !exec_trace. unfold Compile_patch_calls, Compile_final_calls,
        patch_uniform_queries. rewrite Hs. cbn [Z.eqb fmap list_fmap].
      rewrite <- !app_assoc. reflexivity.
    + now rewrite !exec_errors.
  - eexists _, _. split; [| split; [| split; [| split; [| split]]]].
    + Compile_first_half this srcDesc dstDesc r w Hr Hl1.
      destruct (names_after_stencil this srcDesc dstDesc r w) as [N3 N4].
      cbv zeta in N3, N4.
      match goal with
      | |- _ ?st = _ =>
          pose proof (compileKernel_linked drv shaderSource srcDesc dstDesc
                        patch_define r st Hr Hl2) as K
      end.
      rewrite N3, N4 in K. run K.
      change (third_generated w =? 0) with false. cbv iota.
      do 5 (run (glGetUniformLocation_run _ _ _)).
      apply Z.eqb_neq in Hs. rewrite Hs.
      run (ret_run _ _). apply ret_run.
    + reflexivity.
    + reflexivity.
    + cbn [_srcBufferTexture]. exact Hs.
    + rewrite !exec_trace. unfold Compile_patch_calls, Compile_final_calls,
        patch_uniform_queries. apply Z.eqb_neq in Hs. rewrite Hs.
      cbn [fmap list_fmap]. rewrite <- !app_assoc. reflexivity.
    + now rewrite !exec_errors.
Qed.

End CompileFacts.

(** ** Compile: link failures *)

(** C3, amended. When Compile reaches the link of a kernel program and the
    link fails (first the stencil kernel, then the patch kernel), the
    driver's shader info log and program info log are both handed to the
    error callback as [FAR_RUNTIME_ERROR], each cut to the 1023 characters
    that fit the local 1024-byte buffer (so verbatim when it is shorter
    than 1024 characters); the commands end with the deletion of the program
    that was just linked, followed by that of its shader; and Compile returns
    false.  When both kernels link, Compile returns true and reports
    nothing. *)
Theorem Compile_link_outcome drv shaderSource this srcDesc dstDesc w :
  stride dstDesc <> 0 ->
  ~ (offset dstDesc = INT_MIN /\ stride dstDesc = -1) ->
  let r := Z.rem (offset dstDesc) (stride dstDesc) in
  let run := Compile drv shaderSource this srcDesc dstDesc in
  let links define :=
    kernel_links drv shaderSource srcDesc dstDesc define r in
  let forwarded define :=
    [ (FAR_RUNTIME_ERROR,
       truncate 1024 (kernel_shader_log drv shaderSource srcDesc define));
      (FAR_RUNTIME_ERROR,
       truncate 1024
         (kernel_program_log drv shaderSource srcDesc dstDesc define r)) ] in
  let failure p s :=
    [ LinkProgram p; GetProgramiv p GL_LINK_STATUS;
      GetShaderInfoLog s 1024; GetProgramInfoLog p 1024;
      DeleteProgram p; DeleteShader s ] in
  (links stencil_define = false ->
   (exists this', result run w = Ok (false, this')) /\
   reported run w = forwarded stencil_define /\
   (exists before,
       issued run w =
       before ++ failure (next_generated w) (second_generated w))) /\
  (links stencil_define = true -> links patch_define = false ->
   (exists this', result run w = Ok (false, this')) /\
   reported run w = forwarded patch_define /\
   (exists before,
       issued run w =
       before ++ failure (third_generated w) (fourth_generated w))) /\
  (links stencil_define = true -> links patch_define = true ->
   (exists this', result run w = Ok (true, this')) /\
   reported run w = []) /\
  (forall log, Z.of_nat (String.length log) < 1024 -> truncate 1024 log = log).
Proof.
  intros Hs Hq r. cbv zeta.
  pose proof (int_rem_defined _ _ Hs Hq) as Hr. fold r in Hr.
  split; [| split; [| split]].
  - intros Hl.
    destruct (Compile_stencil_fails drv shaderSource this srcDesc dstDesc r w
                Hr Hl) as (this' & w' & E & _ & T & F).
    split; [exists this'; unfold result; now rewrite E |].
    split; [exact (reported_of_run _ _ _ _ _ E F) |].
    eexists. rewrite (issued_of_run _ _ _ _ _ E T).
    unfold compileKernel_link, link_failure_calls.
    rewrite !app_assoc.
    change [TransformFeedbackVaryings (next_generated w)
              (to_int (Z.of_nat (List.length (fill_outputs r dstDesc))))
              (fill_outputs r dstDesc) GL_INTERLEAVED_ATTRIBS;
            LinkProgram (next_generated w);
            GetProgramiv (next_generated w) GL_LINK_STATUS]
      with ([TransformFeedbackVaryings (next_generated w)
               (to_int (Z.of_nat (List.length (fill_outputs r dstDesc))))
               (fill_outputs r dstDesc) GL_INTERLEAVED_ATTRIBS] ++
            [LinkProgram (next_generated w);
             GetProgramiv (next_generated w) GL_LINK_STATUS]).
    rewrite !app_assoc. rewrite <- (app_assoc _ [LinkProgram _; _]).
    reflexivity.
  - intros Hl1 Hl2.
    destruct (Compile_patch_fails drv shaderSource this srcDesc dstDesc r w
                Hr Hl1 Hl2) as (this' & w' & E & _ & _ & T & F).
    split; [exists this'; unfold result; now rewrite E |].
    split; [exact (reported_of_run _ _ _ _ _ E F) |].
    eexists. rewrite (issued_of_run _ _ _ _ _ E T).
    unfold Compile_patch_calls, compileKernel_link, link_failure_calls.
    rewrite !app_assoc.
    change [TransformFeedbackVaryings (third_generated w)
              (to_int (Z.of_nat (List.length (fill_outputs r dstDesc))))
              (fill_outputs r dstDesc) GL_INTERLEAVED_ATTRIBS;
            LinkProgram (third_generated w);
            GetProgramiv (third_generated w) GL_LINK_STATUS]
      with ([TransformFeedbackVaryings (third_generated w)
               (to_int (Z.of_nat (List.length (fill_outputs r dstDesc))))
               (fill_outputs r dstDesc) GL_INTERLEAVED_ATTRIBS] ++
            [LinkProgram (third_generated w);
             GetProgramiv (third_generated w) GL_LINK_STATUS]).
    rewrite !app_assoc. rewrite <- (app_assoc _ [LinkProgram _; _]).
    reflexivity.
  - intros Hl1 Hl2.
    destruct (Compile_succeeds drv shaderSource this srcDesc dstDesc r w
                Hr Hl1 Hl2) as (this' & w' & E & _ & _ & _ & _ & F).
    split; [exists this'; unfold result; now rewrite E |].
    apply (reported_of_run _ _ _ _ _ E). now rewrite app_nil_r.
  - apply truncate_fits.
Qed.

Lemma Compile_link_outcome_witness :
  let src := Sample.desc 0 3 3 in
  let dst := Sample.desc 4 3 7 in
  (reported (Compile (Sample.bad_driver "0:1: syntax error" "link failed")
               "KERNEL" GLXFBEvaluator_new src dst) Sample.new_context
   = [ (FAR_RUNTIME_ERROR, "0:1: syntax error");
       (FAR_RUNTIME_ERROR, "link failed") ]) /\
  (reported (Compile Sample.stencil_only_driver "KERNEL" GLXFBEvaluator_new
               src dst) Sample.new_context
   = [ (FAR_RUNTIME_ERROR, "");
       (FAR_RUNTIME_ERROR, "error: patchArray is not declared") ]) /\
  (exists this',
      result (Compile (Sample.good_driver false) "KERNEL" GLXFBEvaluator_new
                src dst) Sample.new_context = Ok (true, this')).
Proof.
  intros src dst. split; [| split].
  - destruct (Compile_link_outcome
                (Sample.bad_driver "0:1: syntax error" "link failed")
                "KERNEL" GLXFBEvaluator_new src dst Sample.new_context)
      as ((_ & R & _) & _); [discriminate | intros [E _]; discriminate | |].
    + reflexivity.
    + exact R.
  - destruct (Compile_link_outcome Sample.stencil_only_driver
                "KERNEL" GLXFBEvaluator_new src dst Sample.new_context)
      as (_ & H & _); [discriminate | intros [E _]; discriminate |].
    destruct H as (_ & R & _); [reflexivity | reflexivity | exact R].
  - destruct (Compile_link_outcome (Sample.good_driver false)
                "KERNEL" GLXFBEvaluator_new src dst Sample.new_context)
      as (_ & _ & H & _); [discriminate | intros [E _]; discriminate |].
    destruct H as (T & _); [reflexivity | reflexivity | exact T].
Defined.

(** C3 as stated fails: an info log of 1030 characters is not forwarded
    verbatim; the callback receives its first 1023 characters. *)
Lemma Compile_cuts_long_info_log :
  let drv := Sample.bad_driver Sample.long_log "link failed" in
  let src := Sample.desc 0 3 3 in
  let dst := Sample.desc 4 3 7 in
  let run := Compile drv "KERNEL" GLXFBEvaluator_new src dst in
  kernel_links drv "KERNEL" src dst stencil_define
    (Z.rem (offset dst) (stride dst)) = false /\
  drv_shader_log drv (shaderSources "KERNEL" src stencil_define)
    = Sample.long_log /\
  reported run Sample.new_context
    <> [ (FAR_RUNTIME_ERROR, Sample.long_log);
         (FAR_RUNTIME_ERROR, "link failed") ] /\
  (fun e => String.length (snd e)) <$> reported run Sample.new_context
    = [1023%nat; 11%nat].
Proof.
  intros drv src dst run. split; [reflexivity |]. split; [reflexivity |].
  assert (L : (fun e => String.length (snd e)) <$> reported run Sample.new_context
              = [1023%nat; 11%nat]) by (vm_compute; reflexivity).
  split; [| exact L].
  intros E. rewrite E in L. vm_compute in L. discriminate L.
Qed.

(** ** createGLTextureBuffer *)

Section TextureBufferFacts.

Variable drv : Driver.

Lemma createGLTextureBuffer_empty sizeof_T type w :
  createGLTextureBuffer drv sizeof_T [] type w = (Raised std_out_of_range, w).
Proof. reflexivity. Qed.

Lemma createGLTextureBuffer_exec sizeof_T x src type w :
  createGLTextureBuffer drv sizeof_T (x :: src) type w
  = (Ok (second_generated w),
     exec drv
       (createGLTextureBuffer_calls (drv_direct_state_access drv)
          (to_int (to_size_t (Z.of_nat (List.length (x :: src)) * sizeof_T)))
          (x :: src) type (next_generated w) (second_generated w)
          (array_buffer (gl_bind w))
          (bound_texture (gl_bind w) (active_texture (gl_bind w)))) w).
Proof.
  unfold createGLTextureBuffer, createGLTextureBuffer_calls, address_at.
  destruct (drv_direct_state_access drv).
  - reflexivity.
  - reflexivity.
Qed.

(** What the sequence leaves in the object tables: one new data store
    holding [src], one new buffer texture over it, two names taken. *)
Lemma createGLTextureBuffer_objects size src type w :
  let w' :=
    exec drv
      (createGLTextureBuffer_calls (drv_direct_state_access drv) size src type
         (next_generated w) (second_generated w)
         (array_buffer (gl_bind w))
         (bound_texture (gl_bind w) (active_texture (gl_bind w)))) w in
  textures (gl_obj w')
  = <[second_generated w :=
        {| tex_format := type; tex_buffer := next_generated w |}]>
      (textures (gl_obj w)) /\
  buffers (gl_obj w')
  = <[next_generated w := {| buf_size := size; buf_data := src |}]>
      (buffers (gl_obj w)) /\
  next_name (gl_obj w') = Pos.succ (Pos.succ (next_name (gl_obj w))).
Proof.
  unfold createGLTextureBuffer_calls, next_generated, second_generated.
  destruct (drv_direct_state_access drv); cbn.
  - repeat split.
  - unfold bound_texture. cbn. rewrite lookup_insert_eq. cbn.
    repeat split.
Qed.

Lemma uploads_createGLTextureBuffer_calls direct size src type b t pb pt :
  uploads (createGLTextureBuffer_calls direct size src type b t pb pt)
  = [(size, src)] /\
  textures_generated (createGLTextureBuffer_calls direct size src type b t pb pt)
  = 1%nat.
Proof. destruct direct; split; reflexivity. Qed.

End TextureBufferFacts.

(** ** The stencil table textures *)

Lemma table_bytes_exact v :
  table_bytes v <= INT_MAX ->
  to_int (to_size_t (Z.of_nat (List.length v) * 4)) = table_bytes v.
Proof.
  unfold table_bytes, INT_MAX, to_size_t. intros H.
  rewrite Z.mod_small by lia. apply to_int_exact.
  unfold in_int, INT_MIN, INT_MAX. lia.
Qed.

(** One table uploaded. *)
Lemma createGLTextureBuffer_uploads drv v type w :
  uploadable v ->
  exists w',
    createGLTextureBuffer drv 4 v type w = (Ok (second_generated w), w') /\
    textures (gl_obj w')
    = <[second_generated w :=
          {| tex_format := type; tex_buffer := next_generated w |}]>
        (textures (gl_obj w)) /\
    buffers (gl_obj w')
    = <[next_generated w := {| buf_size := table_bytes v; buf_data := v |}]>
        (buffers (gl_obj w)) /\
    next_name (gl_obj w') = Pos.succ (Pos.succ (next_name (gl_obj w))) /\
    (exists cs, gl_trace w' = gl_trace w ++ cs /\
                uploads cs = [(table_bytes v, v)] /\
                textures_generated cs = 1%nat).
Proof.
  intros [Hne Hb]. destruct v as [| x v]; [contradiction |].
  eexists. split; [apply createGLTextureBuffer_exec |].
  rewrite (table_bytes_exact _ Hb).
  destruct (createGLTextureBuffer_objects drv (table_bytes (x :: v)) (x :: v)
              type w) as (T & B & N).
  split; [exact T |]. split; [exact B |]. split; [exact N |].
  eexists. split; [apply exec_trace |].
  apply uploads_createGLTextureBuffer_calls.
Qed.

(** C5, amended. For every stencil table with [GetNumStencils() > 0] whose
    four vectors are non-empty and smaller than 2 GiB, the constructor
    generates exactly four textures and uploads exactly four data stores,
    the full contents of the sizes, offsets, control indices and weights
    vectors in this order; on return the handles are four distinct buffer
    textures: [_sizes] of format [GL_R32UI], [_offsets] and [_indices] of
    format [GL_R32I] and [_weights] of format [GL_R32F], each over the data
    store holding its whole vector. *)
Theorem GLStencilTableTBO_uploads_four_tables drv stencilTable w :
  0 < GetNumStencils stencilTable ->
  uploadable (GetSizes stencilTable) ->
  uploadable (GetOffsets stencilTable) ->
  uploadable (GetControlIndices stencilTable) ->
  uploadable (GetWeights stencilTable) ->
  let whole (v : list Z) := {| buf_size := table_bytes v; buf_data := v |} in
  exists tbo w',
    GLStencilTableTBO_new drv stencilTable w = (Ok tbo, w') /\
    textures_generated (issued (GLStencilTableTBO_new drv stencilTable) w)
    = 4%nat /\
    uploads (issued (GLStencilTableTBO_new drv stencilTable) w)
    = [ (table_bytes (GetSizes stencilTable), GetSizes stencilTable);
        (table_bytes (GetOffsets stencilTable), GetOffsets stencilTable);
        (table_bytes (GetControlIndices stencilTable),
         GetControlIndices stencilTable);
        (table_bytes (GetWeights stencilTable), GetWeights stencilTable) ] /\
    texture_contents (gl_obj w') (_sizes tbo)
    = Some (GL_R32UI, whole (GetSizes stencilTable)) /\
    texture_contents (gl_obj w') (_offsets tbo)
    = Some (GL_R32I, whole (GetOffsets stencilTable)) /\
    texture_contents (gl_obj w') (_indices tbo)
    = Some (GL_R32I, whole (GetControlIndices stencilTable)) /\
    texture_contents (gl_obj w') (_weights tbo)
    = Some (GL_R32F, whole (GetWeights stencilTable)) /\
    NoDup [0; _sizes tbo; _offsets tbo; _indices tbo; _weights tbo].
Proof.
  intros Hn Hs Ho Hi Hw whole.
  destruct (createGLTextureBuffer_uploads drv _ GL_R32UI w Hs)
    as (w1 & E1 & T1 & B1 & N1 & cs1 & G1 & U1 & C1).
  destruct (createGLTextureBuffer_uploads drv _ GL_R32I w1 Ho)
    as (w2 & E2 & T2 & B2 & N2 & cs2 & G2 & U2 & C2).
  destruct (createGLTextureBuffer_uploads drv _ GL_R32I w2 Hi)
    as (w3 & E3 & T3 & B3 & N3 & cs3 & G3 & U3 & C3).
  destruct (createGLTextureBuffer_uploads drv _ GL_R32F w3 Hw)
    as (w4 & E4 & T4 & B4 & N4 & cs4 & G4 & U4 & C4).
  assert (E : GLStencilTableTBO_new drv stencilTable w
              = (Ok {| _sizes := second_generated w;
                       _offsets := second_generated w1;
                       _indices := second_generated w2;
                       _weights := second_generated w3;
                       _numStencils := GetNumStencils stencilTable |}, w4)).
  { unfold GLStencilTableTBO_new, sizeof_int, sizeof_float.
    apply Z.ltb_lt in Hn. rewrite Hn.
    run E1. run E2. run E3. run E4. apply ret_run. }
  assert (T : gl_trace w4 = gl_trace w ++ cs1 ++ cs2 ++ cs3 ++ cs4).
  { rewrite G4, G3, G2, G1. now rewrite <- !app_assoc. }
  pose proof (issued_of_run _ _ _ _ _ E T) as I.
  eexists _, w4. split; [exact E |]. rewrite I.
  cbn [_sizes _offsets _indices _weights].
  unfold next_generated, second_generated in *.
  set (n := next_name (gl_obj w)) in *.
  set (n1 := next_name (gl_obj w1)) in *.
  set (n2 := next_name (gl_obj w2)) in *.
  set (n3 := next_name (gl_obj w3)) in *.
  split; [| split; [| split; [| split; [| split; [| split]]]]].
  - unfold textures_generated in *.
    rewrite !List.filter_app, !List.length_app, C1, C2, C3, C4. reflexivity.
  - unfold uploads in *. rewrite !omap_app, U1, U2, U3, U4. reflexivity.
  - unfold texture_contents. rewrite T4, T3, T2, T1, B4, B3, B2, B1.
    rewrite !lookup_insert_ne by lia. rewrite lookup_insert_eq. cbn.
    rewrite !lookup_insert_ne by lia. now rewrite lookup_insert_eq.
  - unfold texture_contents. rewrite T4, T3, T2, T1, B4, B3, B2, B1.
    rewrite !lookup_insert_ne by lia. rewrite lookup_insert_eq. cbn.
    rewrite !lookup_insert_ne by lia. now rewrite lookup_insert_eq.
  - unfold texture_contents. rewrite T4, T3, T2, T1, B4, B3, B2, B1.
    rewrite !lookup_insert_ne by lia. rewrite lookup_insert_eq. cbn.
    rewrite !lookup_insert_ne by lia. now rewrite lookup_insert_eq.
  - unfold texture_contents. rewrite T4, T3, T2, T1, B4, B3, B2, B1.
    rewrite lookup_insert_eq. cbn. now rewrite lookup_insert_eq.
  - repeat (apply NoDup_cons; split; [rewrite ?elem_of_cons, elem_of_nil; lia |]).
    apply NoDup_nil_2.
Qed.

Lemma GLStencilTableTBO_uploads_four_tables_witness :
  let table := Build_StencilTable 2 [1; 2] [0; 1] [5; 6; 7] [10; 11; 12] in
  exists tbo w',
    GLStencilTableTBO_new (Sample.good_driver false) table Sample.busy_context
    = (Ok tbo, w') /\
    texture_contents (gl_obj w') (_indices tbo)
    = Some (GL_R32I, {| buf_size := 12; buf_data := [5; 6; 7] |}).
Proof.
  intros table.
  destruct (GLStencilTableTBO_uploads_four_tables (Sample.good_driver false)
              table Sample.busy_context)
    as (tbo & w' & E & _ & _ & _ & _ & C & _).
  - reflexivity.
  - split; [discriminate | vm_compute; discriminate].
  - split; [discriminate | vm_compute; discriminate].
  - split; [discriminate | vm_compute; discriminate].
  - split; [discriminate | vm_compute; discriminate].
  - exists tbo, w'. split; [exact E | exact C].
Defined.

(** C5 as stated fails: a table of one stencil that has no control vertex
    (size 0, so no index and no weight) has [GetNumStencils() > 0], but the
    constructor stops with [std::out_of_range] at the empty indices vector,
    after two uploads. *)
Lemma GLStencilTableTBO_empty_vector_throws :
  let table := Build_StencilTable 1 [0] [0] [] [] in
  let run := GLStencilTableTBO_new (Sample.good_driver true) table in
  0 < GetNumStencils table /\
  result run Sample.new_context = Raised std_out_of_range /\
  uploads (issued run Sample.new_context) = [(4, [0]); (4, [0])] /\
  textures_generated (issued run Sample.new_context) = 2%nat.
Proof.
  intros table run. split; [reflexivity |].
  split; [| split]; vm_compute; reflexivity.
Qed.

(** * Further properties *)

(** ** The stencil table textures, for any table *)

Lemma textures_deleted_createGLTextureBuffer_calls direct size src type b t pb pt :
  textures_deleted (createGLTextureBuffer_calls direct size src type b t pb pt)
  = [].
Proof. now destruct direct. Qed.

Lemma textures_deleted_app cs1 cs2 :
  textures_deleted (cs1 ++ cs2) = textures_deleted cs1 ++ textures_deleted cs2.
Proof. apply omap_app. Qed.

Lemma uploads_app cs1 cs2 : uploads (cs1 ++ cs2) = uploads cs1 ++ uploads cs2.
Proof. apply omap_app. Qed.

Lemma textures_generated_app cs1 cs2 :
  textures_generated (cs1 ++ cs2)
  = (textures_generated cs1 + textures_generated cs2)%nat.
Proof.
  unfold textures_generated. now rewrite List.filter_app, List.length_app.
Qed.

(** The observations of one [createGLTextureBuffer] call, whatever the
    size of the vector. *)
Lemma createGLTextureBuffer_run drv v type w :
  v <> [] ->
  exists cs,
    createGLTextureBuffer drv 4 v type w
    = (Ok (second_generated w), exec drv cs w) /\
    uploads cs = [(upload_size v, v)] /\
    textures_generated cs = 1%nat /\
    textures_deleted cs = [].
Proof.
  destruct v as [| x v]; [congruence | intros _].
  eexists. split; [apply createGLTextureBuffer_exec |].
  split; [| split].
  - apply uploads_createGLTextureBuffer_calls.
  - apply uploads_createGLTextureBuffer_calls.
  - apply textures_deleted_createGLTextureBuffer_calls.
Qed.

Lemma raise_bind {A B} (m : GLM A) (k : A -> GLM B) f w w' :
  m w = (Raised f, w') -> bind m k w = (Raised f, w').
Proof. unfold bind. now intros ->. Qed.

Lemma issued_exec_trace drv cs w :
  drop (List.length (gl_trace w)) (gl_trace (exec drv cs w)) = cs.
Proof. rewrite exec_trace. apply drop_app_length. Qed.

(** X1. The constructor of [GLStencilTableTBO] on any table.  With
    [GetNumStencils() <= 0] it leaves the context alone and zeroes the four
    handles.  With [GetNumStencils() > 0] it throws [std::out_of_range]
    exactly when one of the four vectors is empty; the vectors in front of
    the first empty one have been uploaded by then (one texture generated
    for each, with the byte size cast to [int]), and the constructor never
    deletes a texture, so after a throw those textures stay behind. *)
Theorem GLStencilTableTBO_new_outcome drv stencilTable w :
  let run := GLStencilTableTBO_new drv stencilTable in
  let vectors := [ GetSizes stencilTable; GetOffsets stencilTable;
                   GetControlIndices stencilTable; GetWeights stencilTable ] in
  (GetNumStencils stencilTable <= 0 ->
   run w = (Ok {| _sizes := 0; _offsets := 0; _indices := 0; _weights := 0;
                  _numStencils := GetNumStencils stencilTable |}, w)) /\
  (0 < GetNumStencils stencilTable ->
   ([] ∈ vectors -> result run w = Raised std_out_of_range) /\
   ([] ∉ vectors ->
    exists tbo, result run w = Ok tbo /\
                _numStencils tbo = GetNumStencils stencilTable) /\
   uploads (issued run w)
   = (fun v => (upload_size v, v)) <$> uploaded_before_throw vectors /\
   textures_generated (issued run w)
   = List.length (uploaded_before_throw vectors) /\
   textures_deleted (issued run w) = []).
Proof.
  intros run vectors. split.
  - intros Hn. unfold run, GLStencilTableTBO_new.
    apply Z.ltb_ge in Hn. now rewrite Hn.
  - intros Hn. apply Z.ltb_lt in Hn.
    unfold run, vectors, result, issued, GLStencilTableTBO_new, sizeof_int,
      sizeof_float.
    rewrite Hn. clear run vectors.
    destruct stencilTable as [n v1 v2 v3 v4].
    cbn [GetSizes GetOffsets GetControlIndices GetWeights GetNumStencils].
    destruct (decide (v1 = [])) as [-> | H1].
    { rewrite (raise_bind _ _ _ _ _ (createGLTextureBuffer_empty drv 4 GL_R32UI w)).
      cbn. rewrite drop_all. repeat split; try reflexivity.
      intros H. exfalso. apply H. apply list_elem_of_In. cbn. tauto. }
    destruct (createGLTextureBuffer_run drv v1 GL_R32UI w H1)
      as (cs1 & E1 & U1 & G1 & D1).
    run E1.
    destruct (decide (v2 = [])) as [-> | H2].
    { rewrite (raise_bind _ _ _ _ _ (createGLTextureBuffer_empty drv 4 GL_R32I _)).
      cbn [fst snd]. rewrite issued_exec_trace.
      destruct v1; [congruence |].
      cbn [uploaded_before_throw fmap list_fmap List.length fst].
      repeat split; try assumption.
      intros H. exfalso. apply H. apply list_elem_of_In. cbn. tauto. }
    destruct (createGLTextureBuffer_run drv v2 GL_R32I (exec drv cs1 w) H2)
      as (cs2 & E2 & U2 & G2 & D2).
    run E2. rewrite <- exec_app.
    destruct (decide (v3 = [])) as [-> | H3].
    { rewrite (raise_bind _ _ _ _ _ (createGLTextureBuffer_empty drv 4 GL_R32I _)).
      cbn [fst snd]. rewrite issued_exec_trace.
      destruct v1; [congruence |]. destruct v2; [congruence |].
      cbn [uploaded_before_throw fmap list_fmap List.length fst].
      rewrite uploads_app, textures_generated_app, textures_deleted_app,
        U1, U2, G1, G2, D1, D2.
      repeat split; try reflexivity.
      intros H. exfalso. apply H. apply list_elem_of_In. cbn. tauto. }
    destruct (createGLTextureBuffer_run drv v3 GL_R32I (exec drv (cs1 ++ cs2) w) H3)
      as (cs3 & E3 & U3 & G3 & D3).
    run E3. rewrite <- exec_app.
    destruct (decide (v4 = [])) as [-> | H4].
    { rewrite (raise_bind _ _ _ _ _ (createGLTextureBuffer_empty drv 4 GL_R32F _)).
      cbn [fst snd]. rewrite issued_exec_trace.
      destruct v1; [congruence |]. destruct v2; [congruence |].
      destruct v3; [congruence |].
      cbn [uploaded_before_throw fmap list_fmap List.length fst].
      rewrite !uploads_app, !textures_generated_app, !textures_deleted_app,
        U1, U2, U3, G1, G2, G3, D1, D2, D3.
      repeat split; try reflexivity.
      intros H. exfalso. apply H. apply list_elem_of_In. cbn. tauto. }
    destruct (createGLTextureBuffer_run drv v4 GL_R32F
                (exec drv ((cs1 ++ cs2) ++ cs3) w) H4)
      as (cs4 & E4 & U4 & G4 & D4).
    run E4. rewrite <- exec_app. rewrite ret_run.
    cbn [fst snd]. rewrite issued_exec_trace.
    destruct v1; [congruence |]. destruct v2; [congruence |].
    destruct v3; [congruence |]. destruct v4; [congruence |].
    cbn [uploaded_before_throw fmap list_fmap List.length fst].
    rewrite !uploads_app, !textures_generated_app, !textures_deleted_app,
      U1, U2, U3, U4, G1, G2, G3, G4, D1, D2, D3, D4.
    repeat split; try reflexivity.
    + intros H. apply list_elem_of_In in H. cbn in H. intuition discriminate.
    + intros _. eexists. split; reflexivity.
Qed.

Lemma GLStencilTableTBO_new_outcome_witness :
  let table := Build_StencilTable 1 [0] [0] [] [] in
  result (GLStencilTableTBO_new (Sample.good_driver true) table)
    Sample.busy_context = Raised std_out_of_range /\
  textures_generated
    (issued (GLStencilTableTBO_new (Sample.good_driver true) table)
       Sample.busy_context) = 2%nat.
Proof.
  intros table.
  destruct (GLStencilTableTBO_new_outcome (Sample.good_driver true) table
              Sample.busy_context) as [_ H].
  destruct H as (R & _ & _ & G & _).
  - reflexivity.
  - split; [apply R | exact G].
    apply list_elem_of_In. cbn. tauto.
Defined.

(** ** createGLTextureBuffer: bindings *)

(** X2. [createGLTextureBuffer] puts back what it binds: on a non-empty
    vector, in a context where the buffer name it is about to generate is
    not bound, every binding point (array buffer, transform-feedback
    buffer, active unit, the buffer texture of every unit, program, vertex
    array, rasterizer discard) is the same after the call as before, on
    the direct-state-access path and on the bind-to-edit path alike. *)
Theorem createGLTextureBuffer_keeps_bindings drv sizeof_T src type w :
  src <> [] ->
  array_buffer (gl_bind w) <> next_generated w ->
  xfb_buffer (gl_bind w) <> next_generated w ->
  let b := gl_bind w in
  let b' := gl_bind (createGLTextureBuffer drv sizeof_T src type w).2 in
  array_buffer b' = array_buffer b /\
  xfb_buffer b' = xfb_buffer b /\
  active_texture b' = active_texture b /\
  current_program b' = current_program b /\
  vertex_array b' = vertex_array b /\
  rasterizer_discard b' = rasterizer_discard b /\
  (forall u, bound_texture b' u = bound_texture b u).
Proof.
  intros Hs Ha Hx. destruct src as [| x src]; [congruence |].
  rewrite createGLTextureBuffer_exec. cbn [snd].
  rewrite exec_gl_bind. unfold createGLTextureBuffer_calls.
  destruct (drv_direct_state_access drv); cbn.
  - unfold unbind. rewrite !decide_False by assumption. repeat split.
  - unfold unbind. rewrite !decide_False by assumption.
    repeat split. intros u. unfold bound_texture. cbn.
    rewrite lookup_insert. case_decide as E; [| rewrite lookup_insert_ne by congruence; reflexivity].
    now subst u.
Qed.

Lemma createGLTextureBuffer_keeps_bindings_witness :
  array_buffer
    (gl_bind (createGLTextureBuffer (Sample.good_driver false) 4 [5; 6; 7]
                GL_R32I Sample.busy_context).2) = 11 /\
  bound_texture
    (gl_bind (createGLTextureBuffer (Sample.good_driver false) 4 [5; 6; 7]
                GL_R32I Sample.busy_context).2) 7 = 21.
Proof.
  destruct (createGLTextureBuffer_keeps_bindings (Sample.good_driver false) 4
              [5; 6; 7] GL_R32I Sample.busy_context)
    as (A & _ & _ & _ & _ & _ & T).
  - discriminate.
  - vm_compute. discriminate.
  - vm_compute. discriminate.
  - split; [exact A | exact (T 7)].
Defined.

(** X3. The two paths of [createGLTextureBuffer] are interchangeable:
    whatever the driver says about the direct state access entry points,
    the call gives the same result (the same texture name, or the same
    exception), the same object tables, the same upload and the same
    binding points. *)
Theorem createGLTextureBuffer_path_independent drv1 drv2 sizeof_T src type w :
  let run1 := createGLTextureBuffer drv1 sizeof_T src type in
  let run2 := createGLTextureBuffer drv2 sizeof_T src type in
  result run1 w = result run2 w /\
  gl_obj (run1 w).2 = gl_obj (run2 w).2 /\
  uploads (issued run1 w) = uploads (issued run2 w) /\
  (let b1 := gl_bind (run1 w).2 in
   let b2 := gl_bind (run2 w).2 in
   array_buffer b1 = array_buffer b2 /\
   xfb_buffer b1 = xfb_buffer b2 /\
   active_texture b1 = active_texture b2 /\
   current_program b1 = current_program b2 /\
   vertex_array b1 = vertex_array b2 /\
   rasterizer_discard b1 = rasterizer_discard b2 /\
   forall u, bound_texture b1 u = bound_texture b2 u).
Proof.
  intros run1 run2. unfold run1, run2, result. clear run1 run2.
  destruct src as [| x src]; [repeat split |].
  rewrite !(issued_exec _ _ _ _ _ (createGLTextureBuffer_exec _ _ _ _ _ _)).
  rewrite !createGLTextureBuffer_exec. cbn [fst snd].
  split; [reflexivity |].
  rewrite !exec_gl_bind.
  unfold createGLTextureBuffer_calls.
  destruct (drv_direct_state_access drv1), (drv_direct_state_access drv2);
    cbn; unfold bound_texture; cbn; rewrite ?lookup_insert_eq; cbn;
    repeat split;
    intros u; rewrite lookup_insert; case_decide as E;
      try (rewrite lookup_insert_ne by congruence; reflexivity);
      now subst u.
Qed.

(** ** The stencil table textures: construction, then destruction *)

Lemma createGLTextureBuffer_textures drv sizeof_T src type w :
  src <> [] ->
  exists w',
    createGLTextureBuffer drv sizeof_T src type w = (Ok (second_generated w), w') /\
    textures (gl_obj w')
    = <[second_generated w :=
          {| tex_format := type; tex_buffer := next_generated w |}]>
        (textures (gl_obj w)) /\
    next_name (gl_obj w') = Pos.succ (Pos.succ (next_name (gl_obj w))).
Proof.
  destruct src as [| x src]; [congruence | intros _].
  eexists. split; [apply createGLTextureBuffer_exec |].
  destruct (createGLTextureBuffer_objects drv
              (to_int (to_size_t (Z.of_nat (List.length (x :: src)) * sizeof_T)))
              (x :: src) type w) as (T & _ & N).
  split; assumption.
Qed.

Lemma DeleteTextures_run drv t w :
  when (negb (t =? 0)) (call drv (DeleteTextures t)) w
  = (Ok tt, if t =? 0 then w else exec drv [DeleteTextures t] w).
Proof. unfold when. now destruct (t =? 0). Qed.

(** X4. Construction followed by destruction leaves no texture behind:
    when the constructor of [GLStencilTableTBO] returns, the destructor
    run on the object it built brings the texture table back to what it
    was before the constructor (given that the names still to be handed
    out are not textures yet).  For a table with stencils the destructor
    deletes the four handles in the order sizes, offsets, weights,
    indices; for an empty table it issues nothing. *)
Theorem GLStencilTableTBO_new_delete_round_trip drv stencilTable w tbo w' :
  (forall n, next_generated w <= n -> textures (gl_obj w) !! n = None) ->
  GLStencilTableTBO_new drv stencilTable w = (Ok tbo, w') ->
  textures (gl_obj (GLStencilTableTBO_delete drv tbo w').2)
  = textures (gl_obj w) /\
  issued (GLStencilTableTBO_delete drv tbo) w'
  = if 0 <? GetNumStencils stencilTable
    then DeleteTextures <$> [_sizes tbo; _offsets tbo; _weights tbo; _indices tbo]
    else [].
Proof.
  intros Hf. unfold GLStencilTableTBO_new.
  destruct (0 <? GetNumStencils stencilTable).
  2:{ intros [= <- <-]. split; [reflexivity |].
      now apply (issued_nothing _ _ (Ok tt)). }
  unfold sizeof_int, sizeof_float.
  destruct (decide (GetSizes stencilTable = [])) as [-> | H1];
    [rewrite (raise_bind _ _ _ _ _ (createGLTextureBuffer_empty drv 4 _ _));
     discriminate |].
  destruct (createGLTextureBuffer_textures drv 4 _ GL_R32UI w H1)
    as (w1 & E1 & T1 & N1).
  run E1.
  destruct (decide (GetOffsets stencilTable = [])) as [-> | H2];
    [rewrite (raise_bind _ _ _ _ _ (createGLTextureBuffer_empty drv 4 _ _));
     discriminate |].
  destruct (createGLTextureBuffer_textures drv 4 _ GL_R32I w1 H2)
    as (w2 & E2 & T2 & N2).
  run E2.
  destruct (decide (GetControlIndices stencilTable = [])) as [-> | H3];
    [rewrite (raise_bind _ _ _ _ _ (createGLTextureBuffer_empty drv 4 _ _));
     discriminate |].
  destruct (createGLTextureBuffer_textures drv 4 _ GL_R32I w2 H3)
    as (w3 & E3 & T3 & N3).
  run E3.
  destruct (decide (GetWeights stencilTable = [])) as [-> | H4];
    [rewrite (raise_bind _ _ _ _ _ (createGLTextureBuffer_empty drv 4 _ _));
     discriminate |].
  destruct (createGLTextureBuffer_textures drv 4 _ GL_R32F w3 H4)
    as (w4 & E4 & T4 & N4).
  run E4. rewrite ret_run. intros [= <- <-].
  assert (D : forall {B} (k : unit -> GLM B) t w0, 0 < t ->
            bind (when (negb (t =? 0)) (call drv (DeleteTextures t))) k w0
            = k tt (exec drv [DeleteTextures t] w0)).
  { intros B k t w0 Ht. unfold bind. rewrite DeleteTextures_run.
    destruct (Z.eqb_spec t 0); [lia | reflexivity]. }
  assert (D' : forall t w0, 0 < t ->
            when (negb (t =? 0)) (call drv (DeleteTextures t)) w0
            = (Ok tt, exec drv [DeleteTextures t] w0)).
  { intros t w0 Ht. rewrite DeleteTextures_run.
    destruct (Z.eqb_spec t 0); [lia | reflexivity]. }
  unfold second_generated in *.
  match goal with
  | |- context [GLStencilTableTBO_delete drv ?t w4] =>
      assert (R : GLStencilTableTBO_delete drv t w4
                  = (Ok tt,
                     exec drv (DeleteTextures <$>
                                 [_sizes t; _offsets t; _weights t; _indices t])
                          w4))
  end.
  { unfold GLStencilTableTBO_delete.
    cbn [_sizes _offsets _indices _weights].
    rewrite 3!D by lia. rewrite D' by lia. now rewrite <- !exec_app. }
  split; [| exact (issued_exec _ _ _ _ _ R)].
  rewrite R. cbn. rewrite T4, T3, T2, T1.
  unfold next_generated in *.
  set (n := next_name (gl_obj w)) in *.
  set (n1 := next_name (gl_obj w1)) in *.
  set (n2 := next_name (gl_obj w2)) in *.
  set (n3 := next_name (gl_obj w3)) in *.
  apply map_eq. intros i.
  rewrite !lookup_delete. repeat case_decide; subst.
  - symmetry. apply Hf. lia.
  - symmetry. apply Hf. lia.
  - symmetry. apply Hf. lia.
  - symmetry. apply Hf. lia.
  - now rewrite !lookup_insert_ne by congruence.
Qed.

Lemma GLStencilTableTBO_new_delete_round_trip_witness :
  let table := Build_StencilTable 2 [1; 2] [0; 1] [5; 6; 7] [10; 11; 12] in
  let drv := Sample.good_driver false in
  let tbo := Build_GLStencilTableTBO 2 4 6 8 2 in
  let w' := (GLStencilTableTBO_new drv table Sample.new_context).2 in
  textures (gl_obj (GLStencilTableTBO_delete drv tbo w').2) = ∅ /\
  issued (GLStencilTableTBO_delete drv tbo) w'
  = [DeleteTextures 2; DeleteTextures 4; DeleteTextures 8; DeleteTextures 6].
Proof.
  intros table drv tbo w'.
  apply (GLStencilTableTBO_new_delete_round_trip drv table Sample.new_context
           tbo w').
  - intros n _. apply lookup_empty.
  - vm_compute. reflexivity.
Defined.

(** ** Compile: what it leaves in the evaluator *)

Section CompileRuns.

Variable drv : Driver.
Variable shaderSource : string.

(** [Compile] up to the second call of [compileKernel], when the stencil
    kernel links. *)
Ltac Compile_stencil_half this srcDesc dstDesc r w Hr Hl :=
  let K := fresh "K" in
  let N1 := fresh "N" in
  let N2 := fresh "N" in
  destruct (next_generated_delete_program drv
              (sk_program (_stencilKernel this)) w) as [N1 N2];
  pose proof (compileKernel_linked drv shaderSource srcDesc dstDesc
                stencil_define r
                (exec drv (delete_program_calls
                             (sk_program (_stencilKernel this))) w) Hr Hl) as K;
  rewrite N1, N2, <- exec_app in K;
  unfold Compile;
  run (delete_program_run drv _ w);
  run K;
  change (next_generated w =? 0) with false; cbv iota;
  do 8 (run (glGetUniformLocation_run drv _ _ _); rewrite <- exec_app);
  run (delete_program_run drv _ _); rewrite <- exec_app;
  rewrite Compile_stencil_calls_eq;
  cbn [_srcBufferTexture _patchKernel _stencilKernel];
  clear K N1 N2.

Lemma fifth_generated_after_kernels this srcDesc dstDesc r w tail :
  generated tail = 0%nat ->
  Z.pos (next_name (gl_obj
    (exec drv
       ((Compile_stencil_calls shaderSource this srcDesc dstDesc r
           (next_generated w) (second_generated w) ++
         delete_program_calls (pk_program (_patchKernel this))) ++
        (compileKernel_prelude shaderSource srcDesc patch_define
           (third_generated w) (fourth_generated w) ++
         compileKernel_link dstDesc r (third_generated w) ++
         [DeleteShader (fourth_generated w)]) ++ tail) w)))
  = fifth_generated w.
Proof.
  intros Ht. unfold fifth_generated.
  rewrite next_name_exec. unfold Compile_stencil_calls.
  rewrite !generated_app, !generated_delete_program, Ht. reflexivity.
Qed.

(** Both kernels link. *)
Lemma Compile_linked_run this srcDesc dstDesc r w :
  int_rem (offset dstDesc) (stride dstDesc) = Some r ->
  kernel_links drv shaderSource srcDesc dstDesc stencil_define r = true ->
  kernel_links drv shaderSource srcDesc dstDesc patch_define r = true ->
  Compile drv shaderSource this srcDesc dstDesc w
  = (Ok (true, compiled_evaluator drv this w),
     exec drv (Compile_calls shaderSource this srcDesc dstDesc r w) w).
Proof.
  intros Hr Hl1 Hl2.
  Compile_stencil_half this srcDesc dstDesc r w Hr Hl1.
  destruct (names_after_stencil drv shaderSource this srcDesc dstDesc r w)
    as [N3 N4].
  cbv zeta in N3, N4.
  match goal with
  | |- _ ?st = _ =>
      pose proof (compileKernel_linked drv shaderSource srcDesc dstDesc
                    patch_define r st Hr Hl2) as K
  end.
  rewrite N3, N4 in K. run K.
  change (third_generated w =? 0) with false. cbv iota.
  do 5 (run (glGetUniformLocation_run drv _ _ _)).
  rewrite <- !exec_app.
  unfold compiled_evaluator, Compile_calls.
  destruct (Z.eqb_spec (_srcBufferTexture this) 0) as [Hs | Hs].
  - run (eq_refl : glGenTextures drv _ = (Ok _, exec drv [GenTextures 1] _)).
    rewrite ret_run, <- exec_app.
    rewrite (fifth_generated_after_kernels this srcDesc dstDesc r w) by reflexivity.
    unfold Compile_patch_calls, Compile_final_calls, patch_uniform_queries.
    apply Z.eqb_eq in Hs. rewrite Hs. cbn [fmap list_fmap].
    rewrite <- !app_assoc. reflexivity.
  - run (ret_run _ _). rewrite ret_run.
    unfold Compile_patch_calls, Compile_final_calls, patch_uniform_queries.
    apply Z.eqb_neq in Hs. rewrite Hs. cbn [fmap list_fmap].
    rewrite <- !app_assoc. reflexivity.
Qed.

(** The stencil kernel does not link: its program member is zeroed, the
    rest of the evaluator is as it was. *)
Lemma Compile_stencil_failed_run this srcDesc dstDesc r w :
  int_rem (offset dstDesc) (stride dstDesc) = Some r ->
  kernel_links drv shaderSource srcDesc dstDesc stencil_define r = false ->
  Compile drv shaderSource this srcDesc dstDesc w
  = (Ok (false,
         {| _srcBufferTexture := _srcBufferTexture this;
            _stencilKernel := with_program 0 (_stencilKernel this);
            _patchKernel := _patchKernel this |}),
     log_error FAR_RUNTIME_ERROR
       (truncate 1024
          (kernel_program_log drv shaderSource srcDesc dstDesc stencil_define r))
       (log_error FAR_RUNTIME_ERROR
          (truncate 1024
             (kernel_shader_log drv shaderSource srcDesc stencil_define))
          (exec drv
             (delete_program_calls (sk_program (_stencilKernel this)) ++
              compileKernel_prelude shaderSource srcDesc stencil_define
                (next_generated w) (second_generated w) ++
              compileKernel_link dstDesc r (next_generated w) ++
              link_failure_calls (next_generated w) (second_generated w)) w))).
Proof.
  intros Hr Hl.
  destruct (next_generated_delete_program drv
              (sk_program (_stencilKernel this)) w) as [N1 N2].
  pose proof (compileKernel_failed drv shaderSource srcDesc dstDesc
                stencil_define r
                (exec drv (delete_program_calls
                             (sk_program (_stencilKernel this))) w) Hr Hl) as K.
  rewrite N1, N2, <- exec_app in K.
  unfold Compile.
  run (delete_program_run drv _ w).
  run K. cbn [Z.eqb]. apply ret_run.
Qed.

(** The stencil kernel links, the patch kernel does not: the stencil
    kernel is in place, the program member of the patch kernel is zeroed. *)
Lemma Compile_patch_failed_run this srcDesc dstDesc r w :
  int_rem (offset dstDesc) (stride dstDesc) = Some r ->
  kernel_links drv shaderSource srcDesc dstDesc stencil_define r = true ->
  kernel_links drv shaderSource srcDesc dstDesc patch_define r = false ->
  Compile drv shaderSource this srcDesc dstDesc w
  = (Ok (false,
         {| _srcBufferTexture := _srcBufferTexture this;
            _stencilKernel := stencil_kernel_of drv (next_generated w);
            _patchKernel := with_patch_program 0 (_patchKernel this) |}),
     log_error FAR_RUNTIME_ERROR
       (truncate 1024
          (kernel_program_log drv shaderSource srcDesc dstDesc patch_define r))
       (log_error FAR_RUNTIME_ERROR
          (truncate 1024
             (kernel_shader_log drv shaderSource srcDesc patch_define))
          (exec drv
             (Compile_stencil_calls shaderSource this srcDesc dstDesc r
                (next_generated w) (second_generated w) ++
              Compile_patch_calls shaderSource this srcDesc dstDesc r
                (third_generated w) (fourth_generated w) ++
              link_failure_calls (third_generated w) (fourth_generated w)) w))).
Proof.
  intros Hr Hl1 Hl2.
  Compile_stencil_half this srcDesc dstDesc r w Hr Hl1.
  destruct (names_after_stencil drv shaderSource this srcDesc dstDesc r w)
    as [N3 N4].
  cbv zeta in N3, N4.
  match goal with
  | |- _ ?st = _ =>
      pose proof (compileKernel_failed drv shaderSource srcDesc dstDesc
                    patch_define r st Hr Hl2) as K
  end.
  rewrite N3, N4, <- exec_app in K. run K. cbn [Z.eqb]. rewrite ret_run.
  unfold Compile_patch_calls. rewrite <- !app_assoc. reflexivity.
Qed.

(** The remainder [dstDesc.offset % dstDesc.stride] has no value: the
    method stops in the first [compileKernel]. *)
Lemma Compile_trap_run this srcDesc dstDesc w :
  int_rem (offset dstDesc) (stride dstDesc) = None ->
  Compile drv shaderSource this srcDesc dstDesc w
  = (Raised integer_division,
     exec drv
       (delete_program_calls (sk_program (_stencilKernel this)) ++
        compileKernel_prelude shaderSource srcDesc stencil_define
          (next_generated w) (second_generated w)) w).
Proof.
  intros Hr.
  destruct (next_generated_delete_program drv
              (sk_program (_stencilKernel this)) w) as [N1 N2].
  pose proof (compileKernel_trap drv shaderSource srcDesc dstDesc
                stencil_define
                (exec drv (delete_program_calls
                             (sk_program (_stencilKernel this))) w) Hr) as K.
  rewrite N1, N2, <- exec_app in K.
  unfold Compile.
  run (delete_program_run drv _ w).
  apply (raise_bind _ _ _ _ _ K).
Qed.

End CompileRuns.

(** X5. When both kernels link, [Compile] returns true and the
    evaluator holds the two programs just created (the first and the third
    name handed out: non-zero and distinct), and every uniform member holds
    the location the driver gives, in the member's own program, for the
    name the method asks for: [vertexBuffer], [srcOffset], [sizes],
    [offsets], [indices], [weights], [batchStart], [batchEnd] for the
    stencil kernel; [vertexBuffer], [srcOffset], [patchArray],
    [patchParamBuffer], [patchIndexBuffer] for the patch kernel. *)
Theorem Compile_caches_uniform_locations drv shaderSource this srcDesc dstDesc w :
  stride dstDesc <> 0 ->
  ~ (offset dstDesc = INT_MIN /\ stride dstDesc = -1) ->
  let r := Z.rem (offset dstDesc) (stride dstDesc) in
  kernel_links drv shaderSource srcDesc dstDesc stencil_define r = true ->
  kernel_links drv shaderSource srcDesc dstDesc patch_define r = true ->
  exists this',
    result (Compile drv shaderSource this srcDesc dstDesc) w = Ok (true, this') /\
    let sk := _stencilKernel this' in
    let pk := _patchKernel this' in
    let location := drv_uniform_location drv in
    (sk_program sk = next_generated w /\ pk_program pk = third_generated w) /\
    (sk_program sk <> 0 /\ pk_program pk <> 0 /\ sk_program sk <> pk_program pk) /\
    (sk_uniformSrcBufferTexture sk = location (sk_program sk) "vertexBuffer" /\
     sk_uniformSrcOffset sk = location (sk_program sk) "srcOffset" /\
     sk_uniformSizesTexture sk = location (sk_program sk) "sizes" /\
     sk_uniformOffsetsTexture sk = location (sk_program sk) "offsets" /\
     sk_uniformIndicesTexture sk = location (sk_program sk) "indices" /\
     sk_uniformWeightsTexture sk = location (sk_program sk) "weights" /\
     sk_uniformStart sk = location (sk_program sk) "batchStart" /\
     sk_uniformEnd sk = location (sk_program sk) "batchEnd") /\
    (pk_uniformSrcBufferTexture pk = location (pk_program pk) "vertexBuffer" /\
     pk_uniformSrcOffset pk = location (pk_program pk) "srcOffset" /\
     pk_uniformPatchArray pk = location (pk_program pk) "patchArray" /\
     pk_uniformPatchParamTexture pk
     = location (pk_program pk) "patchParamBuffer" /\
     pk_uniformPatchIndexTexture pk
     = location (pk_program pk) "patchIndexBuffer").
Proof.
  intros Hs Hm r Hl1 Hl2.
  pose proof (int_rem_defined _ _ Hs Hm) as Hr.
  exists (compiled_evaluator drv this w). split.
  - unfold result.
    now rewrite (Compile_linked_run drv shaderSource this srcDesc dstDesc r w
                   Hr Hl1 Hl2).
  - cbn. unfold next_generated, third_generated.
    repeat split; try reflexivity; try discriminate.
    intros [= E]. lia.
Qed.

Lemma Compile_caches_uniform_locations_witness :
  exists this',
    result (Compile (Sample.good_driver true) "KERNEL" GLXFBEvaluator_new
              (Sample.desc 0 3 3) (Sample.desc 4 3 7)) Sample.new_context
    = Ok (true, this') /\
    sk_uniformStart (_stencilKernel this') = 10 /\
    pk_uniformPatchParamTexture (_patchKernel this') = 16.
Proof.
  destruct (Compile_caches_uniform_locations (Sample.good_driver true) "KERNEL"
              GLXFBEvaluator_new (Sample.desc 0 3 3) (Sample.desc 4 3 7)
              Sample.new_context)
    as (this' & R & _ & _ & S & P).
  - discriminate.
  - intros [E _]. discriminate E.
  - reflexivity.
  - reflexivity.
  - exists this'. split; [exact R |]. split.
    + exact (proj1 (proj2 (proj2 (proj2 (proj2 (proj2 (proj2 S))))))).
    + exact (proj1 (proj2 (proj2 (proj2 P)))).
Defined.

(** ** A new evaluator *)

(** X6. An evaluator is inert until a kernel links.  Fresh from its
    constructor, in every context and for all arguments, [EvalStencils]
    and [EvalPatches] return false and its destructor returns, all three
    without issuing a command or changing the context; and a [Compile]
    whose stencil kernel fails to link hands the evaluator back exactly as
    constructed. *)
Theorem new_evaluator_is_inert drv shaderSource w :
  (forall srcBuffer srcDesc dstBuffer dstDesc sizesTexture offsetsTexture
          indicesTexture weightsTexture start end_,
      EvalStencils drv GLXFBEvaluator_new srcBuffer srcDesc dstBuffer dstDesc
        sizesTexture offsetsTexture indicesTexture weightsTexture start end_ w
      = (Ok false, w)) /\
  (forall srcBuffer srcDesc dstBuffer dstDesc duBuffer duDesc dvBuffer dvDesc
          numPatchCoords patchCoordsBuffer patchArrays patchIndexTexture
          patchParamTexture,
      EvalPatches drv GLXFBEvaluator_new srcBuffer srcDesc dstBuffer dstDesc
        duBuffer duDesc dvBuffer dvDesc numPatchCoords patchCoordsBuffer
        patchArrays patchIndexTexture patchParamTexture w
      = (Ok false, w)) /\
  GLXFBEvaluator_delete drv GLXFBEvaluator_new w = (Ok tt, w) /\
  (forall srcDesc dstDesc,
      stride dstDesc <> 0 ->
      ~ (offset dstDesc = INT_MIN /\ stride dstDesc = -1) ->
      kernel_links drv shaderSource srcDesc dstDesc stencil_define
        (Z.rem (offset dstDesc) (stride dstDesc)) = false ->
      result (Compile drv shaderSource GLXFBEvaluator_new srcDesc dstDesc) w
      = Ok (false, GLXFBEvaluator_new)).
Proof.
  split; [reflexivity |]. split; [reflexivity |]. split; [reflexivity |].
  intros srcDesc dstDesc Hs Hm Hl.
  pose proof (int_rem_defined _ _ Hs Hm) as Hr.
  unfold result.
  now rewrite (Compile_stencil_failed_run drv shaderSource GLXFBEvaluator_new
                 srcDesc dstDesc _ w Hr Hl).
Qed.

Lemma new_evaluator_is_inert_witness :
  result (Compile (Sample.bad_driver "" "") "KERNEL" GLXFBEvaluator_new
            (Sample.desc 0 3 3) (Sample.desc 4 3 7)) Sample.busy_context
  = Ok (false, GLXFBEvaluator_new).
Proof.
  destruct (new_evaluator_is_inert (Sample.bad_driver "" "") "KERNEL"
              Sample.busy_context) as (_ & _ & _ & C).
  apply (C (Sample.desc 0 3 3) (Sample.desc 4 3 7)).
  - discriminate.
  - intros [E _]. discriminate E.
  - reflexivity.
Defined.

(** ** Compile: the source texture *)

Lemma textures_generated_delete_program p :
  textures_generated (delete_program_calls p) = 0%nat.
Proof. unfold delete_program_calls. now destruct (p =? 0). Qed.

Lemma textures_generated_Compile_stencil_calls ss this srcDesc dstDesc r p s :
  textures_generated (Compile_stencil_calls ss this srcDesc dstDesc r p s)
  = 0%nat.
Proof.
  unfold Compile_stencil_calls.
  now rewrite textures_generated_app, textures_generated_delete_program.
Qed.

Lemma textures_generated_Compile_patch_calls ss this srcDesc dstDesc r p s :
  textures_generated (Compile_patch_calls ss this srcDesc dstDesc r p s)
  = 0%nat.
Proof.
  unfold Compile_patch_calls.
  now rewrite textures_generated_app, textures_generated_delete_program.
Qed.

(** X7. The source texture across [Compile].  A call that returns true
    leaves a non-zero [_srcBufferTexture]: the one the evaluator had, with
    no texture generated, or else one new texture, generated by the last
    command of the call.  A call that returns false, or does not return,
    generates no texture, and a false return leaves the member as it
    was. *)
Theorem Compile_source_texture drv shaderSource this srcDesc dstDesc w :
  let run := Compile drv shaderSource this srcDesc dstDesc in
  match result run w with
  | Ok (true, this') =>
      _srcBufferTexture this' <> 0 /\
      (_srcBufferTexture this <> 0 ->
       _srcBufferTexture this' = _srcBufferTexture this /\
       textures_generated (issued run w) = 0%nat) /\
      (_srcBufferTexture this = 0 ->
       _srcBufferTexture this' = fifth_generated w /\
       textures_generated (issued run w) = 1%nat /\
       last (issued run w) = Some (GenTextures 1))
  | Ok (false, this') =>
      _srcBufferTexture this' = _srcBufferTexture this /\
      textures_generated (issued run w) = 0%nat
  | Raised _ => textures_generated (issued run w) = 0%nat
  end.
Proof.
  intros run. unfold run, result.
  destruct (int_rem (offset dstDesc) (stride dstDesc)) as [r |] eqn:Hr.
  2:{ pose proof (Compile_trap_run drv shaderSource this srcDesc dstDesc w Hr)
        as E.
      rewrite (issued_exec _ _ _ _ _ E), E. cbn [fst].
      now rewrite textures_generated_app, textures_generated_delete_program. }
  destruct (kernel_links drv shaderSource srcDesc dstDesc stencil_define r)
    eqn:Hl1.
  2:{ pose proof (Compile_stencil_failed_run drv shaderSource this srcDesc
                    dstDesc r w Hr Hl1) as E.
      rewrite (issued_of_run _ _ _ _ _ E
                 ltac:(rewrite !gl_trace_log_error; apply exec_trace)), E.
      cbn [fst _srcBufferTexture]. split; [reflexivity |].
      now rewrite textures_generated_app, textures_generated_delete_program. }
  destruct (kernel_links drv shaderSource srcDesc dstDesc patch_define r)
    eqn:Hl2.
  2:{ pose proof (Compile_patch_failed_run drv shaderSource this srcDesc
                    dstDesc r w Hr Hl1 Hl2) as E.
      rewrite (issued_of_run _ _ _ _ _ E
                 ltac:(rewrite !gl_trace_log_error; apply exec_trace)), E.
      cbn [fst _srcBufferTexture]. split; [reflexivity |].
      now rewrite !textures_generated_app,
        textures_generated_Compile_stencil_calls,
        textures_generated_Compile_patch_calls. }
  pose proof (Compile_linked_run drv shaderSource this srcDesc dstDesc r w
                Hr Hl1 Hl2) as E.
  rewrite (issued_exec _ _ _ _ _ E), E.
  cbn [fst compiled_evaluator _srcBufferTexture]. unfold Compile_calls.
  rewrite !textures_generated_app, textures_generated_Compile_stencil_calls,
    textures_generated_Compile_patch_calls.
  unfold Compile_final_calls.
  destruct (Z.eqb_spec (_srcBufferTexture this) 0) as [Hz | Hz].
  - split; [discriminate |]. split; [intros H; contradiction |].
    intros _. split; [reflexivity |]. split; [reflexivity |].
    rewrite !app_assoc. apply last_snoc.
  - split; [exact Hz |]. split; [| intros H; contradiction].
    intros _. split; reflexivity.
Qed.

(** ** Compile: failures *)

Lemma head_delete_program_calls p cs :
  p <> 0 -> head (delete_program_calls p ++ cs) = Some (DeleteProgram p).
Proof.
  intros Hp. unfold delete_program_calls.
  apply Z.eqb_neq in Hp. now rewrite Hp.
Qed.

(** X8. A failed link of the stencil kernel.  [Compile] returns false
    with the stencil program member zeroed and the patch kernel and the
    source texture as they were: the only programs it deletes are the
    stencil program the evaluator held (by its first command) and the
    program that failed.  Afterwards [EvalStencils] returns false without
    touching the context, and [EvalPatches] behaves as it did before the
    call. *)
Theorem Compile_stencil_failure drv shaderSource this srcDesc dstDesc w :
  stride dstDesc <> 0 ->
  ~ (offset dstDesc = INT_MIN /\ stride dstDesc = -1) ->
  kernel_links drv shaderSource srcDesc dstDesc stencil_define
    (Z.rem (offset dstDesc) (stride dstDesc)) = false ->
  let run := Compile drv shaderSource this srcDesc dstDesc in
  exists this',
    result run w = Ok (false, this') /\
    sk_program (_stencilKernel this') = 0 /\
    _patchKernel this' = _patchKernel this /\
    _srcBufferTexture this' = _srcBufferTexture this /\
    (sk_program (_stencilKernel this) <> 0 ->
     head (issued run w)
     = Some (DeleteProgram (sk_program (_stencilKernel this)))) /\
    (forall p, DeleteProgram p ∈ issued run w ->
               p = sk_program (_stencilKernel this) \/ p = next_generated w) /\
    (forall srcBuffer srcDesc' dstBuffer dstDesc' sizesTexture offsetsTexture
            indicesTexture weightsTexture start end_ w'',
        EvalStencils drv this' srcBuffer srcDesc' dstBuffer dstDesc'
          sizesTexture offsetsTexture indicesTexture weightsTexture
          start end_ w''
        = (Ok false, w'')) /\
    (forall srcBuffer srcDesc' dstBuffer dstDesc' duBuffer duDesc dvBuffer
            dvDesc numPatchCoords patchCoordsBuffer patchArrays
            patchIndexTexture patchParamTexture w'',
        EvalPatches drv this' srcBuffer srcDesc' dstBuffer dstDesc'
          duBuffer duDesc dvBuffer dvDesc numPatchCoords patchCoordsBuffer
          patchArrays patchIndexTexture patchParamTexture w''
        = EvalPatches drv this srcBuffer srcDesc' dstBuffer dstDesc'
            duBuffer duDesc dvBuffer dvDesc numPatchCoords patchCoordsBuffer
            patchArrays patchIndexTexture patchParamTexture w'').
Proof.
  intros Hs Hm Hl run.
  pose proof (int_rem_defined _ _ Hs Hm) as Hr.
  pose proof (Compile_stencil_failed_run drv shaderSource this srcDesc dstDesc
                _ w Hr Hl) as E.
  pose proof (issued_of_run _ _ _ _ _ E
                ltac:(rewrite !gl_trace_log_error; apply exec_trace)) as I.
  eexists. unfold run, result. rewrite I, E. cbn [fst].
  split; [reflexivity |]. split; [reflexivity |]. split; [reflexivity |].
  split; [reflexivity |]. split; [apply head_delete_program_calls |].
  split; [| split].
  - intros p H. apply list_elem_of_In in H. unfold delete_program_calls in H.
    destruct (sk_program (_stencilKernel this) =? 0); cbn in H;
      repeat match type of H with _ \/ _ => destruct H as [H | H] end;
      try discriminate H; try contradiction; injection H as <-; tauto.
  - reflexivity.
  - reflexivity.
Qed.

Lemma Compile_stencil_failure_witness :
  exists this',
    result (Compile (Sample.bad_driver "" "") "KERNEL" Sample.compiled
              (Sample.desc 0 3 3) (Sample.desc 4 3 7)) Sample.busy_context
    = Ok (false, this') /\
    sk_program (_stencilKernel this') = 0 /\
    _patchKernel this' = _patchKernel Sample.compiled.
Proof.
  destruct (Compile_stencil_failure (Sample.bad_driver "" "") "KERNEL"
              Sample.compiled (Sample.desc 0 3 3) (Sample.desc 4 3 7)
              Sample.busy_context) as (this' & R & S & P & _).
  - discriminate.
  - intros [E _]. discriminate E.
  - reflexivity.
  - exists this'. split; [exact R |]. split; [exact S | exact P].
Defined.

(** X9. A failed link of the patch kernel.  [Compile] returns false
    although the stencil kernel is in place: with the same descriptors
    [EvalStencils] on the evaluator it leaves uses the new stencil program
    and draws the batch, while [EvalPatches] returns false without
    touching the context. *)
Theorem Compile_patch_failure_leaves_stencil_kernel drv shaderSource this
    srcDesc dstDesc w :
  stride dstDesc <> 0 ->
  ~ (offset dstDesc = INT_MIN /\ stride dstDesc = -1) ->
  let r := Z.rem (offset dstDesc) (stride dstDesc) in
  kernel_links drv shaderSource srcDesc dstDesc stencil_define r = true ->
  kernel_links drv shaderSource srcDesc dstDesc patch_define r = false ->
  exists this',
    result (Compile drv shaderSource this srcDesc dstDesc) w
    = Ok (false, this') /\
    sk_program (_stencilKernel this') = next_generated w /\
    pk_program (_patchKernel this') = 0 /\
    (forall srcBuffer dstBuffer sizesTexture offsetsTexture indicesTexture
            weightsTexture start end_ w'',
        0 < int_sub end_ start ->
        let eval := EvalStencils drv this' srcBuffer srcDesc dstBuffer dstDesc
                      sizesTexture offsetsTexture indicesTexture weightsTexture
                      start end_ in
        result eval w'' = Ok true /\
        UseProgram (next_generated w) ∈ issued eval w'' /\
        DrawArrays GL_POINTS 0 (int_sub end_ start) ∈ issued eval w'') /\
    (forall srcBuffer dstBuffer duBuffer duDesc dvBuffer dvDesc numPatchCoords
            patchCoordsBuffer patchArrays patchIndexTexture patchParamTexture
            w'',
        EvalPatches drv this' srcBuffer srcDesc dstBuffer dstDesc
          duBuffer duDesc dvBuffer dvDesc numPatchCoords patchCoordsBuffer
          patchArrays patchIndexTexture patchParamTexture w''
        = (Ok false, w'')).
Proof.
  intros Hs Hm r Hl1 Hl2.
  pose proof (int_rem_defined _ _ Hs Hm) as Hr.
  pose proof (Compile_patch_failed_run drv shaderSource this srcDesc dstDesc
                _ w Hr Hl1 Hl2) as E.
  eexists. unfold result. rewrite E. cbn [fst].
  split; [reflexivity |]. split; [reflexivity |]. split; [reflexivity |].
  split; [| reflexivity].
  intros srcBuffer dstBuffer t1 t2 t3 t4 start end_ w'' Hc.
  assert (Hp : sk_program (_stencilKernel
                 {| _srcBufferTexture := _srcBufferTexture this;
                    _stencilKernel := stencil_kernel_of drv (next_generated w);
                    _patchKernel := with_patch_program 0 (_patchKernel this) |})
               <> 0) by discriminate.
  pose proof (EvalStencils_exec drv _ srcBuffer srcDesc dstBuffer dstDesc
                t1 t2 t3 t4 start end_ w'' _ Hp Hc Hr) as R.
  rewrite (issued_exec _ _ _ _ _ R), R. cbn [fst].
  split; [reflexivity |]. split.
  - unfold EvalStencils_setup, EvalStencils_inputs.
    rewrite <- !app_assoc. cbn [app].
    do 3 apply list_elem_of_further. apply list_elem_of_here.
  - apply elem_of_app. right. apply elem_of_app. left.
    unfold feedback_pass. do 2 apply list_elem_of_further.
    apply list_elem_of_here.
Qed.

Lemma Compile_patch_failure_leaves_stencil_kernel_witness :
  exists this',
    result (Compile Sample.stencil_only_driver "KERNEL" GLXFBEvaluator_new
              (Sample.desc 0 3 3) (Sample.desc 4 3 7)) Sample.new_context
    = Ok (false, this') /\
    sk_program (_stencilKernel this') = 1 /\
    pk_program (_patchKernel this') = 0.
Proof.
  destruct (Compile_patch_failure_leaves_stencil_kernel
              Sample.stencil_only_driver "KERNEL" GLXFBEvaluator_new
              (Sample.desc 0 3 3) (Sample.desc 4 3 7) Sample.new_context)
    as (this' & R & S & P & _).
  - discriminate.
  - intros [E _]. discriminate E.
  - reflexivity.
  - reflexivity.
  - exists this'. split; [exact R |]. split; [exact S | exact P].
Defined.

(** X10. When [dstDesc.offset % dstDesc.stride] has no value (a zero
    stride, or [INT_MIN % -1]) [Compile] does not return: it stops in the
    first [compileKernel], after deleting the stencil program the evaluator
    held and issuing [glCreateProgram], [glCreateShader], [glShaderSource],
    [glCompileShader] and [glAttachShader]; nothing is reported and neither
    new object is deleted. *)
Theorem Compile_undefined_remainder drv shaderSource this srcDesc dstDesc w :
  stride dstDesc = 0 \/ (offset dstDesc = INT_MIN /\ stride dstDesc = -1) ->
  let run := Compile drv shaderSource this srcDesc dstDesc in
  let p := next_generated w in
  let s := second_generated w in
  result run w = Raised integer_division /\
  issued run w
  = delete_program_calls (sk_program (_stencilKernel this)) ++
    [ CreateProgram; CreateShader GL_VERTEX_SHADER;
      ShaderSource s 3 (shaderSources shaderSource srcDesc stencil_define);
      CompileShader s; AttachShader p s ] /\
  reported run w = [].
Proof.
  intros Hz run p s.
  assert (Hr : int_rem (offset dstDesc) (stride dstDesc) = None).
  { destruct Hz as [-> | [-> ->]]; reflexivity. }
  pose proof (Compile_trap_run drv shaderSource this srcDesc dstDesc w Hr) as E.
  unfold run, result. rewrite (issued_exec _ _ _ _ _ E).
  rewrite (reported_of_run _ _ _ _ [] E)
    by (now rewrite exec_errors, app_nil_r).
  rewrite E. repeat split.
Qed.

Lemma Compile_undefined_remainder_witness :
  result (Compile (Sample.good_driver true) "KERNEL" Sample.compiled
            (Sample.desc 0 3 3) (Sample.desc 0 0 0)) Sample.new_context
  = Raised integer_division.
Proof.
  apply (Compile_undefined_remainder (Sample.good_driver true) "KERNEL"
           Sample.compiled (Sample.desc 0 3 3) (Sample.desc 0 0 0)
           Sample.new_context).
  left. reflexivity.
Defined.

(** ** The life of an evaluator *)

Lemma GLXFBEvaluator_delete_run drv this w :
  GLXFBEvaluator_delete drv this w
  = (Ok tt,
     exec drv
       (delete_program_calls (sk_program (_stencilKernel this)) ++
        delete_program_calls (pk_program (_patchKernel this)) ++
        (if _srcBufferTexture this =? 0 then []
         else [DeleteTextures (_srcBufferTexture this)])) w).
Proof.
  unfold GLXFBEvaluator_delete.
  run (delete_program_run drv _ w).
  run (delete_program_run drv _ _).
  rewrite DeleteTextures_run, !exec_app.
  now destruct (_srcBufferTexture this =? 0).
Qed.

(** The outcome of [Compile] when it returns true. *)
Lemma Compile_true_inv drv shaderSource this srcDesc dstDesc w this' w' :
  Compile drv shaderSource this srcDesc dstDesc w = (Ok (true, this'), w') ->
  exists r,
    int_rem (offset dstDesc) (stride dstDesc) = Some r /\
    this' = compiled_evaluator drv this w /\
    w' = exec drv (Compile_calls shaderSource this srcDesc dstDesc r w) w.
Proof.
  intros E.
  destruct (int_rem (offset dstDesc) (stride dstDesc)) as [r |] eqn:Hr.
  2:{ rewrite (Compile_trap_run drv shaderSource this srcDesc dstDesc w Hr)
        in E. discriminate E. }
  destruct (kernel_links drv shaderSource srcDesc dstDesc stencil_define r)
    eqn:Hl1.
  2:{ rewrite (Compile_stencil_failed_run drv shaderSource this srcDesc
                 dstDesc r w Hr Hl1) in E. discriminate E. }
  destruct (kernel_links drv shaderSource srcDesc dstDesc patch_define r)
    eqn:Hl2.
  2:{ rewrite (Compile_patch_failed_run drv shaderSource this srcDesc
                 dstDesc r w Hr Hl1 Hl2) in E. discriminate E. }
  rewrite (Compile_linked_run drv shaderSource this srcDesc dstDesc r w
             Hr Hl1 Hl2) in E.
  injection E as <- <-. now exists r.
Qed.

Lemma generated_Compile_calls ss this srcDesc dstDesc r w :
  generated (Compile_calls ss this srcDesc dstDesc r w)
  = if _srcBufferTexture this =? 0 then 5%nat else 4%nat.
Proof.
  unfold Compile_calls, Compile_stencil_calls, Compile_patch_calls,
    Compile_final_calls.
  rewrite !generated_app, !generated_delete_program.
  now destruct (_srcBufferTexture this =? 0).
Qed.

(** X11. What [Compile] creates is released.  A call that returns true
    takes five names, or four when the evaluator already had a source
    texture; it deletes the two shaders itself, and the destructor of the
    evaluator it leaves deletes the rest: the stencil program, the patch
    program, then the source texture, in this order. *)
Theorem GLXFBEvaluator_delete_releases drv shaderSource this srcDesc dstDesc
    w this' w' :
  Compile drv shaderSource this srcDesc dstDesc w = (Ok (true, this'), w') ->
  let compile := issued (Compile drv shaderSource this srcDesc dstDesc) w in
  generated compile = (if _srcBufferTexture this =? 0 then 5%nat else 4%nat) /\
  DeleteShader (second_generated w) ∈ compile /\
  DeleteShader (fourth_generated w) ∈ compile /\
  issued (GLXFBEvaluator_delete drv this') w'
  = [ DeleteProgram (next_generated w); DeleteProgram (third_generated w);
      DeleteTextures (if _srcBufferTexture this =? 0 then fifth_generated w
                      else _srcBufferTexture this) ].
Proof.
  intros E compile. unfold compile. clear compile.
  destruct (Compile_true_inv _ _ _ _ _ _ _ _ E) as (r & _ & -> & ->).
  rewrite (issued_exec _ _ _ _ _ E).
  rewrite (issued_exec _ _ _ _ _ (GLXFBEvaluator_delete_run drv _ _)).
  split; [apply generated_Compile_calls |].
  split; [| split].
  - unfold Compile_calls, Compile_stencil_calls.
    apply elem_of_app. left. apply elem_of_app. right.
    apply elem_of_app. right. apply elem_of_app. right.
    apply elem_of_app. left. apply list_elem_of_here.
  - unfold Compile_calls, Compile_final_calls.
    apply elem_of_app. right. apply elem_of_app. right.
    apply elem_of_app. left. apply list_elem_of_here.
  - cbn [compiled_evaluator _stencilKernel _patchKernel _srcBufferTexture
           stencil_kernel_of patch_kernel_of sk_program pk_program].
    unfold delete_program_calls.
    change (next_generated w =? 0) with false.
    change (third_generated w =? 0) with false. cbv iota.
    destruct (_srcBufferTexture this =? 0) eqn:Hz.
    + reflexivity.
    + rewrite Hz. reflexivity.
Qed.

Lemma GLXFBEvaluator_delete_releases_witness :
  let drv := Sample.good_driver true in
  let src := Sample.desc 0 3 3 in
  let dst := Sample.desc 4 3 7 in
  let w' := (Compile drv "KERNEL" GLXFBEvaluator_new src dst
               Sample.new_context).2 in
  issued (GLXFBEvaluator_delete drv
            (compiled_evaluator drv GLXFBEvaluator_new Sample.new_context)) w'
  = [DeleteProgram 1; DeleteProgram 3; DeleteTextures 5].
Proof.
  intros drv src dst w'.
  apply (GLXFBEvaluator_delete_releases drv "KERNEL" GLXFBEvaluator_new
           src dst Sample.new_context).
  vm_compute. reflexivity.
Defined.

(** ** Compile: binding points *)

Lemma exec_bind_app cs1 cs2 b :
  exec_bind (cs1 ++ cs2) b = exec_bind cs2 (exec_bind cs1 b).
Proof. apply foldl_app. Qed.

Lemma exec_bind_delete_program p b : exec_bind (delete_program_calls p) b = b.
Proof. unfold delete_program_calls. now destruct (p =? 0). Qed.

Lemma exec_bind_Compile_stencil_calls ss this srcDesc dstDesc r p s b :
  exec_bind (Compile_stencil_calls ss this srcDesc dstDesc r p s) b = b.
Proof.
  unfold Compile_stencil_calls.
  now rewrite exec_bind_app, exec_bind_delete_program.
Qed.

Lemma exec_bind_Compile_patch_calls ss this srcDesc dstDesc r p s b :
  exec_bind (Compile_patch_calls ss this srcDesc dstDesc r p s) b = b.
Proof.
  unfold Compile_patch_calls.
  now rewrite exec_bind_app, exec_bind_delete_program.
Qed.

(** X12. [Compile] changes no binding point, whatever its outcome. *)
Theorem Compile_keeps_bindings drv shaderSource this srcDesc dstDesc w :
  gl_bind (Compile drv shaderSource this srcDesc dstDesc w).2 = gl_bind w.
Proof.
  destruct (int_rem (offset dstDesc) (stride dstDesc)) as [r |] eqn:Hr.
  2:{ rewrite (Compile_trap_run drv shaderSource this srcDesc dstDesc w Hr).
      cbn [snd].
      now rewrite exec_gl_bind, exec_bind_app, exec_bind_delete_program. }
  destruct (kernel_links drv shaderSource srcDesc dstDesc stencil_define r)
    eqn:Hl1.
  2:{ rewrite (Compile_stencil_failed_run drv shaderSource this srcDesc
                 dstDesc r w Hr Hl1).
      cbn [snd log_error gl_bind].
      now rewrite exec_gl_bind, exec_bind_app, exec_bind_delete_program. }
  destruct (kernel_links drv shaderSource srcDesc dstDesc patch_define r)
    eqn:Hl2.
  2:{ rewrite (Compile_patch_failed_run drv shaderSource this srcDesc
                 dstDesc r w Hr Hl1 Hl2).
      cbn [snd log_error gl_bind].
      now rewrite exec_gl_bind, !exec_bind_app,
        exec_bind_Compile_stencil_calls, exec_bind_Compile_patch_calls. }
  rewrite (Compile_linked_run drv shaderSource this srcDesc dstDesc r w
             Hr Hl1 Hl2).
  cbn [snd]. unfold Compile_calls.
  rewrite exec_gl_bind, !exec_bind_app,
    exec_bind_Compile_stencil_calls, exec_bind_Compile_patch_calls.
  unfold Compile_final_calls. now destruct (_srcBufferTexture this =? 0).
Qed.

(** ** compileKernel: the varyings, for any descriptor *)

(** X13. The varyings [compileKernel] declares, for any signs of the
    fields.  With [r = dstDesc.offset % dstDesc.stride] defined and
    [r + dstDesc.length] within [int], the names are [r] skips (none if
    [r] is negative), then [outVertexBuffer[0]] to
    [outVertexBuffer[length-1]] in full (the 32-byte buffer never cuts
    one), then [stride - (r + length)] skips (none if negative).  Hence
    their number is [max 0 r + max 0 length + max 0 (stride - (r +
    length))], which is never less than [stride] and equals it exactly
    when [0 <= r], [0 <= length] and [r + length <= stride]. *)
Theorem compileKernel_varyings_general drv shaderSource srcDesc dstDesc
    kernelDefine w :
  stride dstDesc <> 0 ->
  ~ (offset dstDesc = INT_MIN /\ stride dstDesc = -1) ->
  in_int (length dstDesc) ->
  let r := Z.rem (offset dstDesc) (stride dstDesc) in
  in_int (r + length dstDesc) ->
  let names :=
    replicate (Z.to_nat r) "gl_SkipComponents1" ++
    ((fun i => "outVertexBuffer[" +:+ decimal i +:+ "]")
       <$> seqZ 0 (length dstDesc)) ++
    replicate (Z.to_nat (stride dstDesc - (r + length dstDesc)))
              "gl_SkipComponents1" in
  let n := Z.of_nat (List.length names) in
  varyings_declared
    (issued (compileKernel drv shaderSource srcDesc dstDesc kernelDefine) w)
  = [ (to_int n, names, GL_INTERLEAVED_ATTRIBS) ] /\
  n = Z.max 0 r + Z.max 0 (length dstDesc) +
      Z.max 0 (stride dstDesc - (r + length dstDesc)) /\
  stride dstDesc <= n /\
  (n = stride dstDesc <->
   0 <= r /\ 0 <= length dstDesc /\ r + length dstDesc <= stride dstDesc).
Proof.
  intros Hs Hm Hl r Hrl names n.
  pose proof (int_rem_defined _ _ Hs Hm) as Hr. fold r in Hr.
  assert (F : fill_outputs r dstDesc = names).
  { rewrite fill_outputs_unfold. rewrite (int_add_exact _ _ Hrl).
    unfold names. do 2 f_equal.
    apply fmap_seqZ_ext. intros i Hi.
    apply snprintf_outVertexBuffer_exact.
    unfold in_int, INT_MAX in *. lia. }
  assert (N : n = Z.max 0 r + Z.max 0 (length dstDesc) +
                  Z.max 0 (stride dstDesc - (r + length dstDesc))).
  { unfold n, names.
    rewrite !List.length_app, !length_replicate, length_fmap, length_seqZ.
    lia. }
  split; [| split; [exact N | split]].
  - rewrite (varyings_declared_compileKernel _ _ _ _ _ _ _ Hr), F.
    reflexivity.
  - lia.
  - lia.
Qed.

Lemma compileKernel_varyings_general_witness :
  varyings_declared
    (issued (compileKernel (Sample.good_driver true) "KERNEL"
               (Sample.desc 0 3 3) (Sample.desc (-1) 3 4) "#define K")
            Sample.new_context)
  = [ (5, [ "outVertexBuffer[0]"; "outVertexBuffer[1]"; "outVertexBuffer[2]";
            "gl_SkipComponents1"; "gl_SkipComponents1" ],
       GL_INTERLEAVED_ATTRIBS) ].
Proof.
  apply (compileKernel_varyings_general (Sample.good_driver true) "KERNEL"
           (Sample.desc 0 3 3) (Sample.desc (-1) 3 4) "#define K"
           Sample.new_context).
  - discriminate.
  - intros [E _]. discriminate E.
  - vm_compute. split; discriminate.
  - vm_compute. split; discriminate.
Defined.

(** ** compileKernel: what it returns and what it leaves *)

Lemma programs_DeleteShader drv s w :
  programs (gl_obj (exec drv [DeleteShader s] w)) = programs (gl_obj w).
Proof. reflexivity. Qed.

(** X14. What [compileKernel] returns.  With the remainder defined the
    result is the program it created when the driver links it, and zero
    otherwise (so zero exactly when the link fails); either way its last
    command is [glDeleteShader] on the shader it created.  After a
    successful link nothing has been reported and the program object
    returned is linked, with the one shader attached and the varyings
    declared. *)
Theorem compileKernel_returns_linked_program drv shaderSource srcDesc dstDesc
    kernelDefine w :
  stride dstDesc <> 0 ->
  ~ (offset dstDesc = INT_MIN /\ stride dstDesc = -1) ->
  let r := Z.rem (offset dstDesc) (stride dstDesc) in
  let run := compileKernel drv shaderSource srcDesc dstDesc kernelDefine in
  let links := kernel_links drv shaderSource srcDesc dstDesc kernelDefine r in
  result run w = Ok (if links then next_generated w else 0) /\
  (result run w = Ok 0 <-> links = false) /\
  last (issued run w) = Some (DeleteShader (second_generated w)) /\
  (links = true ->
   reported run w = [] /\
   programs (gl_obj (run w).2) !! next_generated w
   = Some {| po_shaders := [second_generated w];
             po_varyings := linked_varyings dstDesc r;
             po_linked := true |}).
Proof.
  intros Hs Hm r run links.
  pose proof (int_rem_defined _ _ Hs Hm) as Hr. fold r in Hr.
  unfold run, result. destruct links eqn:Hl; unfold links in Hl.
  - pose proof (compileKernel_linked drv shaderSource srcDesc dstDesc
                  kernelDefine r w Hr Hl) as E.
    rewrite (issued_exec _ _ _ _ _ E).
    rewrite (reported_of_run _ _ _ _ [] E)
      by (now rewrite exec_errors, app_nil_r).
    rewrite E. cbn [fst snd].
    split; [reflexivity |]. split; [| split; [| intros _; split]].
    + split; [intros [= H] | discriminate].
    + rewrite !app_assoc. apply last_snoc.
    + reflexivity.
    + rewrite app_assoc, exec_app, programs_DeleteShader.
      destruct (compileKernel_objects_at_status drv shaderSource srcDesc
                  dstDesc kernelDefine r w) as [HP _].
      cbv zeta in HP. rewrite HP, Hl. reflexivity.
  - pose proof (compileKernel_failed drv shaderSource srcDesc dstDesc
                  kernelDefine r w Hr Hl) as E.
    rewrite (issued_of_run _ _ _ _ _ E
               ltac:(rewrite !gl_trace_log_error; apply exec_trace)).
    rewrite E. cbn [fst].
    split; [reflexivity |]. split; [tauto |]. split; [| discriminate].
    unfold link_failure_calls.
    change [GetShaderInfoLog (second_generated w) 1024;
            GetProgramInfoLog (next_generated w) 1024;
            DeleteProgram (next_generated w);
            DeleteShader (second_generated w)]
      with ([GetShaderInfoLog (second_generated w) 1024;
             GetProgramInfoLog (next_generated w) 1024;
             DeleteProgram (next_generated w)] ++
            [DeleteShader (second_generated w)]).
    rewrite !app_assoc. apply last_snoc.
Qed.

Lemma compileKernel_returns_linked_program_witness :
  result (compileKernel (Sample.bad_driver "" "") "KERNEL"
            (Sample.desc 0 3 3) (Sample.desc 4 3 7) "#define K")
    Sample.new_context = Ok 0 /\
  result (compileKernel (Sample.good_driver true) "KERNEL"
            (Sample.desc 0 3 3) (Sample.desc 4 3 7) "#define K")
    Sample.busy_context = Ok 100.
Proof.
  split.
  - destruct (compileKernel_returns_linked_program (Sample.bad_driver "" "")
                "KERNEL" (Sample.desc 0 3 3) (Sample.desc 4 3 7) "#define K"
                Sample.new_context) as (R & _).
    + discriminate.
    + intros [E _]. discriminate E.
    + exact R.
  - destruct (compileKernel_returns_linked_program (Sample.good_driver true)
                "KERNEL" (Sample.desc 0 3 3) (Sample.desc 4 3 7) "#define K"
                Sample.busy_context) as (R & _).
    + discriminate.
    + intros [E _]. discriminate E.
    + exact R.
Defined.

(** The object tables once the link status has been queried: only the
    new program and the new shader differ. *)
Lemma compileKernel_frame_at_status drv shaderSource srcDesc dstDesc
    kernelDefine r w :
  let w' := exec drv
              (compileKernel_prelude shaderSource srcDesc kernelDefine
                 (next_generated w) (second_generated w) ++
               compileKernel_link dstDesc r (next_generated w)) w in
  (forall i, i <> next_generated w ->
             programs (gl_obj w') !! i = programs (gl_obj w) !! i) /\
  (forall i, i <> second_generated w ->
             shaders (gl_obj w') !! i = shaders (gl_obj w) !! i) /\
  buffers (gl_obj w') = buffers (gl_obj w) /\
  textures (gl_obj w') = textures (gl_obj w) /\
  vaos (gl_obj w') = vaos (gl_obj w) /\
  gl_bind w' = gl_bind w.
Proof.
  unfold next_generated, second_generated. cbn.
  split; [| split; [| repeat split]].
  - intros i Hi. now rewrite !lookup_alter_ne, lookup_insert_ne by congruence.
  - intros i Hi. now rewrite !lookup_insert_ne by congruence.
Qed.

(** What the commands after a failed link do to a context. *)
Lemma link_failure_calls_objects drv p s w :
  current_program (gl_bind w) <> p ->
  let w' := exec drv (link_failure_calls p s) w in
  programs (gl_obj w') = delete p (programs (gl_obj w)) /\
  shaders (gl_obj w') = delete s (shaders (gl_obj w)) /\
  buffers (gl_obj w') = buffers (gl_obj w) /\
  textures (gl_obj w') = textures (gl_obj w) /\
  vaos (gl_obj w') = vaos (gl_obj w) /\
  gl_bind w' = gl_bind w.
Proof.
  intros Hc. cbn. rewrite decide_False by exact Hc. repeat split.
Qed.

Lemma gl_obj_log_error e msg w : gl_obj (log_error e msg w) = gl_obj w.
Proof. reflexivity. Qed.

Lemma gl_bind_log_error e msg w : gl_bind (log_error e msg w) = gl_bind w.
Proof. reflexivity. Qed.

(** X15. A failed link leaves no object: in a context where the two
    names about to be handed out are free and the program in use is not
    the first of them, [compileKernel] with a link that fails returns with
    the program, shader, buffer, texture and vertex array tables and all
    binding points as they were. *)
Theorem compileKernel_failed_link_releases drv shaderSource srcDesc dstDesc
    kernelDefine w :
  stride dstDesc <> 0 ->
  ~ (offset dstDesc = INT_MIN /\ stride dstDesc = -1) ->
  kernel_links drv shaderSource srcDesc dstDesc kernelDefine
    (Z.rem (offset dstDesc) (stride dstDesc)) = false ->
  programs (gl_obj w) !! next_generated w = None ->
  shaders (gl_obj w) !! second_generated w = None ->
  current_program (gl_bind w) <> next_generated w ->
  let w' := (compileKernel drv shaderSource srcDesc dstDesc kernelDefine w).2 in
  programs (gl_obj w') = programs (gl_obj w) /\
  shaders (gl_obj w') = shaders (gl_obj w) /\
  buffers (gl_obj w') = buffers (gl_obj w) /\
  textures (gl_obj w') = textures (gl_obj w) /\
  vaos (gl_obj w') = vaos (gl_obj w) /\
  gl_bind w' = gl_bind w.
Proof.
  intros Hs Hm Hl HP HS HC.
  pose proof (int_rem_defined _ _ Hs Hm) as Hr.
  rewrite (compileKernel_failed drv shaderSource srcDesc dstDesc
             kernelDefine _ w Hr Hl).
  cbv zeta. unfold snd.
  rewrite !gl_obj_log_error, !gl_bind_log_error.
  rewrite app_assoc, exec_app.
  destruct (compileKernel_frame_at_status drv shaderSource srcDesc dstDesc
              kernelDefine (Z.rem (offset dstDesc) (stride dstDesc)) w)
    as (FP & FS & FB & FT & FV & FG).
  cbv zeta in FP, FS, FB, FT, FV, FG. revert FP FS FB FT FV FG.
  generalize (exec drv
                (compileKernel_prelude shaderSource srcDesc kernelDefine
                   (next_generated w) (second_generated w) ++
                 compileKernel_link dstDesc
                   (Z.rem (offset dstDesc) (stride dstDesc))
                   (next_generated w)) w).
  intros W FP FS FB FT FV FG.
  assert (HC' : current_program (gl_bind W) <> next_generated w)
    by now rewrite FG.
  destruct (link_failure_calls_objects drv (next_generated w)
              (second_generated w) W HC') as (LP & LS & LB & LT & LV & LG).
  cbv zeta in LP, LS, LB, LT, LV, LG.
  rewrite LP, LS, LB, LT, LV, LG, FB, FT, FV, FG.
  repeat split.
  - apply map_eq. intros i. rewrite lookup_delete. case_decide as E.
    + now subst i.
    + now apply FP.
  - apply map_eq. intros i. rewrite lookup_delete. case_decide as E.
    + now subst i.
    + now apply FS.
Qed.

Lemma compileKernel_failed_link_releases_witness :
  let w' := (compileKernel (Sample.bad_driver "" "") "KERNEL"
               (Sample.desc 0 3 3) (Sample.desc 4 3 7) "#define K"
               Sample.busy_context).2 in
  programs (gl_obj w') = ∅ /\ shaders (gl_obj w') = ∅.
Proof.
  intros w'.
  destruct (compileKernel_failed_link_releases (Sample.bad_driver "" "")
              "KERNEL" (Sample.desc 0 3 3) (Sample.desc 4 3 7) "#define K"
              Sample.busy_context) as (P & S & _).
  - discriminate.
  - intros [E _]. discriminate E.
  - reflexivity.
  - reflexivity.
  - reflexivity.
  - discriminate.
  - split; [exact P | exact S].
Defined.

(** ** EvalPatches: the draw *)

Lemma gl_trace_after_derivative_check du dv w :
  gl_trace (after_derivative_check du dv w) = gl_trace w.
Proof. unfold after_derivative_check. now destruct (_ || _). Qed.


Lemma EvalPatches_issued drv this srcBuffer srcDesc dstBuffer dstDesc
      duBuffer duDesc dvBuffer dvDesc numPatchCoords patchCoordsBuffer
      patchArrays patchIndexTexture patchParamTexture w r :
  pk_program (_patchKernel this) <> 0 ->
  int_rem (offset dstDesc) (stride dstDesc) = Some r ->
  issued (EvalPatches drv this srcBuffer srcDesc dstBuffer dstDesc
            duBuffer duDesc dvBuffer dvDesc numPatchCoords patchCoordsBuffer
            patchArrays patchIndexTexture patchParamTexture) w
  = EvalPatches_setup this srcBuffer srcDesc patchCoordsBuffer patchArrays
      patchIndexTexture patchParamTexture (next_generated w) ++
    feedback_pass dstBuffer dstDesc r numPatchCoords ++
    EvalPatches_teardown (next_generated w).
Proof.
  intros Hp Hr.
  apply (issued_of_run _ _ _ _ _
           (EvalPatches_exec drv this srcBuffer srcDesc dstBuffer dstDesc
              duBuffer duDesc dvBuffer dvDesc numPatchCoords patchCoordsBuffer
              patchArrays patchIndexTexture patchParamTexture w r Hp Hr)).
  now rewrite exec_trace, gl_trace_after_derivative_check.
Qed.

Lemma draws_EvalPatches_setup this sb sd pcb pas t1 t2 vao :
  draws (EvalPatches_setup this sb sd pcb pas t1 t2 vao) = [].
Proof.
  unfold EvalPatches_setup, draws. rewrite !omap_app.
  fold draws. now rewrite !draws_bindTexture_calls.
Qed.

Lemma range_bindings_EvalPatches_setup this sb sd pcb pas t1 t2 vao :
  range_bindings (EvalPatches_setup this sb sd pcb pas t1 t2 vao) = [].
Proof.
  unfold EvalPatches_setup, range_bindings. rewrite !omap_app.
  fold range_bindings. now rewrite !range_bindings_bindTexture_calls.
Qed.

(** X16. [EvalPatches] has no guard on the number of patch coordinates
    and does not give up on a derivative request: with a compiled patch
    kernel and the remainder defined it returns true and issues exactly
    one draw, [glDrawArrays(GL_POINTS, 0, numPatchCoords)], for every
    [numPatchCoords] (zero and negative included) and whatever the
    derivative buffers.  The draw sits in one transform-feedback pass over
    the only range binding, at [(offset - offset % stride) *
    sizeof(float)] for [numPatchCoords * stride * sizeof(float)] bytes,
    right after the patch arrays are passed as one [glUniform4iv] and the
    patch coordinates are set up as records of 20 bytes: three unsigned
    ints at 0 for attribute 0, two floats at 12 for attribute 1. *)
Theorem EvalPatches_always_draws drv this srcBuffer srcDesc dstBuffer dstDesc
    duBuffer duDesc dvBuffer dvDesc numPatchCoords patchCoordsBuffer
    patchArrays patchIndexTexture patchParamTexture w :
  pk_program (_patchKernel this) <> 0 ->
  stride dstDesc <> 0 ->
  ~ (offset dstDesc = INT_MIN /\ stride dstDesc = -1) ->
  let run := EvalPatches drv this srcBuffer srcDesc dstBuffer dstDesc
               duBuffer duDesc dvBuffer dvDesc numPatchCoords
               patchCoordsBuffer patchArrays patchIndexTexture
               patchParamTexture in
  let k := _patchKernel this in
  let r := Z.rem (offset dstDesc) (stride dstDesc) in
  let bindOffset := bytes_of (int_sub (offset dstDesc) r) sizeof_float in
  let bindSize :=
    bytes_of (int_mul numPatchCoords (stride dstDesc)) sizeof_float in
  result run w = Ok true /\
  draws (issued run w) = [(GL_POINTS, 0, numPatchCoords)] /\
  range_bindings (issued run w)
  = [(GL_TRANSFORM_FEEDBACK_BUFFER, 0, dstBuffer, bindOffset, bindSize)] /\
  (exists before after,
      issued run w =
      before ++
      [ Uniform4iv (pk_uniformPatchArray k)
          (to_int (Z.of_nat (List.length patchArrays))) (concat patchArrays);
        Uniform1i (pk_uniformSrcOffset k) (offset srcDesc);
        EnableVertexAttribArray 0; EnableVertexAttribArray 1;
        BindBuffer GL_ARRAY_BUFFER patchCoordsBuffer;
        VertexAttribIPointer 0 3 GL_UNSIGNED_INT 20 0;
        VertexAttribPointer 1 2 GL_FLOAT GL_FALSE 20 12;
        BindBufferRange GL_TRANSFORM_FEEDBACK_BUFFER 0 dstBuffer
                        bindOffset bindSize;
        BeginTransformFeedback GL_POINTS;
        DrawArrays GL_POINTS 0 numPatchCoords;
        EndTransformFeedback ] ++
      after) /\
  (in_int (offset dstDesc) ->
   bindOffset = (offset dstDesc - r) * sizeof_float) /\
  (in_int (numPatchCoords * stride dstDesc) ->
   bindSize = numPatchCoords * stride dstDesc * sizeof_float).
Proof.
  intros Hp Hs Hq run k r bindOffset bindSize.
  pose proof (int_rem_defined _ _ Hs Hq) as Hr. fold r in Hr.
  pose proof (EvalPatches_exec drv this srcBuffer srcDesc dstBuffer dstDesc
                duBuffer duDesc dvBuffer dvDesc numPatchCoords
                patchCoordsBuffer patchArrays patchIndexTexture
                patchParamTexture w r Hp Hr) as E.
  pose proof (EvalPatches_issued drv this srcBuffer srcDesc dstBuffer dstDesc
                duBuffer duDesc dvBuffer dvDesc numPatchCoords
                patchCoordsBuffer patchArrays patchIndexTexture
                patchParamTexture w r Hp Hr) as I.
  fold run in E, I.
  split; [unfold result; now rewrite E |]. rewrite I.
  split; [| split; [| split; [| split]]].
  - unfold draws. rewrite !omap_app. fold draws.
    now rewrite draws_EvalPatches_setup.
  - unfold range_bindings. rewrite !omap_app. fold range_bindings.
    now rewrite range_bindings_EvalPatches_setup.
  - exists ([ GenVertexArrays 1; BindVertexArray (next_generated w);
              Enable GL_RASTERIZER_DISCARD; UseProgram (pk_program k);
              BindTexture GL_TEXTURE_BUFFER (_srcBufferTexture this);
              TexBuffer GL_TEXTURE_BUFFER GL_R32F srcBuffer;
              BindTexture GL_TEXTURE_BUFFER 0 ] ++
            bindTexture_calls (pk_uniformSrcBufferTexture k)
              (_srcBufferTexture this) 0 ++
            bindTexture_calls (pk_uniformPatchParamTexture k)
              patchParamTexture 1 ++
            bindTexture_calls (pk_uniformPatchIndexTexture k)
              patchIndexTexture 2),
           (EvalPatches_teardown (next_generated w)).
    unfold EvalPatches_setup, feedback_pass. fold k.
    rewrite <- !app_assoc. reflexivity.
  - intros Ho. unfold bindOffset, sizeof_float.
    destruct (rem_in_int (offset dstDesc) (stride dstDesc) Ho) as [_ Hd].
    fold r in Hd. rewrite (int_sub_exact _ _ Hd). now apply bytes_of_exact.
  - intros Hm. unfold bindSize, sizeof_float.
    rewrite (int_mul_exact _ _ Hm). now apply bytes_of_exact.
Qed.

Lemma EvalPatches_always_draws_witness :
  let run := EvalPatches (Sample.good_driver true) Sample.compiled
               8 (Sample.desc 0 3 3) 9 (Sample.desc 11 3 7)
               10 (Sample.desc 0 3 3) 0 (Sample.desc 0 3 3) 0 20
               [[1; 2; 3; 4]] 41 42 in
  result run Sample.busy_context = Ok true /\
  draws (issued run Sample.busy_context) = [(GL_POINTS, 0, 0)] /\
  range_bindings (issued run Sample.busy_context)
  = [(GL_TRANSFORM_FEEDBACK_BUFFER, 0, 9, 28, 0)].
Proof.
  intros run.
  destruct (EvalPatches_always_draws (Sample.good_driver true) Sample.compiled
              8 (Sample.desc 0 3 3) 9 (Sample.desc 11 3 7)
              10 (Sample.desc 0 3 3) 0 (Sample.desc 0 3 3) 0 20
              [[1; 2; 3; 4]] 41 42 Sample.busy_context)
    as (R & D & B & _).
  - discriminate.
  - discriminate.
  - intros [E _]. discriminate E.
  - split; [exact R |]. split; [exact D | exact B].
Defined.

(** ** The context in which the draw is issued *)

Lemma EvalStencils_bindings_at_draw this srcBuffer srcDesc dstBuffer dstDesc
      t1 t2 t3 t4 start end_ vao r count b :
  let k := _stencilKernel this in
  let b' := exec_bind
              (EvalStencils_setup this srcBuffer srcDesc t1 t2 t3 t4 start end_
                 vao ++
               [ BindBufferRange GL_TRANSFORM_FEEDBACK_BUFFER 0 dstBuffer
                   (bytes_of (int_sub (offset dstDesc) r) sizeof_float)
                   (bytes_of (int_mul count (stride dstDesc)) sizeof_float);
                 BeginTransformFeedback GL_POINTS ]) b in
  current_program b' = sk_program k /\
  rasterizer_discard b' = true /\
  vertex_array b' = vao /\
  xfb_buffer b' = dstBuffer /\
  array_buffer b' = array_buffer b /\
  (sk_uniformSrcBufferTexture k <> -1 ->
   bound_texture b' 0 = _srcBufferTexture this) /\
  (sk_uniformSizesTexture k <> -1 -> bound_texture b' 1 = t1) /\
  (sk_uniformOffsetsTexture k <> -1 -> bound_texture b' 2 = t2) /\
  (sk_uniformIndicesTexture k <> -1 -> bound_texture b' 3 = t3) /\
  (sk_uniformWeightsTexture k <> -1 -> bound_texture b' 4 = t4).
Proof.
  unfold EvalStencils_setup, EvalStencils_inputs, bindTexture_calls.
  destruct (Z.eqb_spec (sk_uniformSrcBufferTexture (_stencilKernel this)) (-1)),
    (Z.eqb_spec (sk_uniformSizesTexture (_stencilKernel this)) (-1)),
    (Z.eqb_spec (sk_uniformOffsetsTexture (_stencilKernel this)) (-1)),
    (Z.eqb_spec (sk_uniformIndicesTexture (_stencilKernel this)) (-1)),
    (Z.eqb_spec (sk_uniformWeightsTexture (_stencilKernel this)) (-1));
    cbn; repeat split; intros; try contradiction;
    unfold bound_texture; cbn;
    repeat (rewrite lookup_insert; case_decide; subst; cbn;
            try lia; try reflexivity).
Qed.

(** A projection of the object tables that none of the commands [cs]
    changes is the same after them. *)
Lemma exec_preserves {T} (f : Objects -> T) drv cs w :
  Forall (fun c => forall b o, f (obj_effect drv c b o) = f o) cs ->
  f (gl_obj (exec drv cs w)) = f (gl_obj w).
Proof.
  intros H. revert w. induction H as [| c cs Hc _ IH]; intros w.
  - reflexivity.
  - change (exec drv (c :: cs) w) with (exec drv cs (log_call c (effect drv c w))).
    rewrite IH. apply Hc.
Qed.

Ltac inert_calls :=
  repeat first
    [ apply Forall_nil_2
    | apply Forall_app; split
    | apply Forall_cons; split;
      [ intros ? ?; cbn; repeat case_decide; reflexivity | ] ].

Lemma bindTexture_calls_inert {T} (f : Objects -> T) drv s t u :
  Forall (fun c => forall b o, f (obj_effect drv c b o) = f o)
         (bindTexture_calls s t u).
Proof. unfold bindTexture_calls. destruct (s =? -1); inert_calls. Qed.


(** The source buffer texture after the first commands of an evaluation:
    the source vertex buffer is attached to it. *)
Lemma source_texture_attached drv vao program src srcBuffer w :
  let w' := exec drv
              [ GenVertexArrays 1; BindVertexArray vao;
                Enable GL_RASTERIZER_DISCARD; UseProgram program;
                BindTexture GL_TEXTURE_BUFFER src;
                TexBuffer GL_TEXTURE_BUFFER GL_R32F srcBuffer ] w in
  textures (gl_obj w')
  = (if decide (src = 0) then textures (gl_obj w)
     else <[src := {| tex_format := GL_R32F; tex_buffer := srcBuffer |}]>
            (textures (gl_obj w))) /\
  buffers (gl_obj w') = buffers (gl_obj w) /\
  programs (gl_obj w') = programs (gl_obj w) /\
  shaders (gl_obj w') = shaders (gl_obj w).
Proof.
  cbn. unfold bound_texture. cbn. rewrite lookup_insert_eq. cbn.
  repeat case_decide; repeat split; try contradiction.
Qed.

Lemma EvalStencils_setup_split this srcBuffer srcDesc t1 t2 t3 t4 start end_ vao :
  let k := _stencilKernel this in
  EvalStencils_setup this srcBuffer srcDesc t1 t2 t3 t4 start end_ vao
  = [ GenVertexArrays 1; BindVertexArray vao; Enable GL_RASTERIZER_DISCARD;
      UseProgram (sk_program k);
      BindTexture GL_TEXTURE_BUFFER (_srcBufferTexture this);
      TexBuffer GL_TEXTURE_BUFFER GL_R32F srcBuffer ] ++
    ([ BindTexture GL_TEXTURE_BUFFER 0 ] ++
     bindTexture_calls (sk_uniformSrcBufferTexture k) (_srcBufferTexture this) 0 ++
     bindTexture_calls (sk_uniformSizesTexture k) t1 1 ++
     bindTexture_calls (sk_uniformOffsetsTexture k) t2 2 ++
     bindTexture_calls (sk_uniformIndicesTexture k) t3 3 ++
     bindTexture_calls (sk_uniformWeightsTexture k) t4 4 ++
     [ Uniform1i (sk_uniformStart k) start;
       Uniform1i (sk_uniformEnd k) end_;
       Uniform1i (sk_uniformSrcOffset k) (offset srcDesc) ]).
Proof.
  unfold EvalStencils_setup, EvalStencils_inputs. cbn [app].
  now rewrite <- !app_assoc.
Qed.

Lemma EvalStencils_setup_rest_inert {T} (f : Objects -> T) drv this srcDesc
      t1 t2 t3 t4 start end_ tail :
  let k := _stencilKernel this in
  Forall (fun c => forall b o, f (obj_effect drv c b o) = f o) tail ->
  Forall (fun c => forall b o, f (obj_effect drv c b o) = f o)
    (([ BindTexture GL_TEXTURE_BUFFER 0 ] ++
      bindTexture_calls (sk_uniformSrcBufferTexture k) (_srcBufferTexture this) 0 ++
      bindTexture_calls (sk_uniformSizesTexture k) t1 1 ++
      bindTexture_calls (sk_uniformOffsetsTexture k) t2 2 ++
      bindTexture_calls (sk_uniformIndicesTexture k) t3 3 ++
      bindTexture_calls (sk_uniformWeightsTexture k) t4 4 ++
      [ Uniform1i (sk_uniformStart k) start;
        Uniform1i (sk_uniformEnd k) end_;
        Uniform1i (sk_uniformSrcOffset k) (offset srcDesc) ]) ++ tail).
Proof.
  intros k Ht.
  repeat first
    [ exact Ht
    | apply bindTexture_calls_inert
    | apply Forall_app; split
    | apply Forall_nil_2
    | apply Forall_cons; split;
      [ intros ? ?; cbn; repeat case_decide; reflexivity | ] ].
Qed.

(** X17. The context in which [EvalStencils] draws.  When the draw is
    issued the stencil program is in use, rasterizer discard is on, the
    vertex array just generated is bound, the destination buffer is the
    transform-feedback buffer, each of the units 0 to 4 whose sampler has
    a location holds its texture (source, sizes, offsets, indices,
    weights), and the source buffer texture, if the evaluator has one, is
    a [GL_R32F] view of [srcBuffer]. *)
Theorem EvalStencils_state_at_draw drv this srcBuffer srcDesc dstBuffer dstDesc
    sizesTexture offsetsTexture indicesTexture weightsTexture start end_ w :
  sk_program (_stencilKernel this) <> 0 ->
  0 < int_sub end_ start ->
  stride dstDesc <> 0 ->
  ~ (offset dstDesc = INT_MIN /\ stride dstDesc = -1) ->
  let run := EvalStencils drv this srcBuffer srcDesc dstBuffer dstDesc
               sizesTexture offsetsTexture indicesTexture weightsTexture
               start end_ in
  let k := _stencilKernel this in
  exists before after,
    issued run w
    = before ++ DrawArrays GL_POINTS 0 (int_sub end_ start) :: after /\
    let ctx := exec drv before w in
    let b := gl_bind ctx in
    current_program b = sk_program k /\
    rasterizer_discard b = true /\
    vertex_array b = next_generated w /\
    xfb_buffer b = dstBuffer /\
    (sk_uniformSrcBufferTexture k <> -1 ->
     bound_texture b 0 = _srcBufferTexture this) /\
    (sk_uniformSizesTexture k <> -1 -> bound_texture b 1 = sizesTexture) /\
    (sk_uniformOffsetsTexture k <> -1 -> bound_texture b 2 = offsetsTexture) /\
    (sk_uniformIndicesTexture k <> -1 -> bound_texture b 3 = indicesTexture) /\
    (sk_uniformWeightsTexture k <> -1 -> bound_texture b 4 = weightsTexture) /\
    (_srcBufferTexture this <> 0 ->
     textures (gl_obj ctx) !! _srcBufferTexture this
     = Some {| tex_format := GL_R32F; tex_buffer := srcBuffer |}).
Proof.
  intros Hp Hc Hs Hq run k.
  pose proof (int_rem_defined _ _ Hs Hq) as Hr.
  set (r := Z.rem (offset dstDesc) (stride dstDesc)) in *.
  pose proof (issued_exec drv _ _ _ _
                (EvalStencils_exec drv this srcBuffer srcDesc dstBuffer dstDesc
                   sizesTexture offsetsTexture indicesTexture weightsTexture
                   start end_ w r Hp Hc Hr)) as I.
  fold run in I.
  exists (EvalStencils_setup this srcBuffer srcDesc sizesTexture offsetsTexture
            indicesTexture weightsTexture start end_ (next_generated w) ++
          [ BindBufferRange GL_TRANSFORM_FEEDBACK_BUFFER 0 dstBuffer
              (bytes_of (int_sub (offset dstDesc) r) sizeof_float)
              (bytes_of (int_mul (int_sub end_ start) (stride dstDesc))
                 sizeof_float);
            BeginTransformFeedback GL_POINTS ]),
         ([EndTransformFeedback] ++ EvalStencils_teardown (next_generated w)).
  split.
  { rewrite I. unfold feedback_pass. rewrite <- !app_assoc. reflexivity. }
  cbv zeta.
  destruct (EvalStencils_bindings_at_draw this srcBuffer srcDesc dstBuffer
              dstDesc sizesTexture offsetsTexture indicesTexture weightsTexture
              start end_ (next_generated w) r (int_sub end_ start) (gl_bind w))
    as (B1 & B2 & B3 & B4 & _ & B5 & B6 & B7 & B8 & B9).
  cbv zeta in B1, B2, B3, B4, B5, B6, B7, B8, B9.
  rewrite exec_gl_bind.
  do 9 (split; [assumption |]).
  intros Hsrc.
  rewrite EvalStencils_setup_split. cbv zeta.
  rewrite <- app_assoc, exec_app.
  rewrite (exec_preserves textures).
  - destruct (source_texture_attached drv (next_generated w) (sk_program k)
                (_srcBufferTexture this) srcBuffer w) as [T _].
    cbv zeta in T. fold k. rewrite T.
    rewrite decide_False by exact Hsrc. apply lookup_insert_eq.
  - apply EvalStencils_setup_rest_inert. inert_calls.
Qed.

Lemma EvalStencils_state_at_draw_witness :
  let drv := Sample.good_driver true in
  let run := EvalStencils drv Sample.compiled
               8 (Sample.desc 0 3 3) 9 (Sample.desc 11 3 7) 31 32 33 34 2 12 in
  exists before after,
    issued run Sample.busy_context
    = before ++ DrawArrays GL_POINTS 0 10 :: after /\
    bound_texture (gl_bind (exec drv before Sample.busy_context)) 3 = 33 /\
    textures (gl_obj (exec drv before Sample.busy_context)) !! 5
    = Some {| tex_format := GL_R32F; tex_buffer := 8 |}.
Proof.
  intros drv run.
  destruct (EvalStencils_state_at_draw drv Sample.compiled
              8 (Sample.desc 0 3 3) 9 (Sample.desc 11 3 7) 31 32 33 34 2 12
              Sample.busy_context)
    as (before & after & I & _ & _ & _ & _ & _ & _ & _ & B & _ & T).
  - discriminate.
  - reflexivity.
  - discriminate.
  - intros [E _]. discriminate E.
  - exists before, after. split; [exact I |]. split.
    + apply B. discriminate.
    + apply T. discriminate.
Defined.

Lemma EvalPatches_bindings_at_draw this srcBuffer srcDesc dstBuffer dstDesc
      patchCoordsBuffer patchArrays t1 t2 vao r count b :
  let k := _patchKernel this in
  let b' := exec_bind
              (EvalPatches_setup this srcBuffer srcDesc patchCoordsBuffer
                 patchArrays t1 t2 vao ++
               [ BindBufferRange GL_TRANSFORM_FEEDBACK_BUFFER 0 dstBuffer
                   (bytes_of (int_sub (offset dstDesc) r) sizeof_float)
                   (bytes_of (int_mul count (stride dstDesc)) sizeof_float);
                 BeginTransformFeedback GL_POINTS ]) b in
  current_program b' = pk_program k /\
  rasterizer_discard b' = true /\
  vertex_array b' = vao /\
  xfb_buffer b' = dstBuffer /\
  array_buffer b' = patchCoordsBuffer /\
  (pk_uniformSrcBufferTexture k <> -1 ->
   bound_texture b' 0 = _srcBufferTexture this) /\
  (pk_uniformPatchParamTexture k <> -1 -> bound_texture b' 1 = t2) /\
  (pk_uniformPatchIndexTexture k <> -1 -> bound_texture b' 2 = t1).
Proof.
  unfold EvalPatches_setup, bindTexture_calls.
  destruct (Z.eqb_spec (pk_uniformSrcBufferTexture (_patchKernel this)) (-1)),
    (Z.eqb_spec (pk_uniformPatchParamTexture (_patchKernel this)) (-1)),
    (Z.eqb_spec (pk_uniformPatchIndexTexture (_patchKernel this)) (-1));
    cbn; repeat split; intros; try contradiction;
    unfold bound_texture; cbn;
    repeat (rewrite lookup_insert; case_decide; subst; cbn;
            try lia; try reflexivity).
Qed.

Lemma EvalPatches_setup_split this srcBuffer srcDesc patchCoordsBuffer
      patchArrays t1 t2 vao :
  let k := _patchKernel this in
  EvalPatches_setup this srcBuffer srcDesc patchCoordsBuffer patchArrays t1 t2
    vao
  = [ GenVertexArrays 1; BindVertexArray vao; Enable GL_RASTERIZER_DISCARD;
      UseProgram (pk_program k);
      BindTexture GL_TEXTURE_BUFFER (_srcBufferTexture this);
      TexBuffer GL_TEXTURE_BUFFER GL_R32F srcBuffer ] ++
    ([ BindTexture GL_TEXTURE_BUFFER 0 ] ++
     bindTexture_calls (pk_uniformSrcBufferTexture k) (_srcBufferTexture this) 0 ++
     bindTexture_calls (pk_uniformPatchParamTexture k) t2 1 ++
     bindTexture_calls (pk_uniformPatchIndexTexture k) t1 2 ++
     [ Uniform4iv (pk_uniformPatchArray k)
         (to_int (Z.of_nat (List.length patchArrays))) (concat patchArrays);
       Uniform1i (pk_uniformSrcOffset k) (offset srcDesc);
       EnableVertexAttribArray 0; EnableVertexAttribArray 1;
       BindBuffer GL_ARRAY_BUFFER patchCoordsBuffer;
       VertexAttribIPointer 0 3 GL_UNSIGNED_INT
         (to_int (to_size_t (sizeof_int * 5))) 0;
       VertexAttribPointer 1 2 GL_FLOAT GL_FALSE
         (to_int (to_size_t (sizeof_int * 5))) (sizeof_int * 3) ]).
Proof.
  unfold EvalPatches_setup. reflexivity.
Qed.

Lemma EvalPatches_setup_rest_inert {T} (f : Objects -> T) drv this srcDesc
      patchCoordsBuffer patchArrays t1 t2 tail :
  let k := _patchKernel this in
  Forall (fun c => forall b o, f (obj_effect drv c b o) = f o) tail ->
  Forall (fun c => forall b o, f (obj_effect drv c b o) = f o)
    (([ BindTexture GL_TEXTURE_BUFFER 0 ] ++
      bindTexture_calls (pk_uniformSrcBufferTexture k) (_srcBufferTexture this) 0 ++
      bindTexture_calls (pk_uniformPatchParamTexture k) t2 1 ++
      bindTexture_calls (pk_uniformPatchIndexTexture k) t1 2 ++
      [ Uniform4iv (pk_uniformPatchArray k)
          (to_int (Z.of_nat (List.length patchArrays))) (concat patchArrays);
        Uniform1i (pk_uniformSrcOffset k) (offset srcDesc);
        EnableVertexAttribArray 0; EnableVertexAttribArray 1;
        BindBuffer GL_ARRAY_BUFFER patchCoordsBuffer;
        VertexAttribIPointer 0 3 GL_UNSIGNED_INT
          (to_int (to_size_t (sizeof_int * 5))) 0;
        VertexAttribPointer 1 2 GL_FLOAT GL_FALSE
          (to_int (to_size_t (sizeof_int * 5))) (sizeof_int * 3) ]) ++ tail).
Proof.
  intros k Ht.
  repeat first
    [ exact Ht
    | apply bindTexture_calls_inert
    | apply Forall_app; split
    | apply Forall_nil_2
    | apply Forall_cons; split;
      [ intros ? ?; cbn; repeat case_decide; reflexivity | ] ].
Qed.

(** X18. The context in which [EvalPatches] draws.  When the draw is
    issued the patch program is in use, rasterizer discard is on, the
    vertex array just generated is bound, the destination buffer is the
    transform-feedback buffer, the patch coordinates buffer is the array
    buffer, unit 1 holds the patch param texture and unit 2 the patch
    index texture (unit 0 the source texture) where the sampler has a
    location, and the source buffer texture, if the evaluator has one, is
    a [GL_R32F] view of [srcBuffer]. *)
Theorem EvalPatches_state_at_draw drv this srcBuffer srcDesc dstBuffer dstDesc
    duBuffer duDesc dvBuffer dvDesc numPatchCoords patchCoordsBuffer
    patchArrays patchIndexTexture patchParamTexture w :
  pk_program (_patchKernel this) <> 0 ->
  stride dstDesc <> 0 ->
  ~ (offset dstDesc = INT_MIN /\ stride dstDesc = -1) ->
  let run := EvalPatches drv this srcBuffer srcDesc dstBuffer dstDesc
               duBuffer duDesc dvBuffer dvDesc numPatchCoords
               patchCoordsBuffer patchArrays patchIndexTexture
               patchParamTexture in
  let k := _patchKernel this in
  exists before after,
    issued run w = before ++ DrawArrays GL_POINTS 0 numPatchCoords :: after /\
    let ctx := exec drv before w in
    let b := gl_bind ctx in
    current_program b = pk_program k /\
    rasterizer_discard b = true /\
    vertex_array b = next_generated w /\
    xfb_buffer b = dstBuffer /\
    array_buffer b = patchCoordsBuffer /\
    (pk_uniformSrcBufferTexture k <> -1 ->
     bound_texture b 0 = _srcBufferTexture this) /\
    (pk_uniformPatchParamTexture k <> -1 ->
     bound_texture b 1 = patchParamTexture) /\
    (pk_uniformPatchIndexTexture k <> -1 ->
     bound_texture b 2 = patchIndexTexture) /\
    (_srcBufferTexture this <> 0 ->
     textures (gl_obj ctx) !! _srcBufferTexture this
     = Some {| tex_format := GL_R32F; tex_buffer := srcBuffer |}).
Proof.
  intros Hp Hs Hq run k.
  pose proof (int_rem_defined _ _ Hs Hq) as Hr.
  set (r := Z.rem (offset dstDesc) (stride dstDesc)) in *.
  pose proof (EvalPatches_issued drv this srcBuffer srcDesc dstBuffer dstDesc
                duBuffer duDesc dvBuffer dvDesc numPatchCoords
                patchCoordsBuffer patchArrays patchIndexTexture
                patchParamTexture w r Hp Hr) as I.
  fold run in I.
  exists (EvalPatches_setup this srcBuffer srcDesc patchCoordsBuffer
            patchArrays patchIndexTexture patchParamTexture
            (next_generated w) ++
          [ BindBufferRange GL_TRANSFORM_FEEDBACK_BUFFER 0 dstBuffer
              (bytes_of (int_sub (offset dstDesc) r) sizeof_float)
              (bytes_of (int_mul numPatchCoords (stride dstDesc)) sizeof_float);
            BeginTransformFeedback GL_POINTS ]),
         ([EndTransformFeedback] ++ EvalPatches_teardown (next_generated w)).
  split.
  { rewrite I. unfold feedback_pass. rewrite <- !app_assoc. reflexivity. }
  cbv zeta.
  destruct (EvalPatches_bindings_at_draw this srcBuffer srcDesc dstBuffer
              dstDesc patchCoordsBuffer patchArrays patchIndexTexture
              patchParamTexture (next_generated w) r numPatchCoords (gl_bind w))
    as (B1 & B2 & B3 & B4 & B5 & B6 & B7 & B8).
  cbv zeta in B1, B2, B3, B4, B5, B6, B7, B8.
  rewrite exec_gl_bind.
  do 8 (split; [assumption |]).
  intros Hsrc.
  rewrite EvalPatches_setup_split. cbv zeta.
  rewrite <- app_assoc, exec_app.
  rewrite (exec_preserves textures).
  - destruct (source_texture_attached drv (next_generated w) (pk_program k)
                (_srcBufferTexture this) srcBuffer w) as [T _].
    cbv zeta in T. fold k. rewrite T.
    rewrite decide_False by exact Hsrc. apply lookup_insert_eq.
  - apply EvalPatches_setup_rest_inert. inert_calls.
Qed.

Lemma EvalPatches_state_at_draw_witness :
  let drv := Sample.good_driver true in
  let run := EvalPatches drv Sample.compiled
               8 (Sample.desc 0 3 3) 9 (Sample.desc 11 3 7)
               0 (Sample.desc 0 0 0) 0 (Sample.desc 0 0 0) 4 20
               [[1; 2; 3; 4]] 41 42 in
  exists before after,
    issued run Sample.busy_context
    = before ++ DrawArrays GL_POINTS 0 4 :: after /\
    array_buffer (gl_bind (exec drv before Sample.busy_context)) = 20 /\
    bound_texture (gl_bind (exec drv before Sample.busy_context)) 1 = 42.
Proof.
  intros drv run.
  destruct (EvalPatches_state_at_draw drv Sample.compiled
              8 (Sample.desc 0 3 3) 9 (Sample.desc 11 3 7)
              0 (Sample.desc 0 0 0) 0 (Sample.desc 0 0 0) 4 20
              [[1; 2; 3; 4]] 41 42 Sample.busy_context)
    as (before & after & I & _ & _ & _ & _ & A & _ & B & _).
  - discriminate.
  - discriminate.
  - intros [E _]. discriminate E.
  - exists before, after. split; [exact I |]. split; [exact A |].
    apply B. discriminate.
Defined.

(** ** What an evaluation leaves in the context *)









(** ** Where the first component of a vertex is written *)

Lemma range_bindings_feedback this_setup dstBuffer dstDesc r count teardown :
  range_bindings this_setup = [] ->
  range_bindings teardown = [] ->
  range_bindings (this_setup ++ feedback_pass dstBuffer dstDesc r count ++ teardown)
  = [ (GL_TRANSFORM_FEEDBACK_BUFFER, 0, dstBuffer,
       bytes_of (int_sub (offset dstDesc) r) sizeof_float,
       bytes_of (int_mul count (stride dstDesc)) sizeof_float) ].
Proof.
  intros Hs Ht. unfold range_bindings in *. rewrite !omap_app, Hs, Ht.
  reflexivity.
Qed.

(** X21. The kernel and the evaluation agree on where a vertex starts.
    For a destination descriptor with [stride > 0], [offset >= 0] and
    [length > 0], [compileKernel] puts [outVertexBuffer[0]] at position
    [r = offset % stride] of the interleaved varyings, behind [r] skipped
    components, and [EvalStencils] and [EvalPatches] bind the destination
    at float offset [offset - r], a multiple of the stride: the first
    component of the first vertex is written at float [offset] of the
    destination buffer. *)
Theorem first_component_lands_at_offset drv shaderSource this srcBuffer srcDesc
    dstBuffer dstDesc sizesTexture offsetsTexture indicesTexture weightsTexture
    start end_ duBuffer duDesc dvBuffer dvDesc numPatchCoords patchCoordsBuffer
    patchArrays patchIndexTexture patchParamTexture kernelDefine w1 w2 w3 :
  0 < stride dstDesc ->
  0 <= offset dstDesc <= INT_MAX ->
  0 < length dstDesc <= INT_MAX ->
  let r := Z.rem (offset dstDesc) (stride dstDesc) in
  r + length dstDesc <= INT_MAX ->
  sk_program (_stencilKernel this) <> 0 ->
  pk_program (_patchKernel this) <> 0 ->
  0 < int_sub end_ start ->
  exists names count bindOffset size1 size2,
    varyings_declared
      (issued (compileKernel drv shaderSource srcDesc dstDesc kernelDefine) w1)
    = [ (count, names, GL_INTERLEAVED_ATTRIBS) ] /\
    range_bindings
      (issued (EvalStencils drv this srcBuffer srcDesc dstBuffer dstDesc
                 sizesTexture offsetsTexture indicesTexture weightsTexture
                 start end_) w2)
    = [ (GL_TRANSFORM_FEEDBACK_BUFFER, 0, dstBuffer,
         bindOffset * sizeof_float, size1) ] /\
    range_bindings
      (issued (EvalPatches drv this srcBuffer srcDesc dstBuffer dstDesc
                 duBuffer duDesc dvBuffer dvDesc numPatchCoords
                 patchCoordsBuffer patchArrays patchIndexTexture
                 patchParamTexture) w3)
    = [ (GL_TRANSFORM_FEEDBACK_BUFFER, 0, dstBuffer,
         bindOffset * sizeof_float, size2) ] /\
    names !! Z.to_nat r = Some "outVertexBuffer[0]" /\
    (forall j, (j < Z.to_nat r)%nat -> names !! j = Some "gl_SkipComponents1") /\
    bindOffset + r = offset dstDesc /\
    bindOffset mod stride dstDesc = 0 /\
    0 <= r < stride dstDesc.
Proof.
  intros Hs Ho Hl r Hrl Hsk Hpk Hc.
  assert (Hs' : stride dstDesc <> 0) by lia.
  assert (Hm : ~ (offset dstDesc = INT_MIN /\ stride dstDesc = -1)) by lia.
  pose proof (int_rem_defined _ _ Hs' Hm) as Hr. fold r in Hr.
  assert (Er : r = offset dstDesc mod stride dstDesc).
  { unfold r. apply Z.rem_mod_nonneg; lia. }
  assert (Rr : 0 <= r < stride dstDesc).
  { rewrite Er. apply Z.mod_pos_bound. lia. }
  assert (Io : in_int (offset dstDesc)).
  { unfold in_int, INT_MIN, INT_MAX in *. lia. }
  destruct (rem_in_int (offset dstDesc) (stride dstDesc) Io) as [_ Id].
  fold r in Id.
  exists (fill_outputs r dstDesc). eexists. exists (offset dstDesc - r).
  do 2 eexists.
  split; [apply (varyings_declared_compileKernel _ _ _ _ _ _ _ Hr) |].
  split.
  { rewrite (issued_exec drv _ _ _ _
               (EvalStencils_exec drv this srcBuffer srcDesc dstBuffer dstDesc
                  sizesTexture offsetsTexture indicesTexture weightsTexture
                  start end_ w2 r Hsk Hc Hr)).
    rewrite range_bindings_feedback.
    - rewrite (int_sub_exact _ _ Id). unfold sizeof_float.
      now rewrite (bytes_of_exact _ Id).
    - apply range_bindings_EvalStencils_setup.
    - reflexivity. }
  split.
  { rewrite (EvalPatches_issued drv this srcBuffer srcDesc dstBuffer dstDesc
               duBuffer duDesc dvBuffer dvDesc numPatchCoords
               patchCoordsBuffer patchArrays patchIndexTexture
               patchParamTexture w3 r Hpk Hr).
    rewrite range_bindings_feedback.
    - rewrite (int_sub_exact _ _ Id). unfold sizeof_float.
      now rewrite (bytes_of_exact _ Id).
    - apply range_bindings_EvalPatches_setup.
    - reflexivity. }
  rewrite fill_outputs_unfold.
  split; [| split; [| split; [lia | split; [| exact Rr]]]].
  - rewrite lookup_app_r by (rewrite length_replicate; lia).
    rewrite length_replicate, Nat.sub_diag.
    destruct (length dstDesc) as [| len |] eqn:El; try lia.
    rewrite lookup_app_l.
    + rewrite list_lookup_fmap, lookup_seqZ_lt by lia. reflexivity.
    + rewrite length_fmap, length_seqZ. lia.
  - intros j Hj. rewrite lookup_app_l by (rewrite length_replicate; lia).
    now apply lookup_replicate_2.
  - rewrite Er.
    rewrite (Z.div_mod (offset dstDesc) (stride dstDesc)) at 1 by lia.
    replace (stride dstDesc * (offset dstDesc / stride dstDesc) +
             offset dstDesc mod stride dstDesc -
             offset dstDesc mod stride dstDesc)
      with (offset dstDesc / stride dstDesc * stride dstDesc) by lia.
    apply Z.mod_mul. lia.
Qed.

Lemma first_component_lands_at_offset_witness :
  let dst := Sample.desc 11 3 7 in
  exists names count bindOffset size1,
    varyings_declared
      (issued (compileKernel (Sample.good_driver true) "KERNEL"
                 (Sample.desc 0 3 3) dst "#define K") Sample.new_context)
    = [ (count, names, GL_INTERLEAVED_ATTRIBS) ] /\
    range_bindings
      (issued (EvalStencils (Sample.good_driver true) Sample.compiled
                 8 (Sample.desc 0 3 3) 9 dst 31 32 33 34 2 12)
              Sample.busy_context)
    = [ (GL_TRANSFORM_FEEDBACK_BUFFER, 0, 9, bindOffset * 4, size1) ] /\
    names !! 4%nat = Some "outVertexBuffer[0]" /\
    bindOffset + 4 = 11.
Proof.
  intros dst.
  destruct (first_component_lands_at_offset (Sample.good_driver true) "KERNEL"
              Sample.compiled 8 (Sample.desc 0 3 3) 9 dst 31 32 33 34 2 12
              0 (Sample.desc 0 0 0) 0 (Sample.desc 0 0 0) 4 20
              [[1; 2; 3; 4]] 41 42 "#define K"
              Sample.new_context Sample.busy_context Sample.busy_context)
    as (names & count & bindOffset & size1 & size2 & V & B & _ & N & _ & O & _).
  - reflexivity.
  - split; [discriminate | vm_compute; discriminate].
  - split; [reflexivity | vm_compute; discriminate].
  - vm_compute. discriminate.
  - discriminate.
  - discriminate.
  - reflexivity.
  - exists names, count, bindOffset, size1.
    split; [exact V |]. split; [exact B |]. split; [exact N | exact O].
Defined.

(** ** Compile, then evaluate *)

Lemma Uniform1i_in_bindTexture_calls s t u :
  s <> -1 -> Uniform1i s u ∈ bindTexture_calls s t u.
Proof.
  intros Hs. unfold bindTexture_calls. apply Z.eqb_neq in Hs. rewrite Hs.
  apply list_elem_of_here.
Qed.

Ltac in_calls :=
  first
    [ assumption
    | apply list_elem_of_here
    | apply list_elem_of_further; in_calls
    | apply elem_of_app; left; in_calls
    | apply elem_of_app; right; in_calls ].

(** X22. [Compile], then evaluate.  On the evaluator a successful
    [Compile] leaves, [EvalStencils] (for a non-empty batch) uses the
    stencil program and sets the uniform the driver located as
    [batchStart] to [start], [batchEnd] to [end], [srcOffset] to
    [srcDesc.offset], and the samplers [vertexBuffer], [sizes], [offsets],
    [indices], [weights] that have a location to the units 0 to 4;
    [EvalPatches] uses the patch program, passes the patch arrays to
    [patchArray], [srcDesc.offset] to [srcOffset] and sets the samplers
    [vertexBuffer], [patchParamBuffer], [patchIndexBuffer] to the units 0
    to 2. *)
Theorem compiled_kernels_receive_arguments drv shaderSource this srcDesc
    dstDesc w this' w' :
  Compile drv shaderSource this srcDesc dstDesc w = (Ok (true, this'), w') ->
  let location := drv_uniform_location drv in
  let p := next_generated w in
  let q := third_generated w in
  (forall srcBuffer dstBuffer sizesTexture offsetsTexture indicesTexture
          weightsTexture start end_ w'',
      0 < int_sub end_ start ->
      let cs := issued (EvalStencils drv this' srcBuffer srcDesc dstBuffer
                          dstDesc sizesTexture offsetsTexture indicesTexture
                          weightsTexture start end_) w'' in
      UseProgram p ∈ cs /\
      Uniform1i (location p "batchStart") start ∈ cs /\
      Uniform1i (location p "batchEnd") end_ ∈ cs /\
      Uniform1i (location p "srcOffset") (offset srcDesc) ∈ cs /\
      (forall name unit,
          (name, unit) ∈ [ ("vertexBuffer", 0); ("sizes", 1); ("offsets", 2);
                           ("indices", 3); ("weights", 4) ] ->
          location p name <> -1 ->
          Uniform1i (location p name) unit ∈ cs)) /\
  (forall srcBuffer dstBuffer duBuffer duDesc dvBuffer dvDesc numPatchCoords
          patchCoordsBuffer patchArrays patchIndexTexture patchParamTexture
          w'',
      let cs := issued (EvalPatches drv this' srcBuffer srcDesc dstBuffer
                          dstDesc duBuffer duDesc dvBuffer dvDesc
                          numPatchCoords patchCoordsBuffer patchArrays
                          patchIndexTexture patchParamTexture) w'' in
      UseProgram q ∈ cs /\
      Uniform4iv (location q "patchArray")
        (to_int (Z.of_nat (List.length patchArrays))) (concat patchArrays)
        ∈ cs /\
      Uniform1i (location q "srcOffset") (offset srcDesc) ∈ cs /\
      (forall name unit,
          (name, unit) ∈ [ ("vertexBuffer", 0); ("patchParamBuffer", 1);
                           ("patchIndexBuffer", 2) ] ->
          location q name <> -1 ->
          Uniform1i (location q name) unit ∈ cs)).
Proof.
  intros E location p q.
  destruct (Compile_true_inv _ _ _ _ _ _ _ _ E) as (r & Hr & -> & _).
  split.
  - intros srcBuffer dstBuffer t1 t2 t3 t4 start end_ w'' Hc cs.
    assert (Hp : sk_program (_stencilKernel (compiled_evaluator drv this w))
                 <> 0) by discriminate.
    unfold cs.
    rewrite (issued_exec drv _ _ _ _
               (EvalStencils_exec drv _ srcBuffer srcDesc dstBuffer dstDesc
                  t1 t2 t3 t4 start end_ w'' r Hp Hc Hr)).
    unfold EvalStencils_setup, EvalStencils_inputs.
    cbn [compiled_evaluator _stencilKernel stencil_kernel_of sk_program
           sk_uniformSrcBufferTexture sk_uniformSrcOffset
           sk_uniformSizesTexture sk_uniformOffsetsTexture
           sk_uniformIndicesTexture sk_uniformWeightsTexture sk_uniformStart
           sk_uniformEnd].
    fold p location.
    split; [in_calls |]. split; [in_calls |]. split; [in_calls |].
    split; [in_calls |].
    intros name unit Hn Hl.
    pose proof (fun t => Uniform1i_in_bindTexture_calls _ t unit Hl) as Hb.
    apply list_elem_of_In in Hn. cbn in Hn.
    destruct Hn as [Hn | [Hn | [Hn | [Hn | [Hn | []]]]]];
      injection Hn as <- <-;
      match goal with
      | |- context [bindTexture_calls (location p ?n) ?t ?u] =>
          lazymatch goal with
          | |- Uniform1i (location p n) u ∈ _ =>
              pose proof (Hb t)
          end
      end; in_calls.
  - intros srcBuffer dstBuffer duBuffer duDesc dvBuffer dvDesc numPatchCoords
      patchCoordsBuffer patchArrays patchIndexTexture patchParamTexture w'' cs.
    assert (Hp : pk_program (_patchKernel (compiled_evaluator drv this w))
                 <> 0) by discriminate.
    unfold cs.
    rewrite (EvalPatches_issued drv _ srcBuffer srcDesc dstBuffer dstDesc
               duBuffer duDesc dvBuffer dvDesc numPatchCoords
               patchCoordsBuffer patchArrays patchIndexTexture
               patchParamTexture w'' r Hp Hr).
    unfold EvalPatches_setup.
    cbn [compiled_evaluator _patchKernel patch_kernel_of pk_program
           pk_uniformSrcBufferTexture pk_uniformSrcOffset pk_uniformPatchArray
           pk_uniformPatchParamTexture pk_uniformPatchIndexTexture].
    fold q location.
    split; [in_calls |]. split; [in_calls |]. split; [in_calls |].
    intros name unit Hn Hl.
    pose proof (fun t => Uniform1i_in_bindTexture_calls _ t unit Hl) as Hb.
    apply list_elem_of_In in Hn. cbn in Hn.
    destruct Hn as [Hn | [Hn | [Hn | []]]];
      injection Hn as <- <-;
      match goal with
      | |- context [bindTexture_calls (location q ?n) ?t ?u] =>
          lazymatch goal with
          | |- Uniform1i (location q n) u ∈ _ =>
              pose proof (Hb t)
          end
      end; in_calls.
Qed.

Lemma compiled_kernels_receive_arguments_witness :
  let drv := Sample.good_driver true in
  let src := Sample.desc 0 3 3 in
  let dst := Sample.desc 4 3 7 in
  let this' := compiled_evaluator drv GLXFBEvaluator_new Sample.new_context in
  let w' := (Compile drv "KERNEL" GLXFBEvaluator_new src dst
               Sample.new_context).2 in
  Uniform1i 10 2
    ∈ issued (EvalStencils drv this' 8 src 9 dst 31 32 33 34 2 12) w' /\
  Uniform1i 7 3
    ∈ issued (EvalStencils drv this' 8 src 9 dst 31 32 33 34 2 12) w'.
Proof.
  intros drv src dst this' w'.
  destruct (compiled_kernels_receive_arguments drv "KERNEL" GLXFBEvaluator_new
              src dst Sample.new_context this' w') as [S _].
  - vm_compute. reflexivity.
  - destruct (S 8 9 31 32 33 34 2 12 w') as (_ & B & _ & _ & U).
    + reflexivity.
    + split; [exact B |].
      apply (U "indices" 3).
      * apply list_elem_of_In. cbn. tauto.
      * discriminate.
Defined.

(** ** EvalStencils never draws an empty batch *)

Lemma draws_feedback setup dstBuffer dstDesc r count teardown :
  draws setup = [] ->
  draws teardown = [] ->
  draws (setup ++ feedback_pass dstBuffer dstDesc r count ++ teardown)
  = [(GL_POINTS, 0, count)].
Proof.
  intros Hs Ht. unfold draws in *. rewrite !omap_app, Hs, Ht. reflexivity.
Qed.

(** X23. [EvalStencils] never draws an empty batch: any draw it issues,
    in any context and for any arguments, is
    [glDrawArrays(GL_POINTS, 0, end - start)] with [end - start] (in
    [int]) positive and a compiled stencil kernel, and it is the only
    draw of the call. *)
Theorem EvalStencils_draws_only_positive_batches drv this srcBuffer srcDesc
    dstBuffer dstDesc sizesTexture offsetsTexture indicesTexture weightsTexture
    start end_ w mode first count :
  (mode, first, count)
    ∈ draws (issued (EvalStencils drv this srcBuffer srcDesc dstBuffer dstDesc
                       sizesTexture offsetsTexture indicesTexture
                       weightsTexture start end_) w) ->
  mode = GL_POINTS /\ first = 0 /\ count = int_sub end_ start /\ 0 < count /\
  sk_program (_stencilKernel this) <> 0 /\
  draws (issued (EvalStencils drv this srcBuffer srcDesc dstBuffer dstDesc
                   sizesTexture offsetsTexture indicesTexture
                   weightsTexture start end_) w)
  = [(GL_POINTS, 0, count)].
Proof.
  destruct (Z.eqb_spec (sk_program (_stencilKernel this)) 0) as [Hz | Hp].
  { assert (E : EvalStencils drv this srcBuffer srcDesc dstBuffer dstDesc
                  sizesTexture offsetsTexture indicesTexture weightsTexture
                  start end_ w = (Ok false, w)).
    { unfold EvalStencils. now rewrite Hz. }
    rewrite (issued_nothing _ _ _ E). intros H.
    exfalso. exact (proj1 (elem_of_nil _) H). }
  destruct (Z.leb_spec (int_sub end_ start) 0) as [Hc | Hc].
  { assert (E : EvalStencils drv this srcBuffer srcDesc dstBuffer dstDesc
                  sizesTexture offsetsTexture indicesTexture weightsTexture
                  start end_ w = (Ok true, w)).
    { unfold EvalStencils. apply Z.eqb_neq in Hp. rewrite Hp.
      apply Z.leb_le in Hc. now rewrite Hc. }
    rewrite (issued_nothing _ _ _ E). intros H.
    exfalso. exact (proj1 (elem_of_nil _) H). }
  destruct (int_rem (offset dstDesc) (stride dstDesc)) as [r |] eqn:Hr.
  - rewrite (issued_exec drv _ _ _ _
               (EvalStencils_exec drv this srcBuffer srcDesc dstBuffer dstDesc
                  sizesTexture offsetsTexture indicesTexture weightsTexture
                  start end_ w r Hp Hc Hr)).
    rewrite draws_feedback
      by (apply draws_EvalStencils_setup || reflexivity).
    intros H. apply list_elem_of_singleton in H. injection H as -> -> ->.
    repeat split; assumption.
  - rewrite (issued_exec drv _ _ _ _
               (EvalStencils_trap drv this srcBuffer srcDesc dstBuffer dstDesc
                  sizesTexture offsetsTexture indicesTexture weightsTexture
                  start end_ w Hp Hc Hr)).
    rewrite draws_EvalStencils_setup. intros H.
    exfalso. exact (proj1 (elem_of_nil _) H).
Qed.

Lemma EvalStencils_draws_only_positive_batches_witness :
  let run := EvalStencils (Sample.good_driver true) Sample.compiled
               8 (Sample.desc 0 3 3) 9 (Sample.desc 11 3 7) 31 32 33 34 2 12 in
  (GL_POINTS, 0, 10) ∈ draws (issued run Sample.busy_context) /\
  0 < 10 /\ sk_program (_stencilKernel Sample.compiled) <> 0.
Proof.
  intros run.
  assert (H : (GL_POINTS, 0, 10) ∈ draws (issued run Sample.busy_context)).
  { vm_compute. apply list_elem_of_here. }
  split; [exact H |].
  destruct (EvalStencils_draws_only_positive_batches (Sample.good_driver true)
              Sample.compiled 8 (Sample.desc 0 3 3) 9 (Sample.desc 11 3 7)
              31 32 33 34 2 12 Sample.busy_context GL_POINTS 0 10 H)
    as (_ & _ & _ & P & K & _).
  split; [exact P | exact K].
Defined.

(** ** EvalPatches: when the error is reported *)

Lemma far_errors_after_derivative_check du dv w :
  far_errors (after_derivative_check du dv w)
  = far_errors w ++
    (if negb (du =? 0) || negb (dv =? 0)
     then [(FAR_RUNTIME_ERROR,
            "GLXFBEvaluator doesn't support derivative evaluation yet." +:+
            newline)]
     else []).
Proof.
  unfold after_derivative_check.
  destruct (_ || _); [reflexivity | now rewrite app_nil_r].
Qed.

(** X24. When [EvalPatches] reports.  In every context and for all
    arguments the call reports the derivative error once if the patch
    kernel is compiled and one of the derivative buffers is not zero, and
    reports nothing otherwise; this holds also when the call then stops at
    an undefined remainder. *)
Theorem EvalPatches_reports_exactly drv this srcBuffer srcDesc dstBuffer dstDesc
    duBuffer duDesc dvBuffer dvDesc numPatchCoords patchCoordsBuffer
    patchArrays patchIndexTexture patchParamTexture w :
  reported (EvalPatches drv this srcBuffer srcDesc dstBuffer dstDesc
              duBuffer duDesc dvBuffer dvDesc numPatchCoords patchCoordsBuffer
              patchArrays patchIndexTexture patchParamTexture) w
  = if negb (pk_program (_patchKernel this) =? 0) &&
       (negb (duBuffer =? 0) || negb (dvBuffer =? 0))
    then [(FAR_RUNTIME_ERROR,
           "GLXFBEvaluator doesn't support derivative evaluation yet." +:+
           newline)]
    else [].
Proof.
  destruct (Z.eqb_spec (pk_program (_patchKernel this)) 0) as [Hz | Hp].
  { cbn [negb andb]. apply (reported_of_run _ _ (Ok false) w).
    - unfold EvalPatches. now rewrite Hz.
    - now rewrite app_nil_r. }
  cbn [negb andb].
  destruct (int_rem (offset dstDesc) (stride dstDesc)) as [r |] eqn:Hr.
  - apply (reported_of_run _ _ _ _ _
             (EvalPatches_exec drv this srcBuffer srcDesc dstBuffer dstDesc
                duBuffer duDesc dvBuffer dvDesc numPatchCoords
                patchCoordsBuffer patchArrays patchIndexTexture
                patchParamTexture w r Hp Hr)).
    rewrite exec_errors. apply far_errors_after_derivative_check.
  - apply (reported_of_run _ _ _ _ _
             (EvalPatches_trap drv this srcBuffer srcDesc dstBuffer dstDesc
                duBuffer duDesc dvBuffer dvDesc numPatchCoords
                patchCoordsBuffer patchArrays patchIndexTexture
                patchParamTexture w Hp Hr)).
    rewrite exec_errors. apply far_errors_after_derivative_check.
Qed.

(** ** Compile: the programs it deletes *)

Lemma programs_deleted_app cs1 cs2 :
  programs_deleted (cs1 ++ cs2) = programs_deleted cs1 ++ programs_deleted cs2.
Proof. apply omap_app. Qed.

Lemma programs_deleted_delete_program_calls p :
  programs_deleted (delete_program_calls p) = held_program p.
Proof. unfold delete_program_calls, held_program. now destruct (p =? 0). Qed.

(** X25. The programs [Compile] deletes, with the remainder defined.
    The stencil program the evaluator held, if any, always goes first.  If
    the stencil kernel fails to link, the only other program deleted is
    the failed one, and the old patch program survives.  If it links, the
    old patch program is deleted next, followed by the new patch program
    when that one fails to link. *)
Theorem Compile_program_deletions drv shaderSource this srcDesc dstDesc w :
  stride dstDesc <> 0 ->
  ~ (offset dstDesc = INT_MIN /\ stride dstDesc = -1) ->
  let r := Z.rem (offset dstDesc) (stride dstDesc) in
  let links define :=
    kernel_links drv shaderSource srcDesc dstDesc define r in
  let old_stencil := held_program (sk_program (_stencilKernel this)) in
  let old_patch := held_program (pk_program (_patchKernel this)) in
  programs_deleted (issued (Compile drv shaderSource this srcDesc dstDesc) w)
  = if links stencil_define
    then if links patch_define
         then old_stencil ++ old_patch
         else old_stencil ++ old_patch ++ [third_generated w]
    else old_stencil ++ [next_generated w].
Proof.
  intros Hs Hm r links old_stencil old_patch.
  pose proof (int_rem_defined _ _ Hs Hm) as Hr. fold r in Hr.
  unfold links.
  destruct (kernel_links drv shaderSource srcDesc dstDesc stencil_define r)
    eqn:Hl1.
  2:{ pose proof (Compile_stencil_failed_run drv shaderSource this srcDesc
                    dstDesc r w Hr Hl1) as E.
      rewrite (issued_of_run _ _ _ _ _ E
                 ltac:(rewrite !gl_trace_log_error; apply exec_trace)).
      now rewrite programs_deleted_app, programs_deleted_delete_program_calls. }
  destruct (kernel_links drv shaderSource srcDesc dstDesc patch_define r)
    eqn:Hl2.
  2:{ pose proof (Compile_patch_failed_run drv shaderSource this srcDesc
                    dstDesc r w Hr Hl1 Hl2) as E.
      rewrite (issued_of_run _ _ _ _ _ E
                 ltac:(rewrite !gl_trace_log_error; apply exec_trace)).
      unfold Compile_stencil_calls, Compile_patch_calls.
      rewrite !programs_deleted_app, !programs_deleted_delete_program_calls.
      cbn. now rewrite <- ?app_assoc, ?app_nil_r. }
  pose proof (Compile_linked_run drv shaderSource this srcDesc dstDesc r w
                Hr Hl1 Hl2) as E.
  rewrite (issued_exec _ _ _ _ _ E).
  unfold Compile_calls, Compile_stencil_calls, Compile_patch_calls,
    Compile_final_calls.
  rewrite !programs_deleted_app, !programs_deleted_delete_program_calls.
  destruct (_srcBufferTexture this =? 0); cbn;
    now rewrite <- ?app_assoc, ?app_nil_r.
Qed.

Lemma Compile_program_deletions_witness :
  programs_deleted
    (issued (Compile Sample.stencil_only_driver "KERNEL" Sample.compiled
               (Sample.desc 0 3 3) (Sample.desc 4 3 7)) Sample.busy_context)
  = [1; 3; 102].
Proof.
  apply (Compile_program_deletions Sample.stencil_only_driver "KERNEL"
           Sample.compiled (Sample.desc 0 3 3) (Sample.desc 4 3 7)
           Sample.busy_context).
  - discriminate.
  - intros [E _]. discriminate E.
Defined.
